(** * bot-gpt-backend: the RAG pipeline and the conversation store

    A shallow embedding of [config.py], [models.py], [rag_service.py],
    [llm_service.py], [database.py] and the conversation handlers of
    [main.py], followed by the properties the specification states about
    them.

    Conventions.
    - A Python [str] is a [string]; its characters are read as the code
      points below 256, and [len] is [String.length].
    - A Python [int] is a [Z]; an argument that may be [None] is an
      [option].
    - A similarity score is a finite float; scores are only ever compared,
      so they are represented by the rational they denote ([Q]).
    - A call that may raise returns a sum, [inl] for the exception.
    - MongoDB collections with a unique index on the id are finite maps
      ([gmap string _]); a coroutine is a function of the collections that
      returns its outcome and the collections it leaves.
    - What the code gets from outside (the embedding model, scikit-learn,
      the chat-completion endpoint, [uuid4], the clock) is a parameter. *)

From Stdlib Require Import ZArith QArith Lia Permutation Sorted.
From Stdlib Require String Ascii.
From stdpp Require Import base option list sorting strings pretty gmap.

Close Scope Q_scope.
Local Open Scope Z_scope.

(* ===================================================================== *)
(** * Python primitives used by the sources *)
(* ===================================================================== *)

Module Py.

(** [x or d] on an optional integer: [None] and [0] are falsy. *)
Definition or_default (x : option Z) (d : Z) : Z :=
  match x with
  | None => d
  | Some v => if v =? 0 then d else v
  end.

(** [str.isspace] on the code points below 256: TAB..CR, FS..US, SPACE,
    NEL and NBSP. *)
Definition isspace (c : Ascii.ascii) : bool :=
  let n := Ascii.N_of_ascii c in
  ((9 <=? n) && (n <=? 13) || (28 <=? n) && (n <=? 32) || (n =? 133) || (n =? 160))%N.

(** [str.split()] without argument: the maximal runs of non-whitespace
    characters, left to right.  [cur] is the run being read, if any. *)
Fixpoint split_from (cur : option string) (s : string) : list string :=
  match s with
  | EmptyString =>
      match cur with
      | Some w => [w]
      | None => []
      end
  | String c s' =>
      if isspace c then
        match cur with
        | Some w => w :: split_from None s'
        | None => split_from None s'
        end
      else
        split_from (Some (default "" cur +:+ String c "")) s'
  end.

Definition split (s : string) : list string := split_from None s.

(** [sep.join(l)]. *)
Definition join (sep : string) (l : list string) : string := String.concat sep l.

(** The line feed. *)
Definition nl : string := String (Ascii.ascii_of_nat 10) "".

(** [len(s)] as a Python integer. *)
Definition len (s : string) : Z := Z.of_nat (String.length s).

(** Truthiness of a list: [if l]. *)
Definition truthy {A} (l : list A) : bool :=
  match l with
  | [] => false
  | _ :: _ => true
  end.

(** [a[start:]] on a list or an array, for any integer [start]: a
    negative start counts from the end and is clipped at the beginning, a
    positive one is clipped at the end. *)
Definition slice_from {A} (start : Z) (a : list A) : list A :=
  let n := Z.of_nat (List.length a) in
  let lo := if start <? 0 then Z.max (n + start) 0 else Z.min start n in
  skipn (Z.to_nat lo) a.

End Py.

(* ===================================================================== *)
(** * Exceptions *)
(* ===================================================================== *)

(** The handlers tell [HTTPException] from every other exception; the
    text of an exception is what [str(e)] gives. *)
Inductive exn : Type :=
  | Exception (msg : string)
  | HTTPException (status_code : Z) (detail : string).

(** The outcome of a call that may raise: [inl e] when [e] was raised. *)
Definition res (A : Type) : Type := (exn + A)%type.

Global Instance res_ret : MRet res := fun A x => inr x.

Global Instance res_bind : MBind res := fun A B f m =>
  match m with
  | inl e => inl e
  | inr x => f x
  end.

(* ===================================================================== *)
(** * config.py *)
(* ===================================================================== *)

Module config.

Record Settings := {
  GROQ_MODEL : string;
  CHUNK_SIZE : Z;
  TOP_K : Z
}.

(** The defaults of the [Settings] class. *)
Definition settings : Settings :=
  {| GROQ_MODEL := "llama-3.1-8b-instant"; CHUNK_SIZE := 500; TOP_K := 3 |}.

End config.

(* ===================================================================== *)
(** * models.py and the dictionaries stored in MongoDB *)
(* ===================================================================== *)

Inductive Mode : Type := open_chat | rag.

Global Instance Mode_eq_dec : EqDecision Mode.
Proof. solve_decision. Defined.

(** A [{role, content}] message as sent to the generation model. *)
Module ChatMessage.
Record t := { role : string; content : string }.
End ChatMessage.

(** A stored message: [{role, content, timestamp, tokens}], and for the
    assistant also [model] and [retrieved_chunks].  The store reads
    [tokens] with [message.get("tokens", 0)], so the key may be absent. *)
Module Message.
Record t := {
  role : string;
  content : string;
  timestamp : Z;
  tokens : option Z;
  model : option string;
  retrieved_chunks : option (list string)
}.

(** [message.get("tokens", 0)] *)
Definition get_tokens (m : t) : Z := default 0 (tokens m).
End Message.

Module MessageCreate.
Record t := { content : string; role : string }.
End MessageCreate.

Module ConversationCreate.
Record t := { mode : Mode; first_message : string; document_id : option string }.
End ConversationCreate.

Module ConversationDB.
Record t := {
  conversation_id : string;
  mode : Mode;
  document_id : option string;
  messages : list Message.t;
  total_tokens : Z;
  created_at : Z;
  updated_at : Z
}.
End ConversationDB.

(** A stored chunk: [{chunk_id, text, embedding, chunk_index}]. *)
Module Chunk.
Record t := {
  chunk_id : string;
  text : string;
  embedding : list Q;
  chunk_index : Z
}.
End Chunk.

Module DocumentDB.
Record t := {
  document_id : string;
  filename : string;
  chunks : list Chunk.t;
  total_chunks : Z;
  uploaded_at : Z
}.
End DocumentDB.

(* ===================================================================== *)
(** * The libraries behind the services *)
(* ===================================================================== *)

(** The sentence-embedding model and scikit-learn's [cosine_similarity],
    as [retrieve_relevant_chunks] uses them: [encode] embeds one text,
    [cosine_similarity q es] is the row of similarities of [q] with every
    vector of [es], one entry per vector, unless the library rejects its
    input and raises. *)
Class EmbeddingModel := {
  encode : string -> list Q;
  cosine_similarity : list Q -> list (list Q) -> res (list Q);
  cosine_similarity_length :
    forall q es sims, cosine_similarity q es = inr sims -> length sims = length es
}.

(** The chat-completion endpoint: model name, messages, [max_tokens] and
    [temperature] give the content and [usage.total_tokens] of the
    answer, or raise. *)
Class GroqClient := {
  chat_completions_create :
    string -> list ChatMessage.t -> Z -> Q -> res (string * Z)
}.

(** What [upload_document] gets from the uploaded bytes: [decode_utf8]
    is [content.decode("utf-8")], and [pdf_pages] the texts
    [page.extract_text()] of the pages of [PdfReader(BytesIO(content))],
    in page order.  Either may raise. *)
Class TextExtraction := {
  decode_utf8 : string -> res string;
  pdf_pages : string -> res (list string)
}.

(* ===================================================================== *)
(** * rag_service.py *)
(* ===================================================================== *)

Module RAGService.
Import config.

(** ** [chunk_text] *)

(** The three loop variables. *)
Record loop_state := {
  chunks : list string;
  current_chunk : list string;
  current_length : Z
}.

Definition loop_init : loop_state :=
  {| chunks := []; current_chunk := []; current_length := 0 |}.

(** One iteration of [for word in words]. *)
Definition loop_step (chunk_size : Z) (st : loop_state) (word : string) : loop_state :=
  let word_length := Py.len word + 1 in
  if (current_length st + word_length >? chunk_size) && Py.truthy (current_chunk st) then
    {| chunks := chunks st ++ [Py.join " " (current_chunk st)];
       current_chunk := [word];
       current_length := word_length |}
  else
    {| chunks := chunks st;
       current_chunk := current_chunk st ++ [word];
       current_length := current_length st + word_length |}.

(** The statement after the loop: emit the last chunk when non-empty. *)
Definition loop_finish (st : loop_state) : list string :=
  if Py.truthy (current_chunk st)
  then chunks st ++ [Py.join " " (current_chunk st)]
  else chunks st.

Definition chunk_words (chunk_size : Z) (words : list string) : list string :=
  loop_finish (fold_left (loop_step chunk_size) words loop_init).

Definition chunk_text (text : string) (chunk_size : option Z) : list string :=
  let chunk_size := Py.or_default chunk_size (CHUNK_SIZE settings) in
  let words := Py.split text in
  chunk_words chunk_size words.

(** ** [retrieve_relevant_chunks] *)

(** A retrieved chunk: [{text, chunk_id, score}]. *)
Record retrieved := {
  text : string;
  chunk_id : string;
  score : Q
}.

(** [a[i]] on the similarity row. *)
Definition key (a : list Q) (i : nat) : Q := nth i a 0%Q.

(** [np.argsort(a)]: the indices of [a] in ascending order of their
    entries.  NumPy's default sort makes no promise on equal entries; it
    is modelled by insertion sort, which keeps equal entries in index
    order (what NumPy's scalar sort does on short arrays) and is the most
    favourable choice for a claim on ties. *)
Fixpoint insert_index (a : list Q) (i : nat) (sorted : list nat) : list nat :=
  match sorted with
  | [] => [i]
  | j :: rest =>
      if Qle_bool (key a j) (key a i)
      then j :: insert_index a i rest
      else i :: j :: rest
  end.

Definition argsort (a : list Q) : list nat :=
  fold_left (fun sorted i => insert_index a i sorted) (seq 0 (length a)) [].

(** [np.argsort(similarities)[-top_k:][::-1]] *)
Definition top_indices (similarities : list Q) (top_k : Z) : list nat :=
  rev (Py.slice_from (- top_k) (argsort similarities)).

(** The dictionary appended for [idx]; an index out of range raises. *)
Definition result_at (document_chunks : list Chunk.t) (similarities : list Q)
    (idx : nat) : res retrieved :=
  match document_chunks !! idx, similarities !! idx with
  | Some c, Some s =>
      inr {| text := Chunk.text c; chunk_id := Chunk.chunk_id c; score := s |}
  | _, _ => inl (Exception "IndexError")
  end.

Definition retrieve_relevant_chunks `{EmbeddingModel}
    (query : string) (document_chunks : list Chunk.t) (top_k : option Z)
  : res (list retrieved) :=
  let top_k := Py.or_default top_k (TOP_K settings) in
  let query_embedding := encode query in
  let chunk_embeddings := map Chunk.embedding document_chunks in
  similarities ← cosine_similarity query_embedding chunk_embeddings;
  mapM (result_at document_chunks similarities) (top_indices similarities top_k).

(** ** [build_rag_prompt] *)

Definition context_block (i : nat) (chunk : retrieved) : string :=
  "Context " +:+ pretty (S i) +:+ ":" +:+ Py.nl +:+ text chunk.

Definition build_rag_prompt (query : string) (retrieved_chunks : list retrieved) : string :=
  let context := Py.join (Py.nl +:+ Py.nl) (imap context_block retrieved_chunks) in
  "Based on the following context, answer the question." +:+ Py.nl +:+ Py.nl
  +:+ context +:+ Py.nl +:+ Py.nl
  +:+ "Question: " +:+ query +:+ Py.nl +:+ Py.nl
  +:+ "Answer based only on the provided context:".

(** ** [generate_embeddings]

    [embedding_model.encode(texts)] gives one embedding per text, in the
    order of the texts. *)
Definition generate_embeddings `{EmbeddingModel} (texts : list string) : list (list Q) :=
  map encode texts.

End RAGService.

(* ===================================================================== *)
(** * llm_service.py *)
(* ===================================================================== *)

Module LLMService.
Import config.

(** The dictionary [generate_response] returns; the handlers add
    [retrieved_chunks] to it in RAG mode. *)
Record response := {
  content : string;
  tokens : Z;
  model : string;
  retrieved_chunks : option (list string)
}.

Definition format_message (msg : ChatMessage.t) : ChatMessage.t :=
  {| ChatMessage.role := ChatMessage.role msg;
     ChatMessage.content := ChatMessage.content msg |}.

(** Whatever the endpoint raises is raised again as
    [Exception("LLM Service Error: ...")]. *)
Definition generate_response `{GroqClient}
    (messages : list ChatMessage.t) (max_tokens : Z) (temperature : Q) : res response :=
  let formatted_messages := map format_message messages in
  match chat_completions_create (GROQ_MODEL settings) formatted_messages
          max_tokens temperature with
  | inr (content, tokens) =>
      inr {| content := content; tokens := tokens; model := GROQ_MODEL settings;
             retrieved_chunks := None |}
  | inl (Exception e) | inl (HTTPException _ e) =>
      inl (Exception ("LLM Service Error: " +:+ e))
  end.

(** The defaults of [generate_response]. *)
Definition default_max_tokens : Z := 2048.
Definition default_temperature : Q := 7 # 10.

Definition count_tokens (text : string) : Z := Py.len text / 4.

Definition prepare_context (messages : list Message.t) (max_history : Z)
  : list ChatMessage.t :=
  let recent_messages :=
    if Z.of_nat (length messages) >? max_history
    then Py.slice_from (- max_history) messages
    else messages in
  map (fun msg => {| ChatMessage.role := Message.role msg;
                     ChatMessage.content := Message.content msg |})
      recent_messages.

End LLMService.

(* ===================================================================== *)
(** * database.py *)
(* ===================================================================== *)

(** The two collections; both carry a unique index on the id. *)
Record db := {
  conversations : gmap string ConversationDB.t;
  documents : gmap string DocumentDB.t
}.

Definition empty_db : db := {| conversations := ∅; documents := ∅ |}.

(** A coroutine of the backend: it reads and updates the collections and
    returns or raises.  What was written before an exception stays
    written. *)
Definition M (A : Type) : Type := db -> res A * db.

Global Instance M_ret : MRet M := fun A x s => (inr x, s).

Global Instance M_bind : MBind M := fun A B f m s =>
  match m s with
  | (inl e, s') => (inl e, s')
  | (inr x, s') => f x s'
  end.

Definition raise {A} (e : exn) : M A := fun s => (inl e, s).

(** A call that does not touch the collections. *)
Definition lift {A} (r : res A) : M A := fun s => (r, s).

Module ConversationRepo.

(** [insert_one]; the unique index refuses an id that is already there. *)
Definition create (conversation_data : ConversationDB.t) : M ConversationDB.t :=
  fun s =>
    let id := ConversationDB.conversation_id conversation_data in
    match conversations s !! id with
    | Some _ => (inl (Exception "DuplicateKeyError"), s)
    | None =>
        (inr conversation_data,
         {| conversations := <[id := conversation_data]> (conversations s);
            documents := documents s |})
    end.

Definition get_by_id (conversation_id : string) : M (option ConversationDB.t) :=
  fun s => (inr (conversations s !! conversation_id), s).

(** The update document of [add_message]: [$push], [$set] and [$inc]. *)
Definition push_message (message : Message.t) (utcnow : Z) (conv : ConversationDB.t)
  : ConversationDB.t :=
  {| ConversationDB.conversation_id := ConversationDB.conversation_id conv;
     ConversationDB.mode := ConversationDB.mode conv;
     ConversationDB.document_id := ConversationDB.document_id conv;
     ConversationDB.messages := ConversationDB.messages conv ++ [message];
     ConversationDB.total_tokens :=
       ConversationDB.total_tokens conv + Message.get_tokens message;
     ConversationDB.created_at := ConversationDB.created_at conv;
     ConversationDB.updated_at := utcnow |}.

(** [update_one]: a conversation that is not there is left alone, and
    [modified_count] is then 0. *)
Definition add_message (conversation_id : string) (message : Message.t) (utcnow : Z)
  : M bool :=
  fun s =>
    match conversations s !! conversation_id with
    | Some conv =>
        (inr true,
         {| conversations :=
              <[conversation_id := push_message message utcnow conv]> (conversations s);
            documents := documents s |})
    | None => (inr false, s)
    end.

Definition delete (conversation_id : string) : M bool :=
  fun s =>
    match conversations s !! conversation_id with
    | Some _ =>
        (inr true,
         {| conversations := base.delete conversation_id (conversations s);
            documents := documents s |})
    | None => (inr false, s)
    end.

End ConversationRepo.

Module DocumentRepo.

(** [find_one({"document_id": document_id})]; every stored document has
    its id, so a query for [None] finds nothing. *)
Definition get_by_id (document_id : option string) : M (option DocumentDB.t) :=
  fun s => (inr (document_id ≫= fun id => documents s !! id), s).

(** [insert_one]; the unique index refuses an id that is already there. *)
Definition create (document_data : DocumentDB.t) : M DocumentDB.t :=
  fun s =>
    let id := DocumentDB.document_id document_data in
    match documents s !! id with
    | Some _ => (inl (Exception "DuplicateKeyError"), s)
    | None =>
        (inr document_data,
         {| conversations := conversations s;
            documents := <[id := document_data]> (documents s) |})
    end.

Definition delete (document_id : string) : M bool :=
  fun s =>
    match documents s !! document_id with
    | Some _ =>
        (inr true,
         {| conversations := conversations s;
            documents := base.delete document_id (documents s) |})
    | None => (inr false, s)
    end.

End DocumentRepo.

(** The uploaded file as [upload_document] reads it: its name, its
    declared content type and its bytes. *)
Module UploadFile.
Record t := { filename : string; content_type : string; content : string }.
End UploadFile.

(** The dictionary the document handlers return. *)
Module DocumentInfo.
Record t := {
  document_id : string;
  filename : string;
  total_chunks : Z;
  uploaded_at : Z
}.
End DocumentInfo.

(* ===================================================================== *)
(** * main.py: the conversation handlers *)
(* ===================================================================== *)

Module main.
Import LLMService.

(** [try: ... except HTTPException: raise / except Exception as e:
    raise HTTPException(status_code=500, detail=str(e))] *)
Definition try_except {A} (body : M A) : M A :=
  fun s =>
    match body s with
    | (inl (Exception e), s') => (inl (HTTPException 500 e), s')
    | r => r
    end.

Definition system_message (content : string) : ChatMessage.t :=
  {| ChatMessage.role := "system"; ChatMessage.content := content |}.

Definition user_prompt (content : string) : ChatMessage.t :=
  {| ChatMessage.role := "user"; ChatMessage.content := content |}.

(** [not data.document_id]: [None] and the empty string are falsy. *)
Definition falsy_id (document_id : option string) : bool :=
  match document_id with
  | None => true
  | Some id => bool_decide (id = "")
  end.

(** The RAG branch of both handlers: look the document up, retrieve,
    build the prompt, generate, and record the chunk ids in the
    response. *)
Definition rag_response `{EmbeddingModel, GroqClient}
    (document_id : option string) (query : string) (system : string) : M response :=
  document ← DocumentRepo.get_by_id document_id;
  match document with
  | None => raise (HTTPException 404 "Document not found")
  | Some document =>
      relevant_chunks ←
        lift (RAGService.retrieve_relevant_chunks query (DocumentDB.chunks document) None);
      let rag_prompt := RAGService.build_rag_prompt query relevant_chunks in
      let messages_for_llm := [system_message system; user_prompt rag_prompt] in
      response ←
        lift (generate_response messages_for_llm default_max_tokens default_temperature);
      mret {| content := content response;
              tokens := tokens response;
              model := model response;
              retrieved_chunks := Some (map RAGService.chunk_id relevant_chunks) |}
  end.

Definition assistant_message_of (response : response) (utcnow : Z) : Message.t :=
  {| Message.role := "assistant";
     Message.content := content response;
     Message.timestamp := utcnow;
     Message.tokens := Some (tokens response);
     Message.model := Some (model response);
     Message.retrieved_chunks := Some (default [] (retrieved_chunks response)) |}.

Definition user_message_of (content : string) (utcnow : Z) : Message.t :=
  {| Message.role := "user";
     Message.content := content;
     Message.timestamp := utcnow;
     Message.tokens := Some (count_tokens content);
     Message.model := None;
     Message.retrieved_chunks := None |}.

(** [create_conversation].  [uuid] is the identifier [uuid4()] draws and
    [clock k] the value of the [k]-th [datetime.utcnow()] of the request. *)
Definition create_conversation `{EmbeddingModel, GroqClient}
    (data : ConversationCreate.t) (uuid : string) (clock : nat -> Z)
  : M ConversationDB.t :=
  try_except (
    if bool_decide (ConversationCreate.mode data = rag)
       && falsy_id (ConversationCreate.document_id data)
    then raise (HTTPException 400 "document_id required for RAG mode")
    else
      let user_message :=
        user_message_of (ConversationCreate.first_message data) (clock 2%nat) in
      response ←
        match ConversationCreate.mode data with
        | open_chat =>
            let messages_for_llm :=
              [system_message "You are a helpful AI assistant.";
               user_prompt (ConversationCreate.first_message data)] in
            lift (generate_response messages_for_llm default_max_tokens default_temperature)
        | rag =>
            rag_response (ConversationCreate.document_id data)
              (ConversationCreate.first_message data)
              "You are a helpful assistant that answers based on provided context."
        end;
      let assistant_message := assistant_message_of response (clock 3%nat) in
      let conversation :=
        {| ConversationDB.conversation_id := uuid;
           ConversationDB.mode := ConversationCreate.mode data;
           ConversationDB.document_id := ConversationCreate.document_id data;
           ConversationDB.messages := [user_message; assistant_message];
           ConversationDB.total_tokens :=
             count_tokens (ConversationCreate.first_message data) + tokens response;
           ConversationDB.created_at := clock 0%nat;
           ConversationDB.updated_at := clock 1%nat |} in
      ConversationRepo.create conversation).

(** [add_message].  [clock k] is the value of the [k]-th
    [datetime.utcnow()] of the request. *)
Definition add_message `{EmbeddingModel, GroqClient}
    (conversation_id : string) (message : MessageCreate.t) (clock : nat -> Z)
  : M (Message.t * Message.t) :=
  try_except (
    conversation ← ConversationRepo.get_by_id conversation_id;
    match conversation with
    | None => raise (HTTPException 404 "Conversation not found")
    | Some conversation =>
        let user_message := user_message_of (MessageCreate.content message) (clock 0%nat) in
        _ ← ConversationRepo.add_message conversation_id user_message (clock 1%nat);
        let all_messages := ConversationDB.messages conversation ++ [user_message] in
        let context := prepare_context all_messages 10 in
        response ←
          match ConversationDB.mode conversation with
          | open_chat =>
              let messages_for_llm :=
                system_message "You are a helpful AI assistant." :: context in
              lift (generate_response messages_for_llm default_max_tokens default_temperature)
          | rag =>
              rag_response (ConversationDB.document_id conversation)
                (MessageCreate.content message) "Answer based on provided context."
          end;
        let assistant_message := assistant_message_of response (clock 2%nat) in
        _ ← ConversationRepo.add_message conversation_id assistant_message (clock 3%nat);
        mret (user_message, assistant_message)
    end).

Definition delete_conversation (conversation_id : string) : M string :=
  try_except (
    success ← ConversationRepo.delete conversation_id;
    if success : bool then mret "Conversation deleted successfully"
    else raise (HTTPException 404 "Conversation not found")).

(** ** The document handlers *)

Definition allowed_types : list string := ["text/plain"; "application/pdf"].

(** The text of the upload: the decoded bytes, or the texts of the pages
    of the PDF appended in page order. *)
Definition extract_text `{TextExtraction} (file : UploadFile.t) : res string :=
  if bool_decide (UploadFile.content_type file = "text/plain")
  then decode_utf8 (UploadFile.content file)
  else
    pages ← pdf_pages (UploadFile.content file);
    mret (foldl (fun text page => text +:+ page) "" pages).

Definition document_info (document : DocumentDB.t) : DocumentInfo.t :=
  {| DocumentInfo.document_id := DocumentDB.document_id document;
     DocumentInfo.filename := DocumentDB.filename document;
     DocumentInfo.total_chunks := DocumentDB.total_chunks document;
     DocumentInfo.uploaded_at := DocumentDB.uploaded_at document |}.

(** [upload_document].  [chunk_uuid i] is the identifier [uuid4()] draws
    for the [i]-th chunk, [uuid] the one it draws for the document and
    [utcnow] the value of [datetime.utcnow()]. *)
Definition upload_document `{EmbeddingModel, TextExtraction}
    (file : UploadFile.t) (chunk_uuid : nat -> string) (uuid : string) (utcnow : Z)
  : M DocumentInfo.t :=
  try_except (
    if negb (bool_decide (UploadFile.content_type file ∈ allowed_types))
    then raise (HTTPException 400 "Unsupported file type. Allowed: txt, pdf")
    else
      text ← lift (extract_text file);
      let chunks := RAGService.chunk_text text None in
      let embeddings := RAGService.generate_embeddings chunks in
      let document_chunks :=
        imap (fun i '(chunk, embedding) =>
                {| Chunk.chunk_id := chunk_uuid i;
                   Chunk.text := chunk;
                   Chunk.embedding := embedding;
                   Chunk.chunk_index := Z.of_nat i |})
             (zip chunks embeddings) in
      let document :=
        {| DocumentDB.document_id := uuid;
           DocumentDB.filename := UploadFile.filename file;
           DocumentDB.chunks := document_chunks;
           DocumentDB.total_chunks := Z.of_nat (length document_chunks);
           DocumentDB.uploaded_at := utcnow |} in
      saved_doc ← DocumentRepo.create document;
      mret (document_info document)).

Definition get_document (document_id : string) : M DocumentInfo.t :=
  try_except (
    document ← DocumentRepo.get_by_id (Some document_id);
    match document with
    | None => raise (HTTPException 404 "Document not found")
    | Some document => mret (document_info document)
    end).

Definition delete_document (document_id : string) : M string :=
  try_except (
    success ← DocumentRepo.delete document_id;
    if success : bool then mret "Document deleted successfully"
    else raise (HTTPException 404 "Document not found")).

End main.

(* ===================================================================== *)
(** * Notions the properties are stated with *)
(* ===================================================================== *)

Module Spec.
Import RAGService LLMService main.

(** ** The packing rule in the words of the specification

    Tokens are appended to the current chunk until adding the next
    token's length plus one separator character to the current chunk's
    length (the length of the chunk as it will be emitted) would exceed
    [limit]; then the chunk is closed and a new one started with that
    token. *)

Definition chunk_len (cur : list string) : Z := Py.len (Py.join " " cur).

Definition pack_step (limit : Z) (st : list string * list string) (word : string)
  : list string * list string :=
  let (closed, cur) := st in
  if Py.truthy cur && (chunk_len cur + (Py.len word + 1) >? limit)
  then (closed ++ [Py.join " " cur], [word])
  else (closed, cur ++ [word]).

Definition pack_finish (st : list string * list string) : list string :=
  let (closed, cur) := st in
  if Py.truthy cur then closed ++ [Py.join " " cur] else closed.

Definition greedy_pack (limit : Z) (words : list string) : list string :=
  pack_finish (fold_left (pack_step limit) words ([], [])).

(** ** The chunks as groups of tokens

    The loop of [chunk_text], keeping every chunk as the list of its
    tokens and the running length as the function [weight] of the open
    chunk; [chunk_words] is its image under [join] (lemma
    [chunk_words_groups]). *)

Definition weight (cur : list string) : Z :=
  foldr (fun w acc => Py.len w + 1 + acc) 0 cur.

Definition group_step (chunk_size : Z) (st : list (list string) * list string)
    (word : string) : list (list string) * list string :=
  let (closed, cur) := st in
  if (weight cur + (Py.len word + 1) >? chunk_size) && Py.truthy cur
  then (closed ++ [cur], [word])
  else (closed, cur ++ [word]).

Definition group_finish (st : list (list string) * list string) : list (list string) :=
  let (closed, cur) := st in
  if Py.truthy cur then closed ++ [cur] else closed.

Definition chunk_groups (chunk_size : Z) (words : list string) : list (list string) :=
  group_finish (fold_left (group_step chunk_size) words ([], [])).

(** A group is within the budget when it holds a single token or when
    its running length stayed within [chunk_size]. *)
Definition open_ok (chunk_size : Z) (cur : list string) : Prop :=
  (length cur <= 1)%nat \/ weight cur <= chunk_size.

Definition group_ok (chunk_size : Z) (g : list string) : Prop :=
  g <> [] /\ open_ok chunk_size g.

(** ** The order of [argsort]

    Ascending score, and ascending index among equal scores. *)
Definition index_lt (a : list Q) (i j : nat) : Prop :=
  (key a i < key a j)%Q \/ ((key a i == key a j)%Q /\ (i < j)%nat).

(** ** Coroutines and the collections

    A coroutine keeps [P] when [P] holds of the collections it leaves
    whenever it held of those it found; it is read-only when it leaves
    them as found.  Both whether it returns or raises. *)
Definition preserves {A} (P : db -> Prop) (m : M A) : Prop :=
  forall s, P s -> P (m s).2.

Definition read_only {A} (m : M A) : Prop :=
  forall s, (m s).2 = s.

(** ** The conversation store as a transition system

    One step is one request served to the end, whatever the libraries
    and the clock return or raise, or one message appended through the
    repository. *)
Inductive step : db -> db -> Prop :=
  | step_create (E : EmbeddingModel) (G : GroqClient) data uuid clock s :
      step s (create_conversation data uuid clock s).2
  | step_add (E : EmbeddingModel) (G : GroqClient) conversation_id message clock s :
      step s (add_message conversation_id message clock s).2
  | step_append conversation_id message utcnow s :
      step s (ConversationRepo.add_message conversation_id message utcnow s).2
  | step_delete conversation_id s :
      step s (delete_conversation conversation_id s).2.

(** [total_tokens] against the messages, for one conversation and for
    every stored conversation. *)
Definition sum_tokens (messages : list Message.t) : Z :=
  foldr (fun m acc => Message.get_tokens m + acc) 0 messages.

Definition tokens_consistent (conv : ConversationDB.t) : Prop :=
  ConversationDB.total_tokens conv = sum_tokens (ConversationDB.messages conv).

Definition db_consistent (s : db) : Prop :=
  forall id conv, conversations s !! id = Some conv -> tokens_consistent conv.

(** The generation service is failing: every completion request raises
    (an error of the service, or the time-out of the client). *)
Definition generation_fails `{GroqClient} : Prop :=
  forall model messages max_tokens temperature,
    exists e, chat_completions_create model messages max_tokens temperature = inl e.

(** What a handler raises when its body raises [e]: an [HTTPException]
    goes through, any other exception becomes the response 500 with the
    text of the exception as detail. *)
Definition http_error (e : exn) : exn :=
  match e with
  | Exception msg => HTTPException 500 msg
  | HTTPException _ _ => e
  end.

(** A coroutine answers with an HTTP error whenever it raises: no other
    exception leaves it. *)
Definition http_only {A} (m : M A) : Prop :=
  forall s, match (m s).1 with
            | inl (Exception _) => False
            | _ => True
            end.

(** ** The whole store as a transition system

    One step is one request to one of the handlers that write or read
    the collections, served to the end, whatever the libraries and the
    clock return or raise. *)
Inductive request : db -> db -> Prop :=
  | request_create (E : EmbeddingModel) (G : GroqClient) data uuid clock s :
      request s (create_conversation data uuid clock s).2
  | request_add (E : EmbeddingModel) (G : GroqClient) conversation_id message clock s :
      request s (add_message conversation_id message clock s).2
  | request_delete conversation_id s :
      request s (delete_conversation conversation_id s).2
  | request_upload (E : EmbeddingModel) (T : TextExtraction) file chunk_uuid uuid utcnow s :
      request s (upload_document file chunk_uuid uuid utcnow s).2
  | request_get_document document_id s :
      request s (get_document document_id s).2
  | request_delete_document document_id s :
      request s (delete_document document_id s).2.

(** What the handlers keep true of what they store.  A message is the
    user's or the assistant's and carries its token count.  A
    conversation is stored under its own id, opens with a user message
    and an assistant message, and names a document when it is in RAG
    mode.  A document is stored under its own id, counts its chunks in
    [total_chunks], and numbers them by position; no chunk is empty. *)
Definition message_ok (m : Message.t) : Prop :=
  (Message.role m = "user" \/ Message.role m = "assistant")
  /\ is_Some (Message.tokens m).

Definition conversation_ok (id : string) (conv : ConversationDB.t) : Prop :=
  ConversationDB.conversation_id conv = id
  /\ (Message.role <$> ConversationDB.messages conv !! 0%nat) = Some "user"
  /\ (Message.role <$> ConversationDB.messages conv !! 1%nat) = Some "assistant"
  /\ Forall message_ok (ConversationDB.messages conv)
  /\ (ConversationDB.mode conv = rag ->
      exists d, ConversationDB.document_id conv = Some d /\ d <> "").

Definition document_ok (id : string) (document : DocumentDB.t) : Prop :=
  DocumentDB.document_id document = id
  /\ DocumentDB.total_chunks document = Z.of_nat (length (DocumentDB.chunks document))
  /\ (forall i c,
        DocumentDB.chunks document !! i = Some c ->
        Chunk.chunk_index c = Z.of_nat i /\ Chunk.text c <> "").

Definition store_ok (s : db) : Prop :=
  (forall id conv, conversations s !! id = Some conv -> conversation_ok id conv)
  /\ (forall id document, documents s !! id = Some document -> document_ok id document).

(** ** Tokens

    A token is a non-empty string free of whitespace. *)
Fixpoint no_space (s : string) : bool :=
  match s with
  | EmptyString => true
  | String c s' => negb (Py.isspace c) && no_space s'
  end.

Definition is_token (w : string) : Prop := w <> "" /\ no_space w = true.

(** Every group but the last was closed because the first token of the
    next one did not fit: the running length of the group and that
    token's length plus one exceed [chunk_size]. *)
Fixpoint packed (chunk_size : Z) (groups : list (list string)) : Prop :=
  match groups with
  | g1 :: rest =>
      match rest with
      | g2 :: _ => chunk_size < weight g1 + (Py.len (hd "" g2) + 1)
      | [] => True
      end
      /\ packed chunk_size rest
  | [] => True
  end.

End Spec.

(* ===================================================================== *)
(** * Concrete libraries and data, for runs on examples *)
(* ===================================================================== *)

Module Examples.
Import main.

(** On vectors of norm 1 the cosine similarity is the dot product.  Every
    query is embedded as the first unit vector, so the similarity of a
    chunk is the first coordinate of its (unit) embedding. *)
Definition dot (u v : list Q) : Q :=
  Qred (foldr Qplus 0%Q (zip_with Qmult u v)).

Definition unit_vectors : EmbeddingModel :=
  {| encode := fun _ => [1; 0; 0; 0]%Q;
     cosine_similarity := fun q es => inr (map (dot q) es);
     cosine_similarity_length :=
       ltac:(intros q es sims [= <-]; apply length_map) |}.

Definition example_chunk (id : string) (i : Z) (embedding : list Q) : Chunk.t :=
  {| Chunk.chunk_id := id; Chunk.text := "text of " +:+ id;
     Chunk.embedding := embedding; Chunk.chunk_index := i |}.

(** Five chunks whose similarities to any query are
    0.9, 0.1, 0.5, 0.9 and 0.3. *)
Definition example_chunks : list Chunk.t :=
  [ example_chunk "c0" 0 [9 # 10; 3 # 10; 3 # 10; 1 # 10]%Q;
    example_chunk "c1" 1 [1 # 10; 3 # 10; 3 # 10; 9 # 10]%Q;
    example_chunk "c2" 2 [5 # 10; 5 # 10; 5 # 10; 5 # 10]%Q;
    example_chunk "c3" 3 [9 # 10; 1 # 10; 3 # 10; 3 # 10]%Q;
    example_chunk "c4" 4 [3 # 10; 9 # 10; 3 # 10; 1 # 10]%Q ].

(** A generation model that times out on every request. *)
Definition failing_groq : GroqClient :=
  {| chat_completions_create := fun _ _ _ _ => inl (Exception "Request timed out.") |}.

(** A generation model that answers every request with the same 7-token
    text. *)
Definition fixed_groq : GroqClient :=
  {| chat_completions_create := fun _ _ _ _ => inr ("Hello! How can I help?", 7) |}.

Definition example_clock (k : nat) : Z := 1000 + Z.of_nat k.

Definition later_clock (k : nat) : Z := 2000 + Z.of_nat k.

(** The store after one open-chat conversation was created. *)
Definition example_db : db :=
  (create_conversation (H := unit_vectors) (H0 := fixed_groq)
     {| ConversationCreate.mode := open_chat;
        ConversationCreate.first_message := "hello there";
        ConversationCreate.document_id := None |}
     "conv-1" example_clock empty_db).2.

(** The conversation it holds: 2 + 7 tokens. *)
Definition example_conversation : ConversationDB.t :=
  {| ConversationDB.conversation_id := "conv-1";
     ConversationDB.mode := open_chat;
     ConversationDB.document_id := None;
     ConversationDB.messages :=
       [ user_message_of "hello there" 1002;
         {| Message.role := "assistant";
            Message.content := "Hello! How can I help?";
            Message.timestamp := 1003;
            Message.tokens := Some 7;
            Message.model := Some "llama-3.1-8b-instant";
            Message.retrieved_chunks := Some [] |} ];
     ConversationDB.total_tokens := 9;
     ConversationDB.created_at := 1000;
     ConversationDB.updated_at := 1001 |}.

Definition example_message : MessageCreate.t :=
  {| MessageCreate.content := "tell me more"; MessageCreate.role := "user" |}.

(** A later request to add [example_message] while the generation model
    times out. *)
Definition failed_request : res (Message.t * Message.t) * db :=
  add_message (H := unit_vectors) (H0 := failing_groq)
    "conv-1" example_message later_clock example_db.

(** Uploads whose bytes are ASCII text; a PDF has one page, holding its
    bytes. *)
Definition ascii_text : TextExtraction :=
  {| decode_utf8 := fun content => inr content;
     pdf_pages := fun content => inr [content] |}.

(** A similarity library that, like [unit_vectors], takes dot products,
    and rejects an empty array of embeddings. *)
Definition strict_vectors : EmbeddingModel :=
  {| encode := fun _ => [1; 0; 0; 0]%Q;
     cosine_similarity := fun q es =>
       if Py.truthy es then inr (map (dot q) es)
       else inl (Exception "Expected 2D array, got 1D array instead");
     cosine_similarity_length :=
       ltac:(intros q [|e es] sims; [done|]; intros [= <-];
             apply (length_map (dot q) (e :: es))) |}.

Definition example_file : UploadFile.t :=
  {| UploadFile.filename := "notes.txt";
     UploadFile.content_type := "text/plain";
     UploadFile.content := "the quick brown fox" |}.

(** An upload that holds no token. *)
Definition blank_file : UploadFile.t :=
  {| UploadFile.filename := "blank.txt";
     UploadFile.content_type := "text/plain";
     UploadFile.content := "   " |}.

(** An upload of a type that is not accepted. *)
Definition image_file : UploadFile.t :=
  {| UploadFile.filename := "photo.png";
     UploadFile.content_type := "image/png";
     UploadFile.content := "not read" |}.

(** A two-page PDF. *)
Definition example_pdf : UploadFile.t :=
  {| UploadFile.filename := "pages.pdf";
     UploadFile.content_type := "application/pdf";
     UploadFile.content := "%PDF" |}.

Definition two_pages : TextExtraction :=
  {| decode_utf8 := fun content => inr content;
     pdf_pages := fun _ => inr ["retrieval"; "augmented"] |}.

Definition example_chunk_uuid (i : nat) : string := "chunk-" +:+ pretty i.

(** The example store after [example_file] was uploaded as "doc-1". *)
Definition example_library : db :=
  (upload_document (H := unit_vectors) (H0 := ascii_text)
     example_file example_chunk_uuid "doc-1" 3000 example_db).2.

(** A question on "doc-1". *)
Definition example_question : ConversationCreate.t :=
  {| ConversationCreate.mode := rag;
     ConversationCreate.first_message := "which fox?";
     ConversationCreate.document_id := Some "doc-1" |}.

(** The store after the question was asked as conversation "conv-2",
    and the store after the document was then deleted. *)
Definition asked_db : db :=
  (create_conversation (H := unit_vectors) (H0 := fixed_groq)
     example_question "conv-2" example_clock example_library).2.

Definition orphaned_db : db := (delete_document "doc-1" asked_db).2.

(** The example store after [blank_file] was uploaded as "doc-0". *)
Definition blank_library : db :=
  (upload_document (H := strict_vectors) (H0 := ascii_text)
     blank_file example_chunk_uuid "doc-0" 3000 example_db).2.

End Examples.

(* ===================================================================== *)
(** * Properties *)
(* ===================================================================== *)

Example split_ws :
  Py.split ("  the quick" +:+ Py.nl +:+ " brown  ") = ["the"; "quick"; "brown"].
Proof. reflexivity. Qed.

Example chunk_text_fox :
  RAGService.chunk_text "the quick brown fox jumps over" (Some 20)
  = ["the quick brown fox"; "jumps over"].
Proof. reflexivity. Qed.

Example build_rag_prompt_two :
  RAGService.build_rag_prompt "why?"
    [ {| RAGService.text := "alpha"; RAGService.chunk_id := "c0"; RAGService.score := 1 |};
      {| RAGService.text := "beta"; RAGService.chunk_id := "c1"; RAGService.score := 0 |} ]
  = "Based on the following context, answer the question." +:+ Py.nl +:+ Py.nl
    +:+ "Context 1:" +:+ Py.nl +:+ "alpha" +:+ Py.nl +:+ Py.nl
    +:+ "Context 2:" +:+ Py.nl +:+ "beta" +:+ Py.nl +:+ Py.nl
    +:+ "Question: why?" +:+ Py.nl +:+ Py.nl
    +:+ "Answer based only on the provided context:".
Proof. reflexivity. Qed.

(* --------------------------------------------------------------------- *)
(** ** The chunker *)
(* --------------------------------------------------------------------- *)

Section ChunkerFacts.
Import RAGService Spec.

Lemma len_app (s1 s2 : string) : Py.len (s1 +:+ s2) = Py.len s1 + Py.len s2.
Proof.
  unfold Py.len. induction s1 as [|c s1 IH]; [reflexivity|].
  change (String c s1 +:+ s2) with (String c (s1 +:+ s2)).
  cbn [String.length]. lia.
Qed.

Lemma len_nonneg (s : string) : 0 <= Py.len s.
Proof. unfold Py.len. lia. Qed.

Lemma join_cons (w w' : string) (cur : list string) :
  Py.join " " (w :: w' :: cur) = w +:+ " " +:+ Py.join " " (w' :: cur).
Proof. reflexivity. Qed.

Lemma join_singleton (w : string) : Py.join " " [w] = w.
Proof. reflexivity. Qed.

Lemma weight_app (l1 l2 : list string) : weight (l1 ++ l2) = weight l1 + weight l2.
Proof. unfold weight. induction l1 as [|w l1 IH]; cbn; lia. Qed.

Lemma weight_nonneg (l : list string) : 0 <= weight l.
Proof.
  unfold weight. induction l as [|w l IH]; cbn; [lia|].
  pose proof (len_nonneg w). lia.
Qed.

(** The running length counts one separator per token, the emitted
    chunk has one separator less. *)
Lemma chunk_len_weight (cur : list string) :
  cur <> [] -> chunk_len cur = weight cur - 1.
Proof.
  unfold chunk_len. induction cur as [|w cur IH]; [congruence|]. intros _.
  destruct cur as [|w' cur].
  - rewrite join_singleton. cbn. lia.
  - rewrite join_cons, !len_app, IH by congruence.
    change (Py.len " ") with 1. cbn [weight foldr]. fold (weight cur). lia.
Qed.

(** [chunk_words] is the image of the token groups. *)
Lemma fold_step_groups (chunk_size : Z) (words : list string) :
  forall (st : loop_state) (closed : list (list string)),
    chunks st = map (Py.join " ") closed ->
    current_length st = weight (current_chunk st) ->
    loop_finish (fold_left (loop_step chunk_size) words st)
    = map (Py.join " ")
        (group_finish (fold_left (group_step chunk_size) words (closed, current_chunk st))).
Proof.
  induction words as [|w words IH]; intros st closed Hc Hl.
  - cbn. unfold loop_finish. destruct (Py.truthy (current_chunk st)); [|done].
    by rewrite map_app, Hc.
  - cbn [fold_left]. unfold loop_step at 2, group_step at 2. rewrite <- Hl.
    destruct ((current_length st + (Py.len w + 1) >? chunk_size)
              && Py.truthy (current_chunk st)).
    + rewrite (IH _ (closed ++ [current_chunk st])); cbn; try done.
      * by rewrite map_app, Hc.
      * lia.
    + rewrite (IH _ closed); cbn; try done.
      rewrite weight_app. cbn. lia.
Qed.

Lemma chunk_words_groups (chunk_size : Z) (words : list string) :
  chunk_words chunk_size words = map (Py.join " ") (chunk_groups chunk_size words).
Proof. unfold chunk_words, chunk_groups. by apply fold_step_groups. Qed.

(** *** Shape of the groups *)

Lemma group_step_inv (chunk_size : Z) (words : list string) :
  forall closed cur,
    Forall (group_ok chunk_size) closed ->
    open_ok chunk_size cur ->
    Forall (group_ok chunk_size)
      (group_finish (fold_left (group_step chunk_size) words (closed, cur))).
Proof.
  induction words as [|w words IH]; intros closed cur Hcl Hcur.
  - cbn. destruct cur as [|w0 cur]; cbn; [done|].
    apply Forall_app; split; [done|]. by apply Forall_singleton.
  - cbn [fold_left]. unfold group_step at 2.
    destruct (weight cur + (Py.len w + 1) >? chunk_size) eqn:Hgt;
      destruct cur as [|w0 cur]; cbn [andb Py.truthy].
    + apply IH; [done|]. left. cbn. lia.
    + apply IH; [|left; cbn; lia].
      apply Forall_app; split; [done|]. by apply Forall_singleton.
    + apply IH; [done|]. left. cbn. lia.
    + apply IH; [done|]. right. rewrite weight_app. cbn [weight foldr] in *. lia.
Qed.

Lemma group_step_concat (chunk_size : Z) (words : list string) :
  forall closed cur,
    concat (group_finish (fold_left (group_step chunk_size) words (closed, cur)))
    = concat closed ++ cur ++ words.
Proof.
  induction words as [|w words IH]; intros closed cur.
  - cbn. destruct cur; cbn; rewrite ?concat_app, ?app_nil_r; cbn;
      by rewrite ?app_nil_r.
  - cbn [fold_left]. unfold group_step at 2.
    destruct ((weight cur + (Py.len w + 1) >? chunk_size) && Py.truthy cur);
      rewrite IH, ?concat_app; cbn; rewrite ?app_nil_r, <- ?app_assoc; done.
Qed.

Lemma chunk_groups_ok (chunk_size : Z) (words : list string) :
  Forall (group_ok chunk_size) (chunk_groups chunk_size words).
Proof. apply group_step_inv; [constructor|left; cbn; lia]. Qed.

Lemma chunk_groups_concat (chunk_size : Z) (words : list string) :
  concat (chunk_groups chunk_size words) = words.
Proof. unfold chunk_groups. by rewrite group_step_concat. Qed.

(** *** Joining *)

Lemma append_assoc (s1 s2 s3 : string) : (s1 +:+ s2) +:+ s3 = s1 +:+ s2 +:+ s3.
Proof.
  induction s1 as [|c s1 IH]; [reflexivity|].
  change ((String c s1 +:+ s2) +:+ s3) with (String c ((s1 +:+ s2) +:+ s3)).
  change (String c s1 +:+ s2 +:+ s3) with (String c (s1 +:+ s2 +:+ s3)).
  by rewrite IH.
Qed.

Lemma join_app (l1 l2 : list string) :
  l1 <> [] -> l2 <> [] ->
  Py.join " " (l1 ++ l2) = Py.join " " l1 +:+ " " +:+ Py.join " " l2.
Proof.
  intros H1 H2. induction l1 as [|w l1 IH]; [done|].
  destruct l1 as [|w1 l1].
  - destruct l2; [done|]. reflexivity.
  - change ((w :: w1 :: l1) ++ l2) with (w :: w1 :: (l1 ++ l2)).
    rewrite !join_cons. change (w1 :: l1 ++ l2) with ((w1 :: l1) ++ l2).
    rewrite IH by done. by rewrite !append_assoc.
Qed.

Lemma join_concat (groups : list (list string)) :
  Forall (fun g => g <> []) groups ->
  Py.join " " (map (Py.join " ") groups) = Py.join " " (concat groups).
Proof.
  induction 1 as [|g groups Hg Hgs IH]; [reflexivity|].
  destruct groups as [|g' groups].
  - cbn. by rewrite app_nil_r.
  - change (map (Py.join " ") (g :: g' :: groups))
      with (Py.join " " g :: Py.join " " g' :: map (Py.join " ") groups).
    rewrite join_cons.
    change (Py.join " " g' :: map (Py.join " ") groups)
      with (map (Py.join " ") (g' :: groups)).
    rewrite IH. change (concat (g :: g' :: groups)) with (g ++ concat (g' :: groups)).
    rewrite join_app; [done|done|].
    inversion Hgs as [|? ? Hg' _]; subst. destruct g'; [done|]. cbn. congruence.
Qed.

(** *** The loop against the packing rule *)

Lemma fold_step_pack (chunk_size : Z) (words : list string) :
  forall st : loop_state,
    current_length st = weight (current_chunk st) ->
    loop_finish (fold_left (loop_step chunk_size) words st)
    = pack_finish
        (fold_left (pack_step (chunk_size - 1)) words (chunks st, current_chunk st)).
Proof.
  induction words as [|w words IH]; intros st Hl; [reflexivity|].
  cbn [fold_left]. unfold loop_step at 2, pack_step at 2.
  destruct (current_chunk st) as [|w0 cur] eqn:Hcur.
  - rewrite andb_false_r. cbn [andb Py.truthy].
    rewrite IH; cbn; rewrite ?Hcur; [done|]. rewrite Hl. cbn. lia.
  - cbn [andb Py.truthy]. rewrite andb_true_r.
    rewrite chunk_len_weight by done. rewrite Hl.
    assert ((weight (w0 :: cur) + (Py.len w + 1) >? chunk_size)
            = (weight (w0 :: cur) - 1 + (Py.len w + 1) >? chunk_size - 1)) as <-.
    { destruct (Z.gtb_spec (weight (w0 :: cur) + (Py.len w + 1)) chunk_size),
        (Z.gtb_spec (weight (w0 :: cur) - 1 + (Py.len w + 1)) (chunk_size - 1));
        (done || lia). }
    destruct (weight (w0 :: cur) + (Py.len w + 1) >? chunk_size).
    + rewrite IH; cbn; [done|lia].
    + rewrite IH; cbn [chunks current_chunk current_length]; rewrite ?Hcur; [done|].
      change (w0 :: cur ++ [w]) with ((w0 :: cur) ++ [w]).
      rewrite weight_app. cbn. lia.
Qed.

(** *** Oversized chunks *)

Lemma group_token_le (g : list string) :
  Forall (fun w => Py.len w + 1 <= weight g) g.
Proof.
  induction g as [|w g IH]; [constructor|].
  pose proof (weight_nonneg g). pose proof (len_nonneg w).
  constructor; [cbn; fold (weight g); lia|].
  eapply Forall_impl; [exact IH|]. cbn. fold (weight g). intros; lia.
Qed.

Lemma group_oversized (chunk_size : Z) (g : list string) :
  group_ok chunk_size g ->
  filter (fun c => chunk_size < Py.len c) [Py.join " " g]
  = filter (fun w => chunk_size < Py.len w) g.
Proof.
  intros [Hne [Hlen|Hw]].
  - destruct g as [|w [|w' g]]; [done|done|cbn in Hlen; lia].
  - assert (Forall (fun w => ~ chunk_size < Py.len w) g) as Hall.
    { eapply Forall_impl; [apply group_token_le|]. cbn. intros; lia. }
    rewrite filter_cons_False, filter_nil.
    + symmetry. clear Hne Hw. induction Hall as [|w l Hwl _ IH]; [done|].
      by rewrite filter_cons_False.
    + fold (chunk_len g). rewrite chunk_len_weight by done. lia.
Qed.

Lemma groups_oversized (chunk_size : Z) (groups : list (list string)) :
  Forall (group_ok chunk_size) groups ->
  filter (fun c => chunk_size < Py.len c) (map (Py.join " ") groups)
  = filter (fun w => chunk_size < Py.len w) (concat groups).
Proof.
  induction 1 as [|g groups Hg _ IH]; [done|].
  change (map (Py.join " ") (g :: groups))
    with ([Py.join " " g] ++ map (Py.join " ") groups).
  cbn [concat]. by rewrite !filter_app, IH, group_oversized.
Qed.

End ChunkerFacts.

Section ChunkerClaims.
Import config RAGService Spec.

(** C4, as stated, fails: with [chunk_size = 3] the text ["a b"] has two
    tokens whose joined length is exactly 3; the packing rule of the
    specification keeps them in one chunk, [chunk_text] closes the chunk
    after ["a"]. *)
Lemma chunk_text_exact_fit_counterexample :
  Py.len "a b" = 3
  /\ greedy_pack 3 (Py.split "a b") = ["a b"]
  /\ chunk_text "a b" (Some 3) = ["a"; "b"]
  /\ chunk_text "a b" (Some 3) <> greedy_pack 3 (Py.split "a b").
Proof. repeat split; try reflexivity. discriminate. Qed.

(** C4 (amended): [chunk_text] is the greedy packing rule with the bound
    [chunk_size - 1] on the length of the joined chunk: a token is
    appended while the joined length stays strictly below [chunk_size],
    and a token that would bring it to [chunk_size] or more closes the
    chunk and starts the next one. *)
Theorem chunk_text_greedy_pack (text : string) (chunk_size : option Z) :
  chunk_text text chunk_size
  = greedy_pack (Py.or_default chunk_size (CHUNK_SIZE settings) - 1) (Py.split text).
Proof.
  unfold chunk_text, chunk_words, greedy_pack.
  by rewrite fold_step_pack.
Qed.

(** C5: for [chunk_size >= 1] every chunk is at most [chunk_size] long
    unless it is, as a whole, one token longer than [chunk_size]; the
    chunks over the bound are exactly the tokens over the bound, one
    chunk per such token and in the same order, so that a single token
    over the bound gives exactly one chunk over the bound, that token;
    the empty text gives no chunk. *)
Theorem chunk_text_soft_bound (text : string) (chunk_size : Z) :
  1 <= chunk_size ->
  (forall c, c ∈ chunk_text text (Some chunk_size) ->
     Py.len c <= chunk_size \/ (chunk_size < Py.len c /\ c ∈ Py.split text))
  /\ filter (fun c => chunk_size < Py.len c) (chunk_text text (Some chunk_size))
     = filter (fun w => chunk_size < Py.len w) (Py.split text)
  /\ (forall w, filter (fun w => chunk_size < Py.len w) (Py.split text) = [w] ->
      filter (fun c => chunk_size < Py.len c) (chunk_text text (Some chunk_size)) = [w])
  /\ chunk_text "" (Some chunk_size) = [].
Proof.
  intros Hcs.
  assert (Py.or_default (Some chunk_size) (CHUNK_SIZE settings) = chunk_size) as Heff.
  { cbn. destruct (Z.eqb_spec chunk_size 0); [lia|done]. }
  assert (filter (fun c => chunk_size < Py.len c) (chunk_text text (Some chunk_size))
          = filter (fun w => chunk_size < Py.len w) (Py.split text)) as Hfilter.
  { unfold chunk_text. rewrite Heff, chunk_words_groups.
    rewrite groups_oversized by apply chunk_groups_ok.
    by rewrite chunk_groups_concat. }
  split; [|split; [exact Hfilter|split; [by intros w <-|]]].
  - intros c Hc. destruct (Z.le_gt_cases (Py.len c) chunk_size) as [Hle|Hgt]; [by left|].
    right. split; [done|].
    assert (c ∈ filter (fun c => chunk_size < Py.len c) (chunk_text text (Some chunk_size)))
      as Hin by by apply list_elem_of_filter.
    rewrite Hfilter in Hin. by apply list_elem_of_filter in Hin as [_ ?].
  - unfold chunk_text. by rewrite Heff.
Qed.

(** At ["a bb retrieval cc"] and [chunk_size = 3]: the chunks are ["a"],
    ["bb"], ["retrieval"] and ["cc"], and the one over the bound is the
    token ["retrieval"]. *)
Lemma chunk_text_soft_bound_witness :
  1 <= 3
  /\ chunk_text "a bb retrieval cc" (Some 3) = ["a"; "bb"; "retrieval"; "cc"]
  /\ filter (fun c => 3 < Py.len c) (chunk_text "a bb retrieval cc" (Some 3))
     = filter (fun w => 3 < Py.len w) (Py.split "a bb retrieval cc").
Proof.
  assert (1 <= 3) as Hsize by lia.
  split; [exact Hsize|]. split; [reflexivity|].
  exact (proj1 (proj2 (chunk_text_soft_bound "a bb retrieval cc" 3 Hsize))).
Defined.

(** C6: joining the chunks with single spaces gives the tokens of the
    text joined with single spaces, for every chunk size (in particular
    for every [chunk_size >= 1]). *)
Theorem chunk_text_join (text : string) (chunk_size : option Z) :
  Py.join " " (chunk_text text chunk_size) = Py.join " " (Py.split text).
Proof.
  unfold chunk_text. rewrite chunk_words_groups, join_concat.
  - by rewrite chunk_groups_concat.
  - eapply Forall_impl; [apply chunk_groups_ok|]. by intros g [? _].
Qed.

(** C10: a [chunk_size] of [0] or [None] is replaced by the configured
    default, 500, so the output is that of [chunk_size = 500]. *)
Theorem chunk_text_falsy_size (text : string) :
  CHUNK_SIZE settings = 500
  /\ chunk_text text (Some 0) = chunk_text text (Some 500)
  /\ chunk_text text None = chunk_text text (Some 500).
Proof. repeat split. Qed.

End ChunkerClaims.

(* --------------------------------------------------------------------- *)
(** ** The retriever *)
(* --------------------------------------------------------------------- *)

Section RetrieverFacts.
Import config RAGService Spec Examples.

(** *** [argsort] sorts and permutes *)

Lemma insert_perm (a : list Q) (i : nat) (l : list nat) : insert_index a i l ≡ₚ i :: l.
Proof.
  induction l as [|j l IH]; cbn; [done|].
  destruct (Qle_bool (key a j) (key a i)); [|done].
  rewrite IH. apply Permutation_swap.
Qed.

Lemma index_lt_le (a : list Q) (i j : nat) :
  index_lt a i j -> (key a i <= key a j)%Q.
Proof.
  intros [Hlt|[Heq _]]; [by apply Qlt_le_weak|].
  rewrite Heq. apply Qle_refl.
Qed.

Lemma insert_sorted (a : list Q) (i : nat) (l : list nat) :
  StronglySorted (index_lt a) l ->
  Forall (fun j => (j < i)%nat) l ->
  StronglySorted (index_lt a) (insert_index a i l).
Proof.
  induction l as [|j l IH]; intros Hs Hlt; cbn.
  - repeat constructor.
  - apply StronglySorted_cons in Hs as [Hj Hs].
    apply Forall_cons in Hlt as [Hji Hlt].
    destruct (Qle_bool (key a j) (key a i)) eqn:Hle.
    + apply StronglySorted_cons. split; [|by apply IH].
      rewrite insert_perm. constructor; [|done].
      apply Qle_bool_iff, Qle_lt_or_eq in Hle as [?|?]; [by left|by right].
    + assert (key a i < key a j)%Q as Hij.
      { apply Qnot_le_lt. intros Hle'%Qle_bool_iff. congruence. }
      apply StronglySorted_cons. split.
      * constructor; [by left|].
        eapply Forall_impl; [exact Hj|]. intros x Hx%index_lt_le. left.
        by eapply Qlt_le_trans.
      * apply StronglySorted_cons. done.
Qed.

Lemma fold_insert_sorted (a : list Q) (m : nat) :
  forall (s : nat) (acc : list nat),
    StronglySorted (index_lt a) acc ->
    Forall (fun j => (j < s)%nat) acc ->
    StronglySorted (index_lt a)
      (fold_left (fun sorted i => insert_index a i sorted) (seq s m) acc).
Proof.
  induction m as [|m IH]; intros s acc Hs Hlt; [done|].
  cbn [seq fold_left]. apply IH; [by apply insert_sorted|].
  rewrite insert_perm. constructor; [lia|].
  eapply Forall_impl; [exact Hlt|]. cbn. lia.
Qed.

Lemma fold_insert_perm (a : list Q) (m : nat) :
  forall (s : nat) (acc : list nat),
    fold_left (fun sorted i => insert_index a i sorted) (seq s m) acc ≡ₚ acc ++ seq s m.
Proof.
  induction m as [|m IH]; intros s acc; cbn [seq fold_left].
  - by rewrite app_nil_r.
  - rewrite IH, insert_perm. cbn. apply Permutation_middle.
Qed.

Lemma argsort_sorted (a : list Q) : StronglySorted (index_lt a) (argsort a).
Proof. apply fold_insert_sorted; constructor. Qed.

Lemma argsort_perm (a : list Q) : argsort a ≡ₚ seq 0 (length a).
Proof. unfold argsort. by rewrite fold_insert_perm. Qed.

Lemma argsort_length (a : list Q) : length (argsort a) = length a.
Proof. by rewrite argsort_perm, length_seq. Qed.

(** *** Slices and reversal *)

Lemma slice_from_suffix {A} (start : Z) (l : list A) :
  exists pre, l = pre ++ Py.slice_from start l.
Proof.
  unfold Py.slice_from. eexists. symmetry. apply firstn_skipn.
Qed.

Lemma slice_from_length {A} (start : Z) (l : list A) :
  Z.of_nat (length (Py.slice_from start l))
  = if start <? 0
    then Z.min (- start) (Z.of_nat (length l))
    else Z.of_nat (length l) - Z.min start (Z.of_nat (length l)).
Proof.
  unfold Py.slice_from. rewrite length_skipn.
  destruct (Z.ltb_spec start 0); lia.
Qed.

Lemma slice_from_all {A} (start : Z) (l : list A) :
  start <= - Z.of_nat (length l) -> Py.slice_from start l = l.
Proof.
  intros Hs. unfold Py.slice_from.
  destruct (Z.ltb_spec start 0).
  - replace (Z.to_nat _) with 0%nat by lia. done.
  - replace (Z.to_nat _) with 0%nat by lia. done.
Qed.

Lemma StronglySorted_rev {A} (R : relation A) (l : list A) :
  StronglySorted R l -> StronglySorted (flip R) (rev l).
Proof.
  induction 1 as [|x l _ IH Hx]; cbn; [constructor|].
  apply StronglySorted_app_2; [|done|repeat constructor].
  intros x1 x2 Hx1%list_elem_of_In%in_rev%list_elem_of_In Hx2%list_elem_of_singleton.
  subst. unfold flip. by eapply Forall_forall in Hx.
Qed.

Lemma top_indices_sorted (a : list Q) (top_k : Z) :
  StronglySorted (flip (index_lt a)) (top_indices a top_k).
Proof.
  unfold top_indices. apply StronglySorted_rev.
  destruct (slice_from_suffix (- top_k) (argsort a)) as [pre Hpre].
  pose proof (argsort_sorted a) as Hs. rewrite Hpre in Hs.
  by apply StronglySorted_app_1_r in Hs.
Qed.

Lemma top_indices_bound (a : list Q) (top_k : Z) :
  Forall (fun i => (i < length a)%nat) (top_indices a top_k).
Proof.
  apply Forall_forall. intros i Hi%list_elem_of_In%in_rev%list_elem_of_In.
  destruct (slice_from_suffix (- top_k) (argsort a)) as [pre Hpre].
  assert (i ∈ argsort a) as Hin by (rewrite Hpre; set_solver).
  rewrite argsort_perm in Hin. apply elem_of_seq in Hin. lia.
Qed.

Lemma top_indices_length (a : list Q) (top_k : Z) :
  Z.of_nat (length (top_indices a top_k))
  = if 0 <? top_k
    then Z.min top_k (Z.of_nat (length a))
    else Z.of_nat (length a) - Z.min (- top_k) (Z.of_nat (length a)).
Proof.
  unfold top_indices. rewrite length_rev, slice_from_length, argsort_length.
  destruct (Z.ltb_spec (- top_k) 0), (Z.ltb_spec 0 top_k); lia.
Qed.

End RetrieverFacts.

Section RetrieverResults.
Import config RAGService Spec Examples.

(** *** The result loop *)

Lemma mapM_res_Forall2 {A B} (f : A -> res B) (l : list A) :
  Forall (fun x => exists y, f x = inr y) l ->
  exists k, mapM f l = inr k /\ Forall2 (fun x y => f x = inr y) l k.
Proof.
  induction 1 as [|x l [y Hy] _ [k [Hk HF]]].
  - exists []. split; [done|constructor].
  - exists (y :: k). split; [|by constructor].
    cbn. rewrite Hy. cbn. rewrite Hk. done.
Qed.

Lemma result_at_defined (document_chunks : list Chunk.t) (similarities : list Q)
    (idx : nat) :
  (idx < length document_chunks)%nat ->
  (idx < length similarities)%nat ->
  exists r, result_at document_chunks similarities idx = inr r.
Proof.
  intros [c Hc]%lookup_lt_is_Some_2 [s Hs]%lookup_lt_is_Some_2.
  unfold result_at. rewrite Hc, Hs. eauto.
Qed.

Lemma result_at_score (document_chunks : list Chunk.t) (similarities : list Q)
    (idx : nat) (r : retrieved) :
  result_at document_chunks similarities idx = inr r ->
  score r = key similarities idx.
Proof.
  unfold result_at, key. intros Hr.
  destruct (document_chunks !! idx); [|done].
  destruct (similarities !! idx) as [s|] eqn:Hs; [|done].
  injection Hr as <-. cbn. by rewrite (nth_lookup_Some _ _ _ _ Hs).
Qed.

(** The call succeeds as soon as the similarity row is there, and its
    results are the chunks at [top_indices], in that order. *)
Lemma retrieve_spec `{EmbeddingModel} (query : string) (document_chunks : list Chunk.t)
    (top_k : option Z) (similarities : list Q) :
  cosine_similarity (encode query) (map Chunk.embedding document_chunks)
  = inr similarities ->
  exists results,
    retrieve_relevant_chunks query document_chunks top_k = inr results
    /\ Forall2 (fun idx r => result_at document_chunks similarities idx = inr r)
         (top_indices similarities (Py.or_default top_k (TOP_K settings))) results.
Proof.
  intros Hsim. unfold retrieve_relevant_chunks. rewrite Hsim. cbn [mbind res_bind].
  apply mapM_res_Forall2.
  apply cosine_similarity_length in Hsim. rewrite length_map in Hsim.
  eapply Forall_impl; [apply top_indices_bound|].
  cbn. intros idx Hidx. apply result_at_defined; lia.
Qed.

(** On an empty chunk list the outcome is that of the similarity library
    on the empty array: its exception if it raises, no result if it
    returns. *)
Lemma retrieve_empty_chunks `{EmbeddingModel} (query : string) (top_k : option Z) :
  retrieve_relevant_chunks query [] top_k
  = match cosine_similarity (encode query) [] with
    | inl e => inl e
    | inr _ => inr []
    end.
Proof.
  unfold retrieve_relevant_chunks. cbn [map].
  destruct (cosine_similarity (encode query) []) as [e|sims] eqn:Hsim; [done|].
  apply cosine_similarity_length in Hsim. destruct sims; [|done].
  cbn [mbind res_bind]. unfold top_indices, argsort, Py.slice_from.
  cbn [length seq fold_left]. by rewrite skipn_nil.
Qed.

Lemma StronglySorted_Forall2 {A B} (R : relation A) (R' : relation B)
    (P : A -> B -> Prop) (l : list A) (k : list B) :
  (forall x y x' y', P x x' -> P y y' -> R x y -> R' x' y') ->
  Forall2 P l k -> StronglySorted R l -> StronglySorted R' k.
Proof.
  intros HR. induction 1 as [|x x' l k Hx HF IH]; [constructor|].
  intros [Hall Hs]%StronglySorted_cons. apply StronglySorted_cons.
  split; [|by apply IH]. clear IH Hs.
  induction HF as [|y y' l k Hy HF IH]; [constructor|].
  apply Forall_cons in Hall as [Hxy Hall]. constructor; eauto.
Qed.

Lemma Forall2_Permutation_l {A B} (P : A -> B -> Prop) (l l' : list A) (k : list B) :
  l ≡ₚ l' -> Forall2 P l k -> exists k', k ≡ₚ k' /\ Forall2 P l' k'.
Proof.
  intros Hp. revert k. induction Hp as [|x l l' _ IH|x y l|l l' l'' _ IH1 _ IH2]; intros k HF.
  - exists k. done.
  - apply Forall2_cons_inv_l in HF as (z & k0 & Hz & HF & ->).
    destruct (IH _ HF) as (k' & Hk' & HF'). exists (z :: k'). split; [by constructor|].
    by constructor.
  - apply Forall2_cons_inv_l in HF as (z1 & k0 & Hz1 & HF & ->).
    apply Forall2_cons_inv_l in HF as (z2 & k1 & Hz2 & HF & ->).
    exists (z2 :: z1 :: k1). split; [apply Permutation_swap|]. by repeat constructor.
  - destruct (IH1 _ HF) as (k' & Hk' & HF'). destruct (IH2 _ HF') as (k'' & Hk'' & HF'').
    exists k''. split; [by etrans|done].
Qed.

(** The chunks with their scores, in document order. *)
Lemma results_of_all_indices (document_chunks : list Chunk.t) (similarities : list Q)
    (results : list retrieved) :
  length similarities = length document_chunks ->
  Forall2 (fun idx r => result_at document_chunks similarities idx = inr r)
    (seq 0 (length document_chunks)) results ->
  results
  = zip_with (fun c s => {| text := Chunk.text c; chunk_id := Chunk.chunk_id c; score := s |})
      document_chunks similarities.
Proof.
  intros Hlen HF. apply list_eq. intros i.
  pose proof (proj1 (Forall2_lookup _ _ _) HF i) as Hi. rewrite lookup_zip_with.
  destruct (decide (i < length document_chunks)%nat) as [Hlt|Hge].
  - rewrite lookup_seq_lt in Hi by done. cbn in Hi.
    inversion Hi as [idx r Hr Hidx Hres|]; subst.
    unfold result_at in Hr.
    destruct (document_chunks !! i) as [c|]; [|done].
    destruct (similarities !! i) as [s|]; [|done].
    cbn. congruence.
  - rewrite lookup_seq_ge in Hi by lia. inversion Hi as [|Hnone Hres].
    rewrite (lookup_ge_None_2 document_chunks i) by lia. done.
Qed.

End RetrieverResults.

Section RetrieverClaims.
Import config RAGService Spec Examples.

(** *** [argsort] only looks at the order of the scores *)

Lemma key_Qeq (a b : list Q) :
  Forall2 Qeq a b -> forall i, (key a i == key b i)%Q.
Proof.
  unfold key. induction 1 as [|x y a b Hxy _ IH]; intros [|i]; cbn;
    auto using Qeq_refl.
Qed.

Lemma insert_Qeq (a b : list Q) (i : nat) (l : list nat) :
  (forall j, (key a j == key b j)%Q) -> insert_index a i l = insert_index b i l.
Proof.
  intros Hk. induction l as [|j l IH]; cbn; [done|].
  rewrite (Qleb_comp _ _ (Hk j) _ _ (Hk i)), IH. done.
Qed.

Lemma argsort_Qeq (a b : list Q) : Forall2 Qeq a b -> argsort a = argsort b.
Proof.
  intros Hab. unfold argsort. rewrite (Forall2_length _ _ _ Hab).
  generalize (seq 0 (length b)) (@nil nat). intros l.
  induction l as [|i l IH]; intros acc; cbn; [done|].
  rewrite IH. f_equal. apply insert_Qeq, key_Qeq, Hab.
Qed.

(** C1, as stated, fails: on the five example chunks [top_k = 0] returns
    three chunks (the default [TOP_K]) and [top_k = -1] returns four,
    where the claim asks for an empty result. *)
Lemma retrieve_top_k_zero_counterexample :
  sum_map id (map chunk_id)
    (retrieve_relevant_chunks (H := unit_vectors) "a question" example_chunks (Some 0))
  = inr ["c3"; "c0"; "c2"]
  /\ sum_map id (map chunk_id)
       (retrieve_relevant_chunks (H := unit_vectors) "a question" example_chunks (Some (-1)))
     = inr ["c3"; "c0"; "c2"; "c4"].
Proof. split; reflexivity. Qed.

(** C1 (amended): when the similarity row of the [n] chunks is computed,
    [top_k = 0] is replaced by the default [TOP_K = 3], so the call
    returns what [top_k = 3] returns, [min 3 n] chunks; a negative
    [top_k = -m] returns [n - min m n] chunks, an empty result only when
    [m >= n].  No error is raised in either case. *)
Theorem retrieve_nonpositive_top_k `{EmbeddingModel} (query : string)
    (document_chunks : list Chunk.t) (similarities : list Q) :
  cosine_similarity (encode query) (map Chunk.embedding document_chunks)
  = inr similarities ->
  let n := Z.of_nat (length document_chunks) in
  retrieve_relevant_chunks query document_chunks (Some 0)
  = retrieve_relevant_chunks query document_chunks (Some (TOP_K settings))
  /\ (exists results,
        retrieve_relevant_chunks query document_chunks (Some 0) = inr results
        /\ Z.of_nat (length results) = Z.min 3 n)
  /\ (forall top_k, top_k < 0 ->
        exists results,
          retrieve_relevant_chunks query document_chunks (Some top_k) = inr results
          /\ Z.of_nat (length results) = n - Z.min (- top_k) n).
Proof.
  intros Hsim n.
  pose proof (cosine_similarity_length _ _ _ Hsim) as Hlen. rewrite length_map in Hlen.
  split; [reflexivity|]. split.
  - destruct (retrieve_spec query document_chunks (Some 0) _ Hsim) as (rs & Hrs & HF).
    exists rs. split; [done|].
    rewrite <- (Forall2_length _ _ _ HF), top_indices_length, Hlen. done.
  - intros top_k Hneg.
    destruct (retrieve_spec query document_chunks (Some top_k) _ Hsim) as (rs & Hrs & HF).
    exists rs. split; [done|].
    rewrite <- (Forall2_length _ _ _ HF), top_indices_length, Hlen.
    cbn. destruct (Z.eqb_spec top_k 0); [lia|].
    destruct (Z.ltb_spec 0 top_k); [lia|done].
Qed.

(** On the five example chunks: three results for [top_k = 0]. *)
Lemma retrieve_nonpositive_top_k_witness :
  cosine_similarity (EmbeddingModel := unit_vectors)
    (encode (EmbeddingModel := unit_vectors) "a question")
    (map Chunk.embedding example_chunks)
  = inr [9 # 10; 1 # 10; 1 # 2; 9 # 10; 3 # 10]%Q
  /\ exists results,
       retrieve_relevant_chunks (H := unit_vectors) "a question" example_chunks (Some 0)
       = inr results
       /\ Z.of_nat (length results) = Z.min 3 5.
Proof.
  split; [reflexivity|].
  exact (proj1 (proj2
    (retrieve_nonpositive_top_k (H := unit_vectors) "a question" example_chunks
       [9 # 10; 1 # 10; 1 # 2; 9 # 10; 3 # 10]%Q eq_refl))).
Defined.

(** C7: for [top_k >= 1], when the similarity row of the chunks is
    computed, the call returns [min top_k n] results, hence at most
    [top_k], with scores in non-increasing order; when there are no more
    than [top_k] chunks the results are all the chunks with their
    scores. *)
Theorem retrieve_top_k_sorted `{EmbeddingModel} (query : string)
    (document_chunks : list Chunk.t) (top_k : Z) (similarities : list Q) :
  1 <= top_k ->
  cosine_similarity (encode query) (map Chunk.embedding document_chunks)
  = inr similarities ->
  exists results,
    retrieve_relevant_chunks query document_chunks (Some top_k) = inr results
    /\ Z.of_nat (length results) = Z.min top_k (Z.of_nat (length document_chunks))
    /\ Z.of_nat (length results) <= top_k
    /\ StronglySorted (fun r1 r2 => (score r2 <= score r1)%Q) results
    /\ (Z.of_nat (length document_chunks) <= top_k ->
        results ≡ₚ
          zip_with (fun c s => {| text := Chunk.text c; chunk_id := Chunk.chunk_id c;
                                  score := s |})
            document_chunks similarities).
Proof.
  intros Hk Hsim.
  pose proof (cosine_similarity_length _ _ _ Hsim) as Hlen. rewrite length_map in Hlen.
  destruct (retrieve_spec query document_chunks (Some top_k) _ Hsim) as (rs & Hrs & HF).
  assert (Py.or_default (Some top_k) (TOP_K settings) = top_k) as Heff.
  { cbn. destruct (Z.eqb_spec top_k 0); [lia|done]. }
  rewrite Heff in HF.
  assert (Z.of_nat (length rs) = Z.min top_k (Z.of_nat (length document_chunks))) as Hn.
  { rewrite <- (Forall2_length _ _ _ HF), top_indices_length, Hlen.
    destruct (Z.ltb_spec 0 top_k); [done|lia]. }
  exists rs. split; [done|]. split; [done|]. split; [lia|]. split.
  - eapply StronglySorted_Forall2; [|exact HF|apply top_indices_sorted].
    intros i j r r' Hr Hr' Hij%index_lt_le.
    by rewrite (result_at_score _ _ _ _ Hr), (result_at_score _ _ _ _ Hr').
  - intros Hall.
    assert (top_indices similarities top_k ≡ₚ seq 0 (length document_chunks)) as Hperm.
    { unfold top_indices. rewrite slice_from_all by (rewrite argsort_length; lia).
      rewrite <- Permutation_rev. by rewrite argsort_perm, Hlen. }
    destruct (Forall2_Permutation_l _ _ _ _ Hperm HF) as (rs' & Hrs' & HF').
    rewrite Hrs'. by rewrite (results_of_all_indices _ _ _ Hlen HF').
Qed.

(** On the five example chunks with [top_k = 2]. *)
Lemma retrieve_top_k_sorted_witness :
  1 <= 2
  /\ exists results,
       retrieve_relevant_chunks (H := unit_vectors) "a question" example_chunks (Some 2)
       = inr results
       /\ StronglySorted (fun r1 r2 => (score r2 <= score r1)%Q) results.
Proof.
  split; [lia|].
  destruct (retrieve_top_k_sorted (H := unit_vectors) "a question" example_chunks 2
              [9 # 10; 1 # 10; 1 # 2; 9 # 10; 3 # 10]%Q)
    as (rs & Hrs & _ & _ & Hsorted & _); [lia|reflexivity|].
  exists rs. split; [exact Hrs|exact Hsorted].
Defined.

(** C3, as stated, fails: the example chunks have similarities
    0.9, 0.1, 0.5, 0.9 and 0.3; with [top_k = 2] the two chunks scoring
    0.9 come back with the later one, ["c3"] at index 3, before ["c0"] at
    index 0. *)
Lemma retrieve_tie_break_counterexample :
  cosine_similarity (EmbeddingModel := unit_vectors)
    (encode (EmbeddingModel := unit_vectors) "a question")
    (map Chunk.embedding example_chunks)
  = inr [9 # 10; 1 # 10; 1 # 2; 9 # 10; 3 # 10]%Q
  /\ map Chunk.chunk_id example_chunks = ["c0"; "c1"; "c2"; "c3"; "c4"]
  /\ sum_map id (map chunk_id)
       (retrieve_relevant_chunks (H := unit_vectors) "a question" example_chunks (Some 2))
     = inr ["c3"; "c0"].
Proof. repeat split. Qed.

(** C3 (amended): with ties of [argsort] kept in index order, the results
    are the chunks at the positions [top_indices], which are strictly
    ordered by descending score and, among identical scores, by
    descending position: chunks with identical scores appear in reverse
    document order.  In particular, for five chunks with similarities
    0.9, 0.1, 0.5, 0.9, 0.3 and [top_k = 2], the two chunks scoring 0.9
    are returned with the later-indexed chunk (index 3) first. *)
Theorem retrieve_ties_latest_first `{EmbeddingModel} (query : string)
    (document_chunks : list Chunk.t) (top_k : option Z) (similarities : list Q) :
  cosine_similarity (encode query) (map Chunk.embedding document_chunks)
  = inr similarities ->
  (exists results,
     retrieve_relevant_chunks query document_chunks top_k = inr results
     /\ Forall2 (fun idx r => result_at document_chunks similarities idx = inr r)
          (top_indices similarities (Py.or_default top_k (TOP_K settings))) results
     /\ StronglySorted
          (fun i j => (key similarities j < key similarities i)%Q
                      \/ ((key similarities j == key similarities i)%Q /\ (j < i)%nat))
          (top_indices similarities (Py.or_default top_k (TOP_K settings))))
  /\ (Forall2 Qeq similarities [9 # 10; 1 # 10; 1 # 2; 9 # 10; 3 # 10]%Q ->
      exists r3 r0,
        retrieve_relevant_chunks query document_chunks (Some 2) = inr [r3; r0]
        /\ result_at document_chunks similarities 3 = inr r3
        /\ result_at document_chunks similarities 0 = inr r0).
Proof.
  intros Hsim. split.
  - destruct (retrieve_spec query document_chunks top_k _ Hsim) as (rs & Hrs & HF).
    exists rs. split; [done|]. split; [done|]. apply top_indices_sorted.
  - intros Heq.
    destruct (retrieve_spec query document_chunks (Some 2) _ Hsim) as (rs & Hrs & HF).
    assert (top_indices similarities (Py.or_default (Some 2) (TOP_K settings)) = [3; 0]%nat)
      as Hidx.
    { unfold top_indices. by rewrite (argsort_Qeq _ _ Heq). }
    rewrite Hidx in HF.
    apply Forall2_cons_inv_l in HF as (r3 & rs1 & Hr3 & HF & ->).
    apply Forall2_cons_inv_l in HF as (r0 & rs2 & Hr0 & HF & ->).
    apply Forall2_nil_inv_l in HF as ->. eauto.
Qed.

(** On the five example chunks: ["c3"] comes before ["c0"]. *)
Lemma retrieve_ties_latest_first_witness :
  exists r3 r0,
    retrieve_relevant_chunks (H := unit_vectors) "a question" example_chunks (Some 2)
    = inr [r3; r0]
    /\ chunk_id r3 = "c3" /\ chunk_id r0 = "c0".
Proof.
  destruct (proj2 (retrieve_ties_latest_first (H := unit_vectors) "a question"
                     example_chunks (Some 2)
                     [9 # 10; 1 # 10; 1 # 2; 9 # 10; 3 # 10]%Q eq_refl))
    as (r3 & r0 & Hrs & Hr3 & Hr0).
  - repeat constructor.
  - exists r3, r0. split; [exact Hrs|].
    injection Hr3 as <-. injection Hr0 as <-. split; reflexivity.
Defined.

End RetrieverClaims.

(* --------------------------------------------------------------------- *)
(** ** The context window *)
(* --------------------------------------------------------------------- *)

Section ContextWindow.
Import LLMService Spec.

(** C9: for [max_history >= 1], a list longer than [max_history] is cut
    to its last [max_history] messages, in their order, and a list of at
    most [max_history] messages is kept whole; either way each message
    is passed on as its [role] and [content]. *)
Theorem prepare_context_window (messages : list Message.t) (max_history : Z) :
  1 <= max_history ->
  let fmt := fun msg => {| ChatMessage.role := Message.role msg;
                           ChatMessage.content := Message.content msg |} in
  (max_history < Z.of_nat (length messages) ->
     exists older recent,
       messages = older ++ recent
       /\ Z.of_nat (length recent) = max_history
       /\ prepare_context messages max_history = map fmt recent)
  /\ (Z.of_nat (length messages) <= max_history ->
      prepare_context messages max_history = map fmt messages).
Proof.
  intros Hmax fmt. unfold prepare_context. split.
  - intros Hlen.
    destruct (Z.gtb_spec (Z.of_nat (length messages)) max_history); [|lia].
    destruct (slice_from_suffix (- max_history) messages) as [older Holder].
    exists older, (Py.slice_from (- max_history) messages).
    split; [done|]. split; [|done].
    rewrite slice_from_length. destruct (Z.ltb_spec (- max_history) 0); lia.
  - intros Hlen.
    destruct (Z.gtb_spec (Z.of_nat (length messages)) max_history); [lia|done].
Qed.

(** Three messages and a window of two. *)
Lemma prepare_context_window_witness :
  1 <= 2
  /\ exists older recent,
       [main.user_message_of "one" 1; main.user_message_of "two" 2;
        main.user_message_of "three" 3] = older ++ recent
       /\ Z.of_nat (length recent) = 2
       /\ prepare_context
            [main.user_message_of "one" 1; main.user_message_of "two" 2;
             main.user_message_of "three" 3] 2
          = map (fun msg => {| ChatMessage.role := Message.role msg;
                               ChatMessage.content := Message.content msg |}) recent.
Proof.
  split; [lia|].
  apply (prepare_context_window
           [main.user_message_of "one" 1; main.user_message_of "two" 2;
            main.user_message_of "three" 3] 2); cbn; lia.
Defined.

End ContextWindow.

(* --------------------------------------------------------------------- *)
(** ** The conversation store *)
(* --------------------------------------------------------------------- *)

Create HintDb store discriminated.

Section StoreFacts.
Import LLMService main Spec Examples.

(** *** Composition rules *)

Lemma bind_run {A B} (m : M A) (f : A -> M B) (s : db) :
  (m ≫= f) s
  = match m s with
    | (inl e, s') => (inl e, s')
    | (inr x, s') => f x s'
    end.
Proof. reflexivity. Qed.

Lemma preserves_ret {A} (P : db -> Prop) (x : A) : preserves P (mret x : M A).
Proof. by intros s. Qed.

Lemma preserves_raise {A} (P : db -> Prop) (e : exn) : preserves P (raise (A := A) e).
Proof. by intros s. Qed.

Lemma preserves_lift {A} (P : db -> Prop) (r : res A) : preserves P (lift r).
Proof. by intros s. Qed.

Lemma preserves_bind {A B} (P : db -> Prop) (m : M A) (f : A -> M B) :
  preserves P m -> (forall x, preserves P (f x)) -> preserves P (m ≫= f).
Proof.
  intros Hm Hf s Hs. rewrite bind_run. specialize (Hm s Hs).
  destruct (m s) as [[e|x] s']; [done|]. by apply Hf.
Qed.

Lemma preserves_try_except {A} (P : db -> Prop) (m : M A) :
  preserves P m -> preserves P (try_except m).
Proof.
  intros Hm s Hs. unfold try_except. specialize (Hm s Hs).
  by destruct (m s) as [[[e|c d]|x] s'].
Qed.

Lemma read_only_preserves {A} (P : db -> Prop) (m : M A) :
  read_only m -> preserves P m.
Proof. intros Hm s Hs. by rewrite Hm. Qed.

Lemma read_only_bind {A B} (m : M A) (f : A -> M B) :
  read_only m -> (forall x, read_only (f x)) -> read_only (m ≫= f).
Proof.
  intros Hm Hf s. rewrite bind_run. specialize (Hm s).
  destruct (m s) as [[e|x] s']; cbn in *; [done|]. subst. apply Hf.
Qed.

Lemma read_only_lift {A} (r : res A) : read_only (lift r).
Proof. by intros s. Qed.

Lemma read_only_raise {A} (e : exn) : read_only (raise (A := A) e).
Proof. by intros s. Qed.

Lemma read_only_ret {A} (x : A) : read_only (mret x : M A).
Proof. by intros s. Qed.

Lemma rag_response_read_only `{EmbeddingModel, GroqClient}
    (document_id : option string) (query system : string) :
  read_only (rag_response document_id query system).
Proof.
  unfold rag_response. apply read_only_bind; [by intros s|].
  intros [document|]; [|apply read_only_raise].
  apply read_only_bind; [apply read_only_lift|]. intros relevant_chunks.
  apply read_only_bind; [apply read_only_lift|]. intros response.
  apply read_only_ret.
Qed.

(** *** The token total *)

Lemma sum_tokens_app (l1 l2 : list Message.t) :
  sum_tokens (l1 ++ l2) = sum_tokens l1 + sum_tokens l2.
Proof. unfold sum_tokens. induction l1 as [|m l1 IH]; cbn; lia. Qed.

Lemma push_message_consistent (message : Message.t) (utcnow : Z) (conv : ConversationDB.t) :
  tokens_consistent conv ->
  tokens_consistent (ConversationRepo.push_message message utcnow conv).
Proof.
  unfold tokens_consistent. cbn. intros ->. rewrite sum_tokens_app. cbn. lia.
Qed.

Lemma repo_add_message_preserves (conversation_id : string) (message : Message.t)
    (utcnow : Z) :
  preserves db_consistent (ConversationRepo.add_message conversation_id message utcnow).
Proof.
  intros s Hs. unfold ConversationRepo.add_message.
  destruct (conversations s !! conversation_id) as [conv|] eqn:Hconv; [|done].
  intros id conv'. cbn. rewrite lookup_insert. case_decide as Hid.
  - intros [= <-]. apply push_message_consistent. by eapply Hs.
  - apply Hs.
Qed.

Lemma repo_create_preserves (conversation_data : ConversationDB.t) :
  tokens_consistent conversation_data ->
  preserves db_consistent (ConversationRepo.create conversation_data).
Proof.
  intros Hc s Hs. unfold ConversationRepo.create.
  destruct (conversations s !! _) eqn:Hconv; [done|].
  intros id conv'. cbn. rewrite lookup_insert. case_decide as Hid.
  - by intros [= <-].
  - apply Hs.
Qed.

Lemma repo_delete_preserves (conversation_id : string) :
  preserves db_consistent (ConversationRepo.delete conversation_id).
Proof.
  intros s Hs. unfold ConversationRepo.delete.
  destruct (conversations s !! conversation_id) eqn:Hconv; [|done].
  intros id conv'. cbn. rewrite lookup_delete. case_decide; [done|]. apply Hs.
Qed.

#[local] Hint Resolve preserves_ret preserves_raise preserves_lift preserves_try_except
  read_only_preserves rag_response_read_only
  repo_add_message_preserves repo_delete_preserves : store.

(** The handlers, rule by rule. *)
Lemma create_conversation_preserves `{EmbeddingModel, GroqClient}
    (data : ConversationCreate.t) (uuid : string) (clock : nat -> Z) :
  preserves db_consistent (create_conversation data uuid clock).
Proof.
  unfold create_conversation. apply preserves_try_except.
  destruct (_ && _); [auto with store|].
  apply preserves_bind.
  - destruct (ConversationCreate.mode data); auto with store.
  - intros response. apply repo_create_preserves.
    unfold tokens_consistent. cbn. lia.
Qed.

Lemma add_message_preserves `{EmbeddingModel, GroqClient}
    (conversation_id : string) (message : MessageCreate.t) (clock : nat -> Z) :
  preserves db_consistent (add_message conversation_id message clock).
Proof.
  unfold add_message. apply preserves_try_except.
  apply preserves_bind; [by intros s|].
  intros [conversation|]; [|auto with store].
  apply preserves_bind; [auto with store|]. intros _.
  apply preserves_bind.
  - destruct (ConversationDB.mode conversation); auto with store.
  - intros response. apply preserves_bind; auto with store.
Qed.

Lemma delete_conversation_preserves (conversation_id : string) :
  preserves db_consistent (delete_conversation conversation_id).
Proof.
  unfold delete_conversation. apply preserves_try_except.
  apply preserves_bind; [auto with store|].
  intros [|]; auto with store.
Qed.

Lemma step_consistent (s s' : db) : step s s' -> db_consistent s -> db_consistent s'.
Proof.
  intros Hstep Hs. destruct Hstep as [E G data uuid clock s|E G id message clock s
                                     |id message utcnow s|id s].
  - exact (create_conversation_preserves data uuid clock s Hs).
  - exact (add_message_preserves id message clock s Hs).
  - exact (repo_add_message_preserves id message utcnow s Hs).
  - exact (delete_conversation_preserves id s Hs).
Qed.

(** C8: in every store reached from the empty one by requests that
    create a conversation (with its first user and assistant messages),
    add a message, append a message through the repository or delete a
    conversation, whatever the libraries answer, the [total_tokens] of
    every conversation is the sum of the token counts of its messages. *)
Theorem total_tokens_invariant (s : db) :
  rtc step empty_db s -> db_consistent s.
Proof.
  intros Hreach.
  assert (db_consistent empty_db) as Hinit.
  { intros id conv. cbn. by rewrite lookup_empty. }
  revert Hinit. induction Hreach as [|s1 s2 s3 Hstep _ IH]; [done|].
  intros Hs1. apply IH. by eapply step_consistent.
Qed.

(** The example store is reached in one step and holds 9 tokens. *)
Lemma total_tokens_invariant_witness :
  rtc step empty_db example_db
  /\ (ConversationDB.total_tokens <$> conversations example_db !! "conv-1") = Some 9
  /\ db_consistent example_db.
Proof.
  assert (rtc step empty_db example_db) as Hreach.
  { eapply rtc_l; [|apply rtc_refl]. apply step_create. }
  split; [exact Hreach|]. split; [reflexivity|].
  exact (total_tokens_invariant example_db Hreach).
Defined.

(** *** Failures *)

Lemma generate_response_fails `{GroqClient} :
  generation_fails ->
  forall messages max_tokens temperature,
    exists e, generate_response messages max_tokens temperature = inl e.
Proof.
  intros Hfail messages max_tokens temperature. unfold generate_response.
  destruct (Hfail (config.GROQ_MODEL config.settings) (map format_message messages)
              max_tokens temperature) as [e ->].
  destruct e; eauto.
Qed.

Lemma rag_response_fails `{EmbeddingModel, GroqClient}
    (document_id : option string) (query system : string) (s : db) :
  generation_fails ->
  exists e, rag_response document_id query system s = (inl e, s).
Proof.
  intros Hfail. unfold rag_response. rewrite bind_run. cbn.
  destruct (document_id ≫= _) as [document|]; [|by eexists].
  rewrite bind_run. unfold lift at 1.
  destruct (RAGService.retrieve_relevant_chunks _ _ _) as [e|relevant_chunks];
    [by eexists|].
  rewrite bind_run. unfold lift at 1.
  destruct (generate_response_fails Hfail
              [system_message system;
               user_prompt (RAGService.build_rag_prompt query relevant_chunks)]
              default_max_tokens default_temperature) as [e ->].
  by eexists.
Qed.

(** Rewrite the generation call of the goal with the exception it raises. *)
Ltac generation_raises Hfail :=
  match goal with
  | |- context [generate_response ?m ?k ?t] =>
      destruct (generate_response_fails Hfail m k t) as [? ->]
  | |- context [rag_response ?d ?q ?sys ?st] =>
      destruct (rag_response_fails d q sys st Hfail) as [? ->]
  end.

(** A request to [add_message] that fails after the conversation was
    found, for whatever reason, leaves the user message stored and
    nothing else. *)
Lemma add_message_failure_state `{EmbeddingModel, GroqClient}
    (s : db) (conversation_id : string) (message : MessageCreate.t)
    (clock : nat -> Z) (conv : ConversationDB.t) (e : exn) :
  conversations s !! conversation_id = Some conv ->
  (add_message conversation_id message clock s).1 = inl e ->
  (add_message conversation_id message clock s).2
  = {| conversations :=
         <[conversation_id :=
             ConversationRepo.push_message
               (user_message_of (MessageCreate.content message) (clock 0%nat))
               (clock 1%nat) conv]> (conversations s);
       documents := documents s |}.
Proof.
  intros Hconv.
  set (stored := {| conversations := _; documents := _ |}).
  destruct (add_message conversation_id message clock s) as [r' s'] eqn:Hrun.
  cbn [fst snd]. intros ->.
  unfold add_message, try_except in Hrun.
  rewrite bind_run in Hrun. unfold ConversationRepo.get_by_id at 1 in Hrun.
  rewrite Hconv in Hrun.
  rewrite bind_run in Hrun. unfold ConversationRepo.add_message at 1 in Hrun.
  rewrite Hconv in Hrun. fold stored in Hrun.
  rewrite bind_run in Hrun.
  assert (exists r, (match ConversationDB.mode conv with
                     | open_chat =>
                         lift (generate_response
                                 (system_message "You are a helpful AI assistant."
                                  :: prepare_context
                                       (ConversationDB.messages conv
                                        ++ [user_message_of (MessageCreate.content message)
                                              (clock 0%nat)]) 10)
                                 default_max_tokens default_temperature)
                     | rag =>
                         rag_response (ConversationDB.document_id conv)
                           (MessageCreate.content message)
                           "Answer based on provided context."
                     end) stored = (r, stored)) as [r Hr].
  { destruct (ConversationDB.mode conv); [by eexists|].
    pose proof (rag_response_read_only (ConversationDB.document_id conv)
                  (MessageCreate.content message) "Answer based on provided context."
                  stored) as Hro.
    destruct (rag_response _ _ _ stored) as [r s'']. cbn in Hro. subst s''. by eexists. }
  rewrite Hr in Hrun.
  destruct r as [[e'|c d]|response].
  - by injection Hrun as _ <-.
  - by injection Hrun as _ <-.
  - rewrite bind_run in Hrun. unfold ConversationRepo.add_message at 1 in Hrun.
    unfold stored at 1 in Hrun. cbn [conversations] in Hrun.
    rewrite lookup_insert_eq in Hrun. cbn in Hrun. by injection Hrun as ? _.
Qed.

(** A request to [create_conversation] that fails stores nothing. *)
Lemma create_conversation_failure_state `{EmbeddingModel, GroqClient}
    (s : db) (data : ConversationCreate.t) (uuid : string) (clock : nat -> Z) (e : exn) :
  (create_conversation data uuid clock s).1 = inl e ->
  (create_conversation data uuid clock s).2 = s.
Proof.
  destruct (create_conversation data uuid clock s) as [r' s'] eqn:Hrun.
  cbn [fst snd]. intros ->.
  unfold create_conversation, try_except in Hrun.
  destruct (_ && _); [by injection Hrun as _ <-|].
  rewrite bind_run in Hrun.
  assert (exists r, (match ConversationCreate.mode data with
                     | open_chat =>
                         lift (generate_response
                                 [system_message "You are a helpful AI assistant.";
                                  user_prompt (ConversationCreate.first_message data)]
                                 default_max_tokens default_temperature)
                     | rag =>
                         rag_response (ConversationCreate.document_id data)
                           (ConversationCreate.first_message data)
                           "You are a helpful assistant that answers based on provided context."
                     end) s = (r, s)) as [r Hr].
  { destruct (ConversationCreate.mode data); [by eexists|].
    pose proof (rag_response_read_only (ConversationCreate.document_id data)
                  (ConversationCreate.first_message data)
                  "You are a helpful assistant that answers based on provided context."
                  s) as Hro.
    destruct (rag_response _ _ _ s) as [r s'']. cbn in Hro. subst s''. by eexists. }
  rewrite Hr in Hrun.
  destruct r as [[e'|c d]|response].
  - by injection Hrun as _ <-.
  - by injection Hrun as _ <-.
  - unfold ConversationRepo.create in Hrun. cbn [ConversationDB.conversation_id] in Hrun.
    destruct (conversations s !! uuid); [by injection Hrun as _ <-|].
    by injection Hrun as ? _.
Qed.

(** C2, as stated, fails: in the example store, a message sent while the
    generation model times out is answered with an error, and the
    conversation has gained the user message (three messages instead of
    two, 12 tokens instead of 9). *)
Lemma add_message_failure_counterexample :
  conversations example_db !! "conv-1" = Some example_conversation
  /\ failed_request.1
     = inl (HTTPException 500 "LLM Service Error: Request timed out.")
  /\ conversations failed_request.2 !! "conv-1"
     = Some {| ConversationDB.conversation_id := "conv-1";
               ConversationDB.mode := open_chat;
               ConversationDB.document_id := None;
               ConversationDB.messages :=
                 ConversationDB.messages example_conversation
                 ++ [user_message_of "tell me more" 2000];
               ConversationDB.total_tokens := 12;
               ConversationDB.created_at := 1000;
               ConversationDB.updated_at := 2001 |}
  /\ failed_request.2 <> example_db.
Proof.
  split; [reflexivity|]. split; [reflexivity|]. split; [reflexivity|].
  intros Heq.
  assert ((ConversationDB.total_tokens <$> conversations failed_request.2 !! "conv-1")
          = Some 12) as Hafter by reflexivity.
  rewrite Heq in Hafter. discriminate Hafter.
Qed.

(** The requests raise when the generation service fails. *)
Lemma add_message_generation_fails `{EmbeddingModel, GroqClient}
    (s : db) (conversation_id : string) (message : MessageCreate.t)
    (clock : nat -> Z) (conv : ConversationDB.t) :
  conversations s !! conversation_id = Some conv ->
  generation_fails ->
  exists e, (add_message conversation_id message clock s).1 = inl e.
Proof.
  intros Hconv Hfail. unfold add_message, try_except.
  rewrite bind_run. unfold ConversationRepo.get_by_id at 1. rewrite Hconv.
  rewrite bind_run. unfold ConversationRepo.add_message at 1. rewrite Hconv.
  rewrite bind_run. unfold lift.
  destruct (ConversationDB.mode conv); generation_raises Hfail;
    match goal with e : exn |- _ => destruct e end; eexists; reflexivity.
Qed.

Lemma create_conversation_generation_fails `{EmbeddingModel, GroqClient}
    (s : db) (data : ConversationCreate.t) (uuid : string) (clock : nat -> Z) :
  generation_fails ->
  exists e, (create_conversation data uuid clock s).1 = inl e.
Proof.
  intros Hfail. unfold create_conversation, try_except.
  destruct (_ && _); [by eexists|].
  rewrite bind_run. unfold lift.
  destruct (ConversationCreate.mode data); generation_raises Hfail;
    match goal with e : exn |- _ => destruct e end; eexists; reflexivity.
Qed.

(** C2 (amended): when the generation service fails both requests raise.
    Whenever [add_message] raises after it found the conversation (a
    failed generation call included), the store is left as it was just
    before the generation call, not as the request found it: the user
    message, appended before the call, stays stored (one more message,
    [total_tokens] increased by its token count, [updated_at] set) and
    no assistant message is stored.  Whenever [create_conversation]
    raises, nothing is stored. *)
Theorem generation_failure_state `{EmbeddingModel, GroqClient}
    (s : db) (conversation_id : string) (message : MessageCreate.t)
    (clock : nat -> Z) (conv : ConversationDB.t) :
  conversations s !! conversation_id = Some conv ->
  let user_message := user_message_of (MessageCreate.content message) (clock 0%nat) in
  let stored :=
    {| conversations :=
         <[conversation_id :=
             {| ConversationDB.conversation_id := ConversationDB.conversation_id conv;
                ConversationDB.mode := ConversationDB.mode conv;
                ConversationDB.document_id := ConversationDB.document_id conv;
                ConversationDB.messages := ConversationDB.messages conv ++ [user_message];
                ConversationDB.total_tokens :=
                  ConversationDB.total_tokens conv
                  + count_tokens (MessageCreate.content message);
                ConversationDB.created_at := ConversationDB.created_at conv;
                ConversationDB.updated_at := clock 1%nat |}]> (conversations s);
       documents := documents s |} in
  (generation_fails ->
     (exists e, add_message conversation_id message clock s = (inl e, stored))
     /\ (forall data uuid clock',
          exists e, create_conversation data uuid clock' s = (inl e, s)))
  /\ (forall e,
        (add_message conversation_id message clock s).1 = inl e ->
        (add_message conversation_id message clock s).2 = stored)
  /\ (forall data uuid clock' e,
        (create_conversation data uuid clock' s).1 = inl e ->
        (create_conversation data uuid clock' s).2 = s).
Proof.
  intros Hconv user_message stored.
  assert (forall e,
            (add_message conversation_id message clock s).1 = inl e ->
            (add_message conversation_id message clock s).2 = stored) as Hadd.
  { intros e He. by rewrite (add_message_failure_state _ _ _ _ _ _ Hconv He). }
  pose proof (fun data uuid clock' e =>
                create_conversation_failure_state s data uuid clock' e) as Hcreate.
  split; [|split; [exact Hadd|exact Hcreate]].
  intros Hfail. split.
  - destruct (add_message_generation_fails s conversation_id message clock conv
                Hconv Hfail) as [e He].
    exists e. specialize (Hadd e He).
    destruct (add_message conversation_id message clock s) as [r s'].
    cbn in He, Hadd. by subst.
  - intros data uuid clock'.
    destruct (create_conversation_generation_fails s data uuid clock' Hfail) as [e He].
    exists e. specialize (Hcreate data uuid clock' e He).
    destruct (create_conversation data uuid clock' s) as [r s'].
    cbn in He, Hcreate. by subst.
Qed.

(** In the example store, with the generation model that times out. *)
Lemma generation_failure_state_witness :
  conversations example_db !! "conv-1" = Some example_conversation
  /\ generation_fails (H := failing_groq)
  /\ exists e,
       add_message (H := unit_vectors) (H0 := failing_groq)
         "conv-1" example_message later_clock example_db
       = (inl e,
          {| conversations :=
               <["conv-1" :=
                   {| ConversationDB.conversation_id := "conv-1";
                      ConversationDB.mode := open_chat;
                      ConversationDB.document_id := None;
                      ConversationDB.messages :=
                        ConversationDB.messages example_conversation
                        ++ [user_message_of "tell me more" 2000];
                      ConversationDB.total_tokens := 9 + 3;
                      ConversationDB.created_at := 1000;
                      ConversationDB.updated_at := 2001 |}]>
                 (conversations example_db);
             documents := documents example_db |}).
Proof.
  assert (generation_fails (H := failing_groq)) as Hfail.
  { intros model messages max_tokens temperature. eexists. reflexivity. }
  split; [reflexivity|]. split; [exact Hfail|].
  exact (proj1 (proj1 (generation_failure_state (H := unit_vectors) (H0 := failing_groq)
                         example_db "conv-1" example_message later_clock
                         example_conversation eq_refl) Hfail)).
Defined.

End StoreFacts.

(* ===================================================================== *)
(** * Further properties of the code *)
(* ===================================================================== *)

(* --------------------------------------------------------------------- *)
(** ** Tokens and chunks *)
(* --------------------------------------------------------------------- *)

Section ChunkerTokens.
Import config RAGService Spec.

Lemma app_String (c : Ascii.ascii) (a b : string) : String c a +:+ b = String c (a +:+ b).
Proof. reflexivity. Qed.

Lemma app_empty_l (a : string) : "" +:+ a = a.
Proof. reflexivity. Qed.

Lemma app_empty_r (a : string) : a +:+ "" = a.
Proof. induction a as [|c a IH]; [done|]. by rewrite app_String, IH. Qed.

Lemma no_space_app (a b : string) : no_space (a +:+ b) = no_space a && no_space b.
Proof.
  induction a as [|c a IH]; [done|].
  rewrite app_String. cbn [no_space]. by rewrite IH, andb_assoc.
Qed.

Lemma app_not_empty (a : string) (c : Ascii.ascii) : a +:+ String c "" <> "".
Proof. by destruct a. Qed.

(** [split] yields tokens. *)
Lemma split_from_tokens (s : string) :
  forall cur : option string,
    (forall w, cur = Some w -> is_token w) ->
    Forall is_token (Py.split_from cur s).
Proof.
  induction s as [|c s IH]; intros cur Hcur; cbn [Py.split_from].
  - destruct cur as [w|]; [|constructor]. apply Forall_singleton. by apply Hcur.
  - destruct (Py.isspace c) eqn:Hc.
    + destruct cur as [w|].
      * constructor; [by apply Hcur|]. by apply IH.
      * by apply IH.
    + apply IH. intros w [= <-]. split; [apply app_not_empty|].
      rewrite no_space_app. cbn [no_space]. rewrite Hc. cbn.
      destruct cur as [w|]; cbn; [|done].
      destruct (Hcur w eq_refl) as [_ ->]. done.
Qed.

Lemma split_tokens (s : string) : Forall is_token (Py.split s).
Proof. apply split_from_tokens. by intros w. Qed.

(** Reading a token extends the current run by it. *)
Lemma split_from_token (w : string) :
  no_space w = true -> w <> "" ->
  forall (cur : option string) (s : string),
    Py.split_from cur (w +:+ s) = Py.split_from (Some (default "" cur +:+ w)) s.
Proof.
  induction w as [|c w IH]; [done|]. intros Hw _ cur s.
  cbn [no_space] in Hw. apply andb_true_iff in Hw as [Hc Hw].
  apply negb_true_iff in Hc.
  rewrite app_String. cbn [Py.split_from]. rewrite Hc.
  destruct w as [|c' w].
  - done.
  - rewrite IH by done. f_equal. f_equal. cbn. by rewrite append_assoc.
Qed.

(** Splitting the join of tokens gives the tokens back. *)
Lemma split_join (g : list string) :
  Forall is_token g -> Py.split (Py.join " " g) = g.
Proof.
  unfold Py.split. induction 1 as [|w g [Hne Hw] Hg IH]; [done|].
  destruct g as [|w' g].
  - rewrite join_singleton, <- (app_empty_r w), split_from_token by done.
    cbn [from_option id]. by rewrite app_empty_l, app_empty_r.
  - rewrite join_cons, split_from_token by done.
    rewrite app_String. cbn [Py.split_from].
    match goal with
    | |- context [Py.isspace ?c] => change (Py.isspace c) with true
    end.
    cbn iota. cbn [from_option id]. rewrite !app_empty_l. by rewrite IH.
Qed.

Lemma chunk_groups_tokens (chunk_size : Z) (text : string) :
  Forall (Forall is_token) (chunk_groups chunk_size (Py.split text)).
Proof.
  apply Forall_concat. rewrite chunk_groups_concat. apply split_tokens.
Qed.

Lemma map_split_join (groups : list (list string)) :
  Forall (Forall is_token) groups ->
  map Py.split (map (Py.join " ") groups) = groups.
Proof.
  induction 1 as [|g groups Hg _ IH]; [done|].
  cbn [map]. by rewrite split_join, IH.
Qed.

(** X1: the chunks keep the tokens of the text: splitting every chunk
    again and putting the tokens in a row gives the tokens of the text,
    each once and in order, and every chunk holds at least one token (no
    chunk is empty or blank). *)
Theorem chunk_text_keeps_tokens (text : string) (chunk_size : option Z) :
  concat (map Py.split (chunk_text text chunk_size)) = Py.split text
  /\ Forall (fun c => Py.split c <> [] /\ c <> "") (chunk_text text chunk_size).
Proof.
  unfold chunk_text. set (cs := Py.or_default chunk_size (CHUNK_SIZE settings)).
  rewrite chunk_words_groups.
  pose proof (chunk_groups_tokens cs text) as Htok.
  pose proof (chunk_groups_ok cs (Py.split text)) as Hok.
  split.
  - by rewrite map_split_join, chunk_groups_concat.
  - apply Forall_map. apply Forall_forall. intros g Hg.
    pose proof (proj1 (Forall_forall _ _) Htok g Hg) as Hgtok.
    pose proof (proj1 (Forall_forall _ _) Hok g Hg) as [Hne _].
    rewrite split_join by done. split; [done|].
    intros Hempty. apply Hne. rewrite <- (split_join g Hgtok), Hempty. done.
Qed.

(** X2: there are never more chunks than tokens, and there is no chunk
    exactly when the text has no token (it is empty or blank). *)
Theorem chunk_text_count (text : string) (chunk_size : option Z) :
  (length (chunk_text text chunk_size) <= length (Py.split text))%nat
  /\ (chunk_text text chunk_size = [] <-> Py.split text = []).
Proof.
  unfold chunk_text. set (cs := Py.or_default chunk_size (CHUNK_SIZE settings)).
  rewrite chunk_words_groups, length_map.
  pose proof (chunk_groups_ok cs (Py.split text)) as Hok.
  pose proof (chunk_groups_concat cs (Py.split text)) as Hcat.
  revert Hok Hcat. generalize (chunk_groups cs (Py.split text)). intros groups.
  generalize (Py.split text). intros tokens Hok <-. split.
  - clear -Hok. induction Hok as [|g groups [Hg _] _ IH]; cbn [length concat]; [lia|].
    rewrite length_app. destruct g; [done|]. cbn [length]. lia.
  - split.
    + by intros ->%fmap_nil_inv.
    + destruct Hok as [|g groups [Hg _] _]; [done|].
      cbn. destruct g; [done|]. done.
Qed.

Lemma fold_group_step_fits (chunk_size : Z) (words : list string) :
  forall closed cur,
    weight cur + weight words <= chunk_size ->
    fold_left (group_step chunk_size) words (closed, cur) = (closed, cur ++ words).
Proof.
  induction words as [|w words IH]; intros closed cur Hfit; cbn [fold_left].
  - by rewrite app_nil_r.
  - pose proof (weight_nonneg words). cbn [weight foldr] in Hfit. fold (weight words) in Hfit.
    unfold group_step at 2.
    destruct (Z.gtb_spec (weight cur + (Py.len w + 1)) chunk_size); [lia|].
    cbn [andb]. rewrite IH.
    + by rewrite <- app_assoc.
    + rewrite weight_app. cbn. lia.
Qed.

(** X3: a text whose tokens, joined with single spaces, are shorter than
    the chunk size is kept as one chunk, that join. *)
Theorem chunk_text_single_chunk (text : string) (chunk_size : option Z) :
  Py.split text <> [] ->
  Py.len (Py.join " " (Py.split text)) < Py.or_default chunk_size (CHUNK_SIZE settings) ->
  chunk_text text chunk_size = [Py.join " " (Py.split text)].
Proof.
  intros Hne Hfit. unfold chunk_text. rewrite chunk_words_groups.
  unfold chunk_groups. rewrite fold_group_step_fits.
  - cbn. destruct (Py.split text); done.
  - fold (chunk_len (Py.split text)) in Hfit.
    rewrite chunk_len_weight in Hfit by done. change (weight []) with 0. lia.
Qed.

(** The default size, and a text of five tokens. *)
Lemma chunk_text_single_chunk_witness :
  Py.split "  what is   the refund policy " <> []
  /\ Py.len (Py.join " " (Py.split "  what is   the refund policy ")) < 500
  /\ chunk_text "  what is   the refund policy " None = ["what is the refund policy"].
Proof.
  assert (Py.split "  what is   the refund policy " <> []) as Hne by done.
  assert (Py.len (Py.join " " (Py.split "  what is   the refund policy ")) < 500)
    as Hfit by (vm_compute; reflexivity).
  split; [exact Hne|]. split; [exact Hfit|].
  exact (chunk_text_single_chunk "  what is   the refund policy " None Hne Hfit).
Defined.

(** *** Chunks are closed only when they must be *)

Lemma packed_snoc_hd (chunk_size : Z) (groups : list (list string)) (g g' : list string) :
  hd "" g = hd "" g' ->
  packed chunk_size (groups ++ [g]) -> packed chunk_size (groups ++ [g']).
Proof.
  intros Hhd. induction groups as [|g1 groups IH]; [done|].
  cbn [app packed]. intros [H1 H2]. split; [|by apply IH].
  destruct groups as [|g2 groups]; cbn [app] in *; [by rewrite <- Hhd|done].
Qed.

Lemma packed_snoc_close (chunk_size : Z) (groups : list (list string))
    (g : list string) (w : string) :
  chunk_size < weight g + (Py.len w + 1) ->
  packed chunk_size (groups ++ [g]) -> packed chunk_size ((groups ++ [g]) ++ [[w]]).
Proof.
  intros Hw. induction groups as [|g1 groups IH]; [by cbn|].
  cbn [app packed]. intros [H1 H2]. split; [|by apply IH].
  destruct groups as [|g2 groups]; done.
Qed.

Lemma group_step_packed (chunk_size : Z) (words : list string) :
  forall closed cur,
    (cur = [] /\ closed = []) \/ (cur <> [] /\ packed chunk_size (closed ++ [cur])) ->
    packed chunk_size
      (group_finish (fold_left (group_step chunk_size) words (closed, cur))).
Proof.
  induction words as [|w words IH]; intros closed cur Hinv.
  - cbn. destruct Hinv as [[-> ->]|[Hne Hp]]; [done|]. by destruct cur.
  - cbn [fold_left]. unfold group_step at 2.
    destruct Hinv as [[-> ->]|[Hne Hp]].
    + rewrite andb_false_r. apply IH. right. by cbn.
    + destruct cur as [|w0 cur]; [done|]. cbn [Py.truthy]. rewrite andb_true_r.
      destruct (Z.gtb_spec (weight (w0 :: cur) + (Py.len w + 1)) chunk_size).
      * apply IH. right. split; [done|]. by apply packed_snoc_close.
      * apply IH. right. split; [done|]. by eapply packed_snoc_hd; [|exact Hp].
Qed.

Lemma chunk_groups_packed (chunk_size : Z) (words : list string) :
  packed chunk_size (chunk_groups chunk_size words).
Proof. apply group_step_packed. by left. Qed.

Lemma packed_lookup (chunk_size : Z) (groups : list (list string)) :
  forall (i : nat) (g1 g2 : list string),
    packed chunk_size groups ->
    groups !! i = Some g1 -> groups !! S i = Some g2 ->
    chunk_size < weight g1 + (Py.len (hd "" g2) + 1).
Proof.
  induction groups as [|g groups IH]; intros i g1 g2 Hp H1 H2; [done|].
  destruct Hp as [Hhead Hrest]. destruct i as [|i].
  - cbn in H1, H2. injection H1 as <-. destruct groups as [|g' groups]; [done|].
    cbn in H2. by injection H2 as <-.
  - cbn in H1, H2. by eapply IH.
Qed.

(** X4: chunks are closed only when they must be: two chunks that follow
    one another could not have been one chunk, for joined with a space
    they would reach the chunk size, which a chunk of several tokens
    never does. *)
Theorem chunk_text_adjacent_full (text : string) (chunk_size : option Z)
    (i : nat) (c1 c2 : string) :
  chunk_text text chunk_size !! i = Some c1 ->
  chunk_text text chunk_size !! S i = Some c2 ->
  Py.or_default chunk_size (CHUNK_SIZE settings) <= Py.len c1 + 1 + Py.len c2.
Proof.
  unfold chunk_text. set (cs := Py.or_default chunk_size (CHUNK_SIZE settings)).
  rewrite chunk_words_groups, !list_lookup_fmap.
  intros H1 H2.
  destruct (chunk_groups cs (Py.split text) !! i) as [g1|] eqn:Hg1; [|done].
  destruct (chunk_groups cs (Py.split text) !! S i) as [g2|] eqn:Hg2; [|done].
  cbn in H1, H2. injection H1 as <-. injection H2 as <-.
  pose proof (packed_lookup cs _ i g1 g2 (chunk_groups_packed cs _) Hg1 Hg2) as Hfull.
  pose proof (chunk_groups_ok cs (Py.split text)) as Hok.
  destruct (proj1 (Forall_forall _ _) Hok g1 (list_elem_of_lookup_2 _ _ _ Hg1)) as [Hne1 _].
  destruct (proj1 (Forall_forall _ _) Hok g2 (list_elem_of_lookup_2 _ _ _ Hg2)) as [Hne2 _].
  fold (chunk_len g1) (chunk_len g2). rewrite !chunk_len_weight by done.
  destruct g2 as [|w g2]; [done|]. cbn [hd] in Hfull.
  pose proof (weight_nonneg g2). cbn [weight foldr]. fold (weight g2). lia.
Qed.

(** At chunk size 20, where "the quick brown fox" is followed by
    "jumps over". *)
Lemma chunk_text_adjacent_full_witness :
  chunk_text "the quick brown fox jumps over" (Some 20) !! 0%nat
  = Some "the quick brown fox"
  /\ chunk_text "the quick brown fox jumps over" (Some 20) !! 1%nat = Some "jumps over"
  /\ 20 <= Py.len "the quick brown fox" + 1 + Py.len "jumps over".
Proof.
  split; [reflexivity|]. split; [reflexivity|].
  exact (chunk_text_adjacent_full "the quick brown fox jumps over" (Some 20) 0
           "the quick brown fox" "jumps over" eq_refl eq_refl).
Defined.

End ChunkerTokens.

(* --------------------------------------------------------------------- *)
(** ** What the retriever returns *)
(* --------------------------------------------------------------------- *)

Section RetrieverBest.
Import config RAGService Spec Examples.

Lemma argsort_NoDup (a : list Q) : NoDup (argsort a).
Proof. rewrite argsort_perm. apply NoDup_seq. Qed.

Lemma top_indices_NoDup (a : list Q) (top_k : Z) : NoDup (top_indices a top_k).
Proof.
  unfold top_indices.
  destruct (slice_from_suffix (- top_k) (argsort a)) as [pre Hpre].
  pose proof (argsort_NoDup a) as Hnd. rewrite Hpre in Hnd.
  apply NoDup_app in Hnd as (_ & _ & Hnd).
  by rewrite <- (Permutation_rev (Py.slice_from (- top_k) (argsort a))).
Qed.

(** An index left out has a score no higher than any index taken. *)
Lemma top_indices_best (a : list Q) (top_k : Z) (i j : nat) :
  i ∈ top_indices a top_k -> (j < length a)%nat -> j ∉ top_indices a top_k ->
  (key a j <= key a i)%Q.
Proof.
  unfold top_indices. rewrite <- !(Permutation_rev (Py.slice_from (- top_k) (argsort a))).
  destruct (slice_from_suffix (- top_k) (argsort a)) as [pre Hpre].
  intros Hi Hj Hout.
  assert (j ∈ argsort a) as Hin by (rewrite argsort_perm; apply elem_of_seq; lia).
  pose proof (argsort_sorted a) as Hs. rewrite Hpre in Hs, Hin.
  apply elem_of_app in Hin as [Hin|Hin]; [|done].
  apply index_lt_le. by eapply StronglySorted_app_1_elem_of.
Qed.

Lemma result_at_chunk (document_chunks : list Chunk.t) (similarities : list Q)
    (idx : nat) (r : retrieved) :
  result_at document_chunks similarities idx = inr r ->
  exists c,
    document_chunks !! idx = Some c
    /\ text r = Chunk.text c /\ chunk_id r = Chunk.chunk_id c
    /\ similarities !! idx = Some (score r).
Proof.
  unfold result_at. intros Hr.
  destruct (document_chunks !! idx) as [c|]; [|done].
  destruct (similarities !! idx) as [s|]; [|done].
  injection Hr as <-. by exists c.
Qed.

(** X5: whatever [top_k], when the similarity row is computed the
    results are chunks of the document at pairwise distinct positions,
    each with its own text, its own id and its own similarity as score,
    and no chunk that was left out has a higher similarity than a chunk
    that was returned. *)
Theorem retrieve_best_chunks `{EmbeddingModel} (query : string)
    (document_chunks : list Chunk.t) (top_k : option Z) (similarities : list Q) :
  cosine_similarity (encode query) (map Chunk.embedding document_chunks)
  = inr similarities ->
  exists (results : list retrieved) (positions : list nat),
    retrieve_relevant_chunks query document_chunks top_k = inr results
    /\ NoDup positions
    /\ Forall2 (fun idx r =>
                  exists c,
                    document_chunks !! idx = Some c
                    /\ text r = Chunk.text c /\ chunk_id r = Chunk.chunk_id c
                    /\ similarities !! idx = Some (score r))
         positions results
    /\ (forall i j si sj,
          i ∈ positions -> j ∉ positions ->
          similarities !! i = Some si -> similarities !! j = Some sj ->
          (sj <= si)%Q).
Proof.
  intros Hsim.
  destruct (retrieve_spec query document_chunks top_k _ Hsim) as (rs & Hrs & HF).
  exists rs, (top_indices similarities (Py.or_default top_k (TOP_K settings))).
  split; [done|]. split; [apply top_indices_NoDup|]. split.
  - eapply Forall2_impl; [exact HF|]. intros idx r. apply result_at_chunk.
  - intros i j si sj Hi Hj Hsi Hsj.
    pose proof (top_indices_best similarities _ i j Hi
                  (lookup_lt_Some _ _ _ Hsj) Hj) as Hle.
    unfold key in Hle.
    by rewrite (nth_lookup_Some _ _ _ _ Hsi), (nth_lookup_Some _ _ _ _ Hsj) in Hle.
Qed.

(** On the five example chunks with [top_k = 2]. *)
Lemma retrieve_best_chunks_witness :
  cosine_similarity (EmbeddingModel := unit_vectors)
    (encode (EmbeddingModel := unit_vectors) "a question")
    (map Chunk.embedding example_chunks)
  = inr [9 # 10; 1 # 10; 1 # 2; 9 # 10; 3 # 10]%Q
  /\ exists (results : list retrieved) (positions : list nat),
       retrieve_relevant_chunks (H := unit_vectors) "a question" example_chunks (Some 2)
       = inr results
       /\ NoDup positions
       /\ length positions = length results.
Proof.
  split; [reflexivity|].
  destruct (retrieve_best_chunks (H := unit_vectors) "a question" example_chunks (Some 2)
              [9 # 10; 1 # 10; 1 # 2; 9 # 10; 3 # 10]%Q eq_refl)
    as (rs & ps & Hrs & Hnd & HF & _).
  exists rs, ps. split; [exact Hrs|]. split; [exact Hnd|].
  exact (Forall2_length _ _ _ HF).
Defined.

End RetrieverBest.

(* --------------------------------------------------------------------- *)
(** ** The token estimate and the window at its edges *)
(* --------------------------------------------------------------------- *)

Section LLMServiceEdges.
Import LLMService Spec.

(** X6: the token estimate is the length divided by four, rounded down:
    it is never negative, a text of fewer than four characters counts
    for nothing, and the estimate of two texts put together is the sum
    of their estimates or one more. *)
Theorem count_tokens_estimate (text more : string) :
  0 <= count_tokens text
  /\ 4 * count_tokens text <= Py.len text < 4 * count_tokens text + 4
  /\ (Py.len text < 4 -> count_tokens text = 0)
  /\ count_tokens text + count_tokens more
     <= count_tokens (text +:+ more)
     <= count_tokens text + count_tokens more + 1.
Proof.
  unfold count_tokens. rewrite len_app.
  pose proof (len_nonneg text). pose proof (len_nonneg more).
  split; [Z.div_mod_to_equations; lia|].
  split; [Z.div_mod_to_equations; lia|].
  split; [intros Hshort; apply Z.div_small; lia|].
  Z.div_mod_to_equations. lia.
Qed.

(** X7: the window at its edges.  A window of [0] keeps every message,
    and a negative window [-m] drops the first [m] messages instead of
    keeping the last ones. *)
Theorem prepare_context_nonpositive (messages : list Message.t) :
  let fmt := fun msg => {| ChatMessage.role := Message.role msg;
                           ChatMessage.content := Message.content msg |} in
  prepare_context messages 0 = map fmt messages
  /\ (forall m : nat,
        prepare_context messages (- Z.of_nat (S m)) = map fmt (drop (S m) messages)).
Proof.
  intros fmt. unfold prepare_context. split.
  - destruct (Z.gtb_spec (Z.of_nat (length messages)) 0); [|done].
    unfold Py.slice_from. destruct (Z.ltb_spec (- 0) 0); [lia|].
    by replace (Z.to_nat _) with 0%nat by lia.
  - intros m.
    destruct (Z.gtb_spec (Z.of_nat (length messages)) (- Z.of_nat (S m))); [|lia].
    unfold Py.slice_from.
    destruct (Z.ltb_spec (- - Z.of_nat (S m)) 0); [lia|].
    destruct (decide (S m <= length messages)%nat) as [Hle|Hgt].
    + by replace (Z.to_nat _) with (S m) by lia.
    + replace (Z.to_nat _) with (length messages) by lia.
      by rewrite skipn_all, drop_ge by lia.
Qed.

End LLMServiceEdges.

(* ===================================================================== *)
(** ** The repositories *)
(* ===================================================================== *)

Section Repositories.
Import LLMService main Spec Examples.

Lemma db_eta (s : db) :
  {| conversations := conversations s; documents := documents s |} = s.
Proof. by destruct s. Qed.

(** X8: a conversation created under an id that is not in use is
    returned as given and found again under its id, as it was given;
    the other conversations and the documents are as before.  From then
    on the id is taken: creating any conversation under it raises and
    stores nothing.  Deleting it gives back the store as it was. *)
Theorem conversation_create_get_by_id (conv : ConversationDB.t) (s : db) :
  conversations s !! ConversationDB.conversation_id conv = None ->
  let id := ConversationDB.conversation_id conv in
  let s' := (ConversationRepo.create conv s).2 in
  (ConversationRepo.create conv s).1 = inr conv
  /\ ConversationRepo.get_by_id id s' = (inr (Some conv), s')
  /\ (forall other, other <> id ->
        (ConversationRepo.get_by_id other s').1 = (ConversationRepo.get_by_id other s).1)
  /\ documents s' = documents s
  /\ (forall conv2, ConversationDB.conversation_id conv2 = id ->
        exists e, ConversationRepo.create conv2 s' = (inl e, s'))
  /\ ConversationRepo.delete id s' = (inr true, s).
Proof.
  intros Hfresh id s'. subst id s'. unfold ConversationRepo.create.
  cbn zeta. rewrite Hfresh. cbn [fst snd].
  split; [done|]. split.
  { unfold ConversationRepo.get_by_id. cbn. by rewrite lookup_insert_eq. }
  split.
  { intros other Hother. unfold ConversationRepo.get_by_id. cbn.
    by rewrite lookup_insert_ne. }
  split; [done|]. split.
  { intros conv2 ->. cbn. rewrite lookup_insert_eq. by eexists. }
  unfold ConversationRepo.delete. cbn. rewrite lookup_insert_eq.
  rewrite delete_insert_id by done. by rewrite db_eta.
Qed.

Lemma conversation_create_get_by_id_witness :
  conversations empty_db !! "conv-1" = None
  /\ ConversationRepo.get_by_id "conv-1" (ConversationRepo.create example_conversation empty_db).2
     = (inr (Some example_conversation),
        (ConversationRepo.create example_conversation empty_db).2)
  /\ ConversationRepo.delete "conv-1" (ConversationRepo.create example_conversation empty_db).2
     = (inr true, empty_db).
Proof.
  assert (conversations empty_db !! "conv-1" = None) as Hfresh by reflexivity.
  split; [exact Hfresh|].
  pose proof (conversation_create_get_by_id example_conversation empty_db Hfresh) as Hthm.
  split; [exact (proj1 (proj2 Hthm))|].
  exact (proj2 (proj2 (proj2 (proj2 (proj2 Hthm))))).
Defined.

(** X9: [ConversationRepo.add_message] on a stored conversation reports
    success; afterwards the conversation holds its earlier messages
    followed by the new one, its [total_tokens] grew by the message's
    [tokens] (by 0 when the message has none), its [updated_at] is the
    time of the update, and its id, mode, document and creation time are
    as before.  No other conversation and no document is touched, and a
    second message goes behind the first. *)
Theorem conversation_add_message_appends (conversation_id : string)
    (message : Message.t) (utcnow : Z) (conv : ConversationDB.t) (s : db) :
  conversations s !! conversation_id = Some conv ->
  let s' := (ConversationRepo.add_message conversation_id message utcnow s).2 in
  (ConversationRepo.add_message conversation_id message utcnow s).1 = inr true
  /\ (exists conv',
        conversations s' !! conversation_id = Some conv'
        /\ ConversationDB.messages conv' = ConversationDB.messages conv ++ [message]
        /\ ConversationDB.total_tokens conv'
           = ConversationDB.total_tokens conv + default 0 (Message.tokens message)
        /\ ConversationDB.updated_at conv' = utcnow
        /\ ConversationDB.conversation_id conv' = ConversationDB.conversation_id conv
        /\ ConversationDB.mode conv' = ConversationDB.mode conv
        /\ ConversationDB.document_id conv' = ConversationDB.document_id conv
        /\ ConversationDB.created_at conv' = ConversationDB.created_at conv)
  /\ (forall other, other <> conversation_id ->
        conversations s' !! other = conversations s !! other)
  /\ documents s' = documents s
  /\ (forall message2 utcnow2,
        exists conv2,
          conversations
            (ConversationRepo.add_message conversation_id message2 utcnow2 s').2
          !! conversation_id = Some conv2
          /\ ConversationDB.messages conv2
             = ConversationDB.messages conv ++ [message; message2]
          /\ ConversationDB.total_tokens conv2
             = ConversationDB.total_tokens conv
               + Message.get_tokens message + Message.get_tokens message2).
Proof.
  intros Hconv s'.
  assert (ConversationRepo.add_message conversation_id message utcnow s
          = (inr true,
             {| conversations :=
                  <[conversation_id := ConversationRepo.push_message message utcnow conv]>
                    (conversations s);
                documents := documents s |})) as Hrun.
  { unfold ConversationRepo.add_message. by rewrite Hconv. }
  subst s'. rewrite Hrun. cbn [fst snd conversations documents].
  split; [done|]. split.
  { eexists. rewrite lookup_insert_eq. by repeat split. }
  split; [by intros other Hother; rewrite lookup_insert_ne|].
  split; [done|].
  intros message2 utcnow2. unfold ConversationRepo.add_message.
  cbn [conversations]. rewrite lookup_insert_eq.
  cbn [snd conversations]. rewrite lookup_insert_eq.
  eexists. split; [done|]. cbn. by rewrite <- app_assoc.
Qed.

Lemma conversation_add_message_appends_witness :
  conversations example_db !! "conv-1" = Some example_conversation
  /\ exists conv',
       conversations
         (ConversationRepo.add_message "conv-1" (user_message_of "tell me more" 2000)
            2001 example_db).2 !! "conv-1" = Some conv'
       /\ ConversationDB.messages conv'
          = ConversationDB.messages example_conversation
            ++ [user_message_of "tell me more" 2000]
       /\ ConversationDB.total_tokens conv' = 9 + 3.
Proof.
  assert (conversations example_db !! "conv-1" = Some example_conversation) as Hconv
    by reflexivity.
  split; [exact Hconv|].
  destruct (proj1 (proj2 (conversation_add_message_appends "conv-1"
                            (user_message_of "tell me more" 2000) 2001
                            example_conversation example_db Hconv)))
    as (conv' & Hlookup & Hmessages & Htokens & _).
  exists conv'. split; [exact Hlookup|]. split; [exact Hmessages|]. exact Htokens.
Defined.

(** X10: deleting a stored conversation reports success; afterwards it
    is not found, the other conversations and the documents are as
    before, a second deletion reports that nothing was deleted, and a
    message for it is not stored. *)
Theorem conversation_delete_get_by_id (conversation_id : string)
    (conv : ConversationDB.t) (s : db) :
  conversations s !! conversation_id = Some conv ->
  let s' := (ConversationRepo.delete conversation_id s).2 in
  (ConversationRepo.delete conversation_id s).1 = inr true
  /\ ConversationRepo.get_by_id conversation_id s' = (inr None, s')
  /\ (forall other, other <> conversation_id ->
        (ConversationRepo.get_by_id other s').1 = (ConversationRepo.get_by_id other s).1)
  /\ documents s' = documents s
  /\ ConversationRepo.delete conversation_id s' = (inr false, s')
  /\ (forall message utcnow,
        ConversationRepo.add_message conversation_id message utcnow s' = (inr false, s')).
Proof.
  intros Hconv s'.
  assert (ConversationRepo.delete conversation_id s
          = (inr true,
             {| conversations := base.delete conversation_id (conversations s);
                documents := documents s |})) as Hrun.
  { unfold ConversationRepo.delete. by rewrite Hconv. }
  subst s'. rewrite Hrun. cbn [fst snd].
  split; [done|]. split.
  { unfold ConversationRepo.get_by_id. cbn. by rewrite lookup_delete_eq. }
  split.
  { intros other Hother. unfold ConversationRepo.get_by_id. cbn.
    by rewrite lookup_delete_ne. }
  split; [done|]. split.
  { unfold ConversationRepo.delete. cbn. by rewrite lookup_delete_eq. }
  intros message utcnow. unfold ConversationRepo.add_message. cbn.
  by rewrite lookup_delete_eq.
Qed.

Lemma conversation_delete_get_by_id_witness :
  conversations example_db !! "conv-1" = Some example_conversation
  /\ ConversationRepo.get_by_id "conv-1" (ConversationRepo.delete "conv-1" example_db).2
     = (inr None, (ConversationRepo.delete "conv-1" example_db).2).
Proof.
  assert (conversations example_db !! "conv-1" = Some example_conversation) as Hconv
    by reflexivity.
  split; [exact Hconv|].
  exact (proj1 (proj2 (conversation_delete_get_by_id "conv-1" example_conversation
                         example_db Hconv))).
Defined.

(** X11: a document created under an id that is not in use is found
    again under its id, as it was given; a query for the id [None]
    finds nothing; the conversations and the other documents are as
    before; creating any document under the same id raises and stores
    nothing; deleting it gives back the store as it was, and deleting an
    id that is not stored reports so and changes nothing. *)
Theorem document_create_get_delete (document : DocumentDB.t) (s : db) :
  documents s !! DocumentDB.document_id document = None ->
  let id := DocumentDB.document_id document in
  let s' := (DocumentRepo.create document s).2 in
  (DocumentRepo.create document s).1 = inr document
  /\ DocumentRepo.get_by_id (Some id) s' = (inr (Some document), s')
  /\ DocumentRepo.get_by_id None s' = (inr None, s')
  /\ (forall other, other <> id ->
        (DocumentRepo.get_by_id (Some other) s').1
        = (DocumentRepo.get_by_id (Some other) s).1)
  /\ conversations s' = conversations s
  /\ (forall document2, DocumentDB.document_id document2 = id ->
        exists e, DocumentRepo.create document2 s' = (inl e, s'))
  /\ DocumentRepo.delete id s' = (inr true, s)
  /\ DocumentRepo.delete id s = (inr false, s).
Proof.
  intros Hfresh id s'. subst id s'. unfold DocumentRepo.create.
  cbn zeta. rewrite Hfresh. cbn [fst snd].
  split; [done|]. split.
  { unfold DocumentRepo.get_by_id. cbn. by rewrite lookup_insert_eq. }
  split; [done|]. split.
  { intros other Hother. unfold DocumentRepo.get_by_id. cbn.
    by rewrite lookup_insert_ne. }
  split; [done|]. split.
  { intros document2 ->. cbn. rewrite lookup_insert_eq. by eexists. }
  split.
  - unfold DocumentRepo.delete. cbn. rewrite lookup_insert_eq.
    rewrite delete_insert_id by done. by rewrite db_eta.
  - unfold DocumentRepo.delete. by rewrite Hfresh.
Qed.

Lemma document_create_get_delete_witness :
  documents example_db !! "doc-9" = None
  /\ DocumentRepo.get_by_id (Some "doc-9")
       (DocumentRepo.create
          {| DocumentDB.document_id := "doc-9"; DocumentDB.filename := "a.txt";
             DocumentDB.chunks := example_chunks; DocumentDB.total_chunks := 5;
             DocumentDB.uploaded_at := 3000 |} example_db).2
     = (inr (Some {| DocumentDB.document_id := "doc-9"; DocumentDB.filename := "a.txt";
                     DocumentDB.chunks := example_chunks; DocumentDB.total_chunks := 5;
                     DocumentDB.uploaded_at := 3000 |}),
        (DocumentRepo.create
           {| DocumentDB.document_id := "doc-9"; DocumentDB.filename := "a.txt";
              DocumentDB.chunks := example_chunks; DocumentDB.total_chunks := 5;
              DocumentDB.uploaded_at := 3000 |} example_db).2).
Proof.
  assert (documents example_db !! "doc-9" = None) as Hfresh by reflexivity.
  split; [exact Hfresh|].
  exact (proj1 (proj2 (document_create_get_delete
                         {| DocumentDB.document_id := "doc-9"; DocumentDB.filename := "a.txt";
                            DocumentDB.chunks := example_chunks; DocumentDB.total_chunks := 5;
                            DocumentDB.uploaded_at := 3000 |} example_db Hfresh))).
Defined.

End Repositories.

(* ===================================================================== *)
(** ** The conversation handlers *)
(* ===================================================================== *)

Section Handlers.
Import LLMService main Spec Examples.

Lemma try_except_http_only {A} (m : M A) : http_only (try_except m).
Proof. intros s. unfold try_except. by destruct (m s) as [[[e|c d]|x] s']. Qed.

Lemma try_except_run {A} (m : M A) (s : db) :
  try_except m s
  = match m s with
    | (inl e, s') => (inl (http_error e), s')
    | (inr x, s') => (inr x, s')
    end.
Proof. unfold try_except. by destruct (m s) as [[[e|c d]|x] s']. Qed.

Lemma read_only_run {A} (m : M A) (s : db) : read_only m -> m s = ((m s).1, s).
Proof. intros Hm. specialize (Hm s). destruct (m s). cbn in *. by subst. Qed.

Lemma format_message_id (messages : list ChatMessage.t) :
  map format_message messages = messages.
Proof.
  induction messages as [|[role content] messages IH]; [done|].
  cbn [map]. by rewrite IH.
Qed.

(** The RAG branch when the document is stored, and when it is not. *)
Lemma rag_response_found `{EmbeddingModel, GroqClient} (d : string)
    (document : DocumentDB.t) (query system : string) (s : db) :
  documents s !! d = Some document ->
  rag_response (Some d) query system s
  = (relevant_chunks ←
       RAGService.retrieve_relevant_chunks query (DocumentDB.chunks document) None;
     response ←
       generate_response
         [system_message system;
          user_prompt (RAGService.build_rag_prompt query relevant_chunks)]
         default_max_tokens default_temperature;
     mret {| content := content response;
             tokens := tokens response;
             model := model response;
             retrieved_chunks := Some (map RAGService.chunk_id relevant_chunks) |},
     s).
Proof.
  intros Hdoc. unfold rag_response. rewrite bind_run. cbn [DocumentRepo.get_by_id mbind option_bind].
  rewrite Hdoc. rewrite bind_run. unfold lift at 1.
  destruct (RAGService.retrieve_relevant_chunks _ _ _) as [e|chunks]; [done|].
  cbn [mbind res_bind]. rewrite bind_run. unfold lift at 1.
  by destruct (generate_response _ _ _).
Qed.

Lemma rag_response_missing `{EmbeddingModel, GroqClient} (document_id : option string)
    (query system : string) (s : db) :
  document_id ≫= (fun id => documents s !! id) = None ->
  rag_response document_id query system s
  = (inl (HTTPException 404 "Document not found"), s).
Proof.
  intros Hdoc. unfold rag_response. rewrite bind_run.
  unfold DocumentRepo.get_by_id. by rewrite Hdoc.
Qed.

(** The requests, run up to the answer [r] of the generation branch. *)
Lemma create_conversation_run `{EmbeddingModel, GroqClient}
    (s : db) (data : ConversationCreate.t) (uuid : string) (clock : nat -> Z) :
  bool_decide (ConversationCreate.mode data = rag)
  && falsy_id (ConversationCreate.document_id data) = false ->
  exists r : res response,
    (match ConversationCreate.mode data with
     | open_chat =>
         lift (generate_response
                 [system_message "You are a helpful AI assistant.";
                  user_prompt (ConversationCreate.first_message data)]
                 default_max_tokens default_temperature)
     | rag =>
         rag_response (ConversationCreate.document_id data)
           (ConversationCreate.first_message data)
           "You are a helpful assistant that answers based on provided context."
     end) s = (r, s)
    /\ create_conversation data uuid clock s
       = match r with
         | inl e => (inl (http_error e), s)
         | inr response =>
             let conversation :=
               {| ConversationDB.conversation_id := uuid;
                  ConversationDB.mode := ConversationCreate.mode data;
                  ConversationDB.document_id := ConversationCreate.document_id data;
                  ConversationDB.messages :=
                    [user_message_of (ConversationCreate.first_message data) (clock 2%nat);
                     assistant_message_of response (clock 3%nat)];
                  ConversationDB.total_tokens :=
                    count_tokens (ConversationCreate.first_message data) + tokens response;
                  ConversationDB.created_at := clock 0%nat;
                  ConversationDB.updated_at := clock 1%nat |} in
             match conversations s !! uuid with
             | Some _ => (inl (HTTPException 500 "DuplicateKeyError"), s)
             | None =>
                 (inr conversation,
                  {| conversations := <[uuid := conversation]> (conversations s);
                     documents := documents s |})
             end
         end.
Proof.
  intros Hvalid. unfold create_conversation. rewrite try_except_run, Hvalid.
  rewrite bind_run.
  set (branch := match ConversationCreate.mode data with
                 | open_chat => _
                 | rag => _
                 end).
  assert (read_only branch) as Hro.
  { subst branch. destruct (ConversationCreate.mode data);
      [apply read_only_lift|apply rag_response_read_only]. }
  exists (branch s).1. split; [by apply read_only_run|].
  rewrite (read_only_run branch s Hro).
  destruct (branch s).1 as [e|response]; [done|].
  unfold ConversationRepo.create. cbn [ConversationDB.conversation_id].
  by destruct (conversations s !! uuid).
Qed.

Lemma add_message_run `{EmbeddingModel, GroqClient}
    (s : db) (conversation_id : string) (message : MessageCreate.t)
    (clock : nat -> Z) (conv : ConversationDB.t) :
  conversations s !! conversation_id = Some conv ->
  let user_message := user_message_of (MessageCreate.content message) (clock 0%nat) in
  let stored :=
    {| conversations :=
         <[conversation_id :=
             ConversationRepo.push_message user_message (clock 1%nat) conv]>
           (conversations s);
       documents := documents s |} in
  exists r : res response,
    (match ConversationDB.mode conv with
     | open_chat =>
         lift (generate_response
                 (system_message "You are a helpful AI assistant."
                  :: prepare_context (ConversationDB.messages conv ++ [user_message]) 10)
                 default_max_tokens default_temperature)
     | rag =>
         rag_response (ConversationDB.document_id conv)
           (MessageCreate.content message) "Answer based on provided context."
     end) stored = (r, stored)
    /\ add_message conversation_id message clock s
       = match r with
         | inl e => (inl (http_error e), stored)
         | inr response =>
             let assistant_message := assistant_message_of response (clock 2%nat) in
             (inr (user_message, assistant_message),
              {| conversations :=
                   <[conversation_id :=
                       ConversationRepo.push_message assistant_message (clock 3%nat)
                         (ConversationRepo.push_message user_message (clock 1%nat) conv)]>
                     (conversations s);
                 documents := documents s |})
         end.
Proof.
  intros Hconv user_message stored.
  unfold add_message. rewrite try_except_run.
  rewrite bind_run. unfold ConversationRepo.get_by_id at 1. rewrite Hconv.
  rewrite bind_run. unfold ConversationRepo.add_message at 1. rewrite Hconv.
  fold user_message. fold stored. rewrite bind_run.
  set (branch := match ConversationDB.mode conv with
                 | open_chat => _
                 | rag => _
                 end).
  assert (read_only branch) as Hro.
  { subst branch. destruct (ConversationDB.mode conv);
      [apply read_only_lift|apply rag_response_read_only]. }
  exists (branch stored).1. split; [by apply read_only_run|].
  rewrite (read_only_run branch stored Hro).
  destruct (branch stored).1 as [e|response]; [done|].
  rewrite bind_run. unfold ConversationRepo.add_message, stored.
  cbn [conversations documents]. rewrite lookup_insert_eq.
  by rewrite insert_insert_eq.
Qed.

Lemma add_message_unknown `{EmbeddingModel, GroqClient}
    (s : db) (conversation_id : string) (message : MessageCreate.t) (clock : nat -> Z) :
  conversations s !! conversation_id = None ->
  add_message conversation_id message clock s
  = (inl (HTTPException 404 "Conversation not found"), s).
Proof.
  intros Hconv. unfold add_message. rewrite try_except_run, bind_run.
  unfold ConversationRepo.get_by_id. by rewrite Hconv.
Qed.

Lemma generate_response_success `{GroqClient} (messages : list ChatMessage.t)
    (max_tokens : Z) (temperature : Q) (response : response) :
  generate_response messages max_tokens temperature = inr response ->
  model response = config.GROQ_MODEL config.settings
  /\ retrieved_chunks response = None
  /\ chat_completions_create (config.GROQ_MODEL config.settings) messages
       max_tokens temperature
     = inr (content response, tokens response).
Proof.
  unfold generate_response. rewrite format_message_id.
  destruct (chat_completions_create _ _ _ _) as [[e|c d]|[c t]]; [done|done|].
  by intros [= <-].
Qed.

Lemma rag_response_success `{EmbeddingModel, GroqClient} (document_id : option string)
    (query system : string) (s s' : db) (response : response) :
  rag_response document_id query system s = (inr response, s') ->
  exists d document relevant_chunks,
    document_id = Some d
    /\ documents s !! d = Some document
    /\ RAGService.retrieve_relevant_chunks query (DocumentDB.chunks document) None
       = inr relevant_chunks
    /\ retrieved_chunks response = Some (map RAGService.chunk_id relevant_chunks)
    /\ model response = config.GROQ_MODEL config.settings.
Proof.
  destruct (document_id ≫= fun id => documents s !! id) as [document|] eqn:Hdoc.
  - destruct document_id as [d|]; [|done]. cbn in Hdoc.
    rewrite (rag_response_found d document query system s Hdoc).
    destruct (RAGService.retrieve_relevant_chunks _ _ _) as [e|relevant_chunks] eqn:Hr;
      [done|].
    cbn [mbind res_bind].
    destruct (generate_response _ _ _) as [e|generated] eqn:Hg; [done|].
    cbn. intros [= <- <-]. exists d, document, relevant_chunks.
    destruct (generate_response_success _ _ _ _ Hg) as (Hmodel & _ & _).
    by repeat split.
  - by rewrite rag_response_missing.
Qed.

(** Without [top_k] the retriever returns the 3 best chunks, or all of
    them when there are fewer, and every result is a chunk of the
    document. *)
Lemma retrieve_default_chunks `{EmbeddingModel} (query : string)
    (document_chunks : list Chunk.t) (results : list RAGService.retrieved) :
  RAGService.retrieve_relevant_chunks query document_chunks None = inr results ->
  Z.of_nat (length results) = Z.min 3 (Z.of_nat (length document_chunks))
  /\ Forall (fun r => RAGService.chunk_id r ∈ map Chunk.chunk_id document_chunks) results.
Proof.
  intros Hret.
  destruct (cosine_similarity (encode query) (map Chunk.embedding document_chunks))
    as [e|similarities] eqn:Hsim.
  { unfold RAGService.retrieve_relevant_chunks in Hret. by rewrite Hsim in Hret. }
  destruct (retrieve_spec query document_chunks None similarities Hsim)
    as (results' & Hret' & Hall).
  rewrite Hret in Hret'. injection Hret' as <-.
  apply cosine_similarity_length in Hsim. rewrite length_map in Hsim.
  split.
  - rewrite <- (Forall2_length _ _ _ Hall), top_indices_length. cbn. lia.
  - clear Hret. induction Hall as [|idx r indices results Hr _ IH]; constructor; [|done].
    destruct (result_at_chunk _ _ _ _ Hr) as (c & Hc & _ & -> & _).
    apply list_elem_of_fmap. exists c. split; [done|].
    by eapply list_elem_of_lookup_2.
Qed.

(** X12: whatever a handler raises is an [HTTPException]: the exceptions
    of the libraries and of the store leave it as responses 500. *)
Theorem handlers_raise_http_only `{EmbeddingModel, GroqClient, TextExtraction} :
  (forall data uuid clock, http_only (create_conversation data uuid clock))
  /\ (forall conversation_id message clock,
        http_only (add_message conversation_id message clock))
  /\ (forall conversation_id, http_only (delete_conversation conversation_id))
  /\ (forall file chunk_uuid uuid utcnow,
        http_only (upload_document file chunk_uuid uuid utcnow))
  /\ (forall document_id, http_only (get_document document_id))
  /\ (forall document_id, http_only (delete_document document_id)).
Proof. repeat split; intros; apply try_except_http_only. Qed.

(** X13: for an id under which no conversation is stored, the
    repository reports that nothing was updated or deleted, both
    handlers answer 404 "Conversation not found", and none of them
    changes the store: a message for an unknown conversation does not
    create it. *)
Theorem unknown_conversation_untouched `{EmbeddingModel, GroqClient}
    (conversation_id : string) (s : db) :
  conversations s !! conversation_id = None ->
  (forall message utcnow,
     ConversationRepo.add_message conversation_id message utcnow s = (inr false, s))
  /\ ConversationRepo.delete conversation_id s = (inr false, s)
  /\ (forall message clock,
        add_message conversation_id message clock s
        = (inl (HTTPException 404 "Conversation not found"), s))
  /\ delete_conversation conversation_id s
     = (inl (HTTPException 404 "Conversation not found"), s).
Proof.
  intros Hconv. split; [|split; [|split]].
  - intros message utcnow. unfold ConversationRepo.add_message. by rewrite Hconv.
  - unfold ConversationRepo.delete. by rewrite Hconv.
  - intros message clock. by apply add_message_unknown.
  - unfold delete_conversation. rewrite try_except_run, bind_run.
    unfold ConversationRepo.delete. by rewrite Hconv.
Qed.

Lemma unknown_conversation_untouched_witness :
  conversations example_db !! "conv-9" = None
  /\ add_message (H := unit_vectors) (H0 := fixed_groq)
       "conv-9" example_message later_clock example_db
     = (inl (HTTPException 404 "Conversation not found"), example_db).
Proof.
  assert (conversations example_db !! "conv-9" = None) as Hconv by reflexivity.
  split; [exact Hconv|].
  exact (proj1 (proj2 (proj2 (unknown_conversation_untouched
                                (H := unit_vectors) (H0 := fixed_groq)
                                "conv-9" example_db Hconv)))
           example_message later_clock).
Defined.

(** X14: a RAG conversation needs a stored document.  Without a
    [document_id] ([None] or the empty string) the request is answered
    400, with the id of a document that is not stored 404; either way
    before anything is generated, and nothing is stored. *)
Theorem create_conversation_requires_document `{EmbeddingModel, GroqClient}
    (s : db) (data : ConversationCreate.t) (uuid : string) (clock : nat -> Z) :
  ConversationCreate.mode data = rag ->
  (falsy_id (ConversationCreate.document_id data) = true ->
     create_conversation data uuid clock s
     = (inl (HTTPException 400 "document_id required for RAG mode"), s))
  /\ (forall d,
        ConversationCreate.document_id data = Some d -> d <> "" ->
        documents s !! d = None ->
        create_conversation data uuid clock s
        = (inl (HTTPException 404 "Document not found"), s)).
Proof.
  intros Hmode. split.
  - intros Hfalsy. unfold create_conversation. rewrite try_except_run.
    by rewrite Hmode, Hfalsy.
  - intros d Hd Hne Hdoc.
    destruct (create_conversation_run s data uuid clock) as (r & Hr & ->).
    { rewrite Hd. cbn. rewrite (bool_decide_eq_false_2 (d = "")) by done.
      apply andb_false_r. }
    rewrite Hmode, rag_response_missing in Hr by (by rewrite Hd).
    by injection Hr as <-.
Qed.

Lemma create_conversation_requires_document_witness :
  ConversationCreate.mode example_question = rag
  /\ create_conversation (H := unit_vectors) (H0 := fixed_groq)
       example_question "conv-2" example_clock example_db
     = (inl (HTTPException 404 "Document not found"), example_db).
Proof.
  split; [reflexivity|].
  apply (proj2 (create_conversation_requires_document
                  (H := unit_vectors) (H0 := fixed_groq)
                  example_db example_question "conv-2" example_clock eq_refl) "doc-1");
    [reflexivity|discriminate|reflexivity].
Defined.

(** X15: when [create_conversation] returns a conversation, the id it
    drew was not in use, the store has gained exactly that conversation
    under that id (it is found again by [get_by_id]) and nothing else
    has changed.  The conversation has the mode and the document of the
    request, the first and second time stamps of the request as
    [created_at] and [updated_at], and two messages: the user's, with
    the third time stamp and [len // 4] tokens, and the assistant's,
    with the fourth time stamp, the name of the configured model and, in
    open chat, an empty list of retrieved chunks; [total_tokens] is the
    sum of the two token counts. *)
Theorem create_conversation_stores `{EmbeddingModel, GroqClient}
    (s : db) (data : ConversationCreate.t) (uuid : string) (clock : nat -> Z)
    (conv : ConversationDB.t) :
  (create_conversation data uuid clock s).1 = inr conv ->
  let s' := (create_conversation data uuid clock s).2 in
  conversations s !! uuid = None
  /\ s' = {| conversations := <[uuid := conv]> (conversations s);
             documents := documents s |}
  /\ ConversationRepo.get_by_id uuid s' = (inr (Some conv), s')
  /\ ConversationDB.conversation_id conv = uuid
  /\ ConversationDB.mode conv = ConversationCreate.mode data
  /\ ConversationDB.document_id conv = ConversationCreate.document_id data
  /\ ConversationDB.created_at conv = clock 0%nat
  /\ ConversationDB.updated_at conv = clock 1%nat
  /\ exists assistant_message,
       ConversationDB.messages conv
       = [user_message_of (ConversationCreate.first_message data) (clock 2%nat);
          assistant_message]
       /\ Message.role assistant_message = "assistant"
       /\ Message.timestamp assistant_message = clock 3%nat
       /\ Message.model assistant_message = Some (config.GROQ_MODEL config.settings)
       /\ ConversationDB.total_tokens conv
          = count_tokens (ConversationCreate.first_message data)
            + Message.get_tokens assistant_message
       /\ (ConversationCreate.mode data = open_chat ->
           Message.retrieved_chunks assistant_message = Some []).
Proof.
  intros Hret s'. subst s'. revert Hret.
  destruct (bool_decide (ConversationCreate.mode data = rag)
            && falsy_id (ConversationCreate.document_id data)) eqn:Hvalid.
  { unfold create_conversation. rewrite try_except_run, Hvalid. done. }
  destruct (create_conversation_run s data uuid clock Hvalid) as (r & Hr & ->).
  destruct r as [e|response]; [done|]. cbn zeta.
  destruct (conversations s !! uuid) eqn:Hfresh; [done|].
  cbn [fst snd]. intros [= <-].
  split; [done|]. split; [done|]. split.
  { unfold ConversationRepo.get_by_id. cbn. by rewrite lookup_insert_eq. }
  do 5 (split; [done|]).
  eexists. split; [done|]. cbn.
  split; [done|]. split; [done|].
  assert (model response = config.GROQ_MODEL config.settings
          /\ (ConversationCreate.mode data = open_chat -> retrieved_chunks response = None))
    as [Hmodel Hnone].
  { destruct (ConversationCreate.mode data).
    - unfold lift in Hr. injection Hr as Hr.
      destruct (generate_response_success _ _ _ _ Hr) as (? & ? & _). done.
    - destruct (rag_response_success _ _ _ _ _ _ Hr) as (? & ? & ? & _ & _ & _ & _ & ?).
      done. }
  split; [by rewrite Hmodel|]. split; [done|].
  intros Hopen. by rewrite (Hnone Hopen).
Qed.

Lemma create_conversation_stores_witness :
  (create_conversation (H := unit_vectors) (H0 := fixed_groq)
     {| ConversationCreate.mode := open_chat;
        ConversationCreate.first_message := "hello there";
        ConversationCreate.document_id := None |}
     "conv-1" example_clock empty_db).1 = inr example_conversation
  /\ example_db
     = {| conversations := <["conv-1" := example_conversation]> (conversations empty_db);
          documents := documents empty_db |}.
Proof.
  assert ((create_conversation (H := unit_vectors) (H0 := fixed_groq)
             {| ConversationCreate.mode := open_chat;
                ConversationCreate.first_message := "hello there";
                ConversationCreate.document_id := None |}
             "conv-1" example_clock empty_db).1 = inr example_conversation) as Hret
    by reflexivity.
  split; [exact Hret|].
  exact (proj1 (proj2 (create_conversation_stores (H := unit_vectors) (H0 := fixed_groq)
                         empty_db _ "conv-1" example_clock example_conversation Hret))).
Defined.

(** X16: when [add_message] returns, it returns the user message (the
    content sent, the first time stamp of the request, [len // 4]
    tokens) and the assistant message (third time stamp); the
    conversation was stored, and is now stored with its earlier messages
    followed by these two, in this order, with [total_tokens] grown by
    both token counts and the fourth time stamp as [updated_at];
    nothing else in the store has changed. *)
Theorem add_message_stores `{EmbeddingModel, GroqClient}
    (s : db) (conversation_id : string) (message : MessageCreate.t) (clock : nat -> Z)
    (user_message assistant_message : Message.t) :
  (add_message conversation_id message clock s).1
  = inr (user_message, assistant_message) ->
  let s' := (add_message conversation_id message clock s).2 in
  user_message = user_message_of (MessageCreate.content message) (clock 0%nat)
  /\ Message.role assistant_message = "assistant"
  /\ Message.timestamp assistant_message = clock 2%nat
  /\ exists conv conv',
       conversations s !! conversation_id = Some conv
       /\ s' = {| conversations := <[conversation_id := conv']> (conversations s);
                  documents := documents s |}
       /\ ConversationDB.messages conv'
          = ConversationDB.messages conv ++ [user_message; assistant_message]
       /\ ConversationDB.total_tokens conv'
          = ConversationDB.total_tokens conv
            + count_tokens (MessageCreate.content message)
            + Message.get_tokens assistant_message
       /\ ConversationDB.updated_at conv' = clock 3%nat
       /\ ConversationDB.conversation_id conv' = ConversationDB.conversation_id conv
       /\ ConversationDB.mode conv' = ConversationDB.mode conv
       /\ ConversationDB.document_id conv' = ConversationDB.document_id conv
       /\ ConversationDB.created_at conv' = ConversationDB.created_at conv.
Proof.
  intros Hret s'. subst s'. revert Hret.
  destruct (conversations s !! conversation_id) as [conv|] eqn:Hconv;
    [|by rewrite add_message_unknown].
  destruct (add_message_run s conversation_id message clock conv Hconv) as (r & _ & ->).
  destruct r as [e|response]; [done|]. cbn [fst snd]. intros [= <- <-].
  do 3 (split; [done|]).
  eexists conv, _. split; [done|]. split; [done|]. cbn.
  rewrite <- app_assoc. by repeat split.
Qed.

Lemma add_message_stores_witness :
  (add_message (H := unit_vectors) (H0 := fixed_groq)
     "conv-1" example_message later_clock example_db).1
  = inr (user_message_of "tell me more" 2000,
         assistant_message_of
           {| content := "Hello! How can I help?"; tokens := 7;
              model := "llama-3.1-8b-instant"; retrieved_chunks := None |} 2002)
  /\ exists conv',
       conversations
         (add_message (H := unit_vectors) (H0 := fixed_groq)
            "conv-1" example_message later_clock example_db).2 !! "conv-1" = Some conv'
       /\ length (ConversationDB.messages conv') = 4%nat
       /\ ConversationDB.total_tokens conv' = 19.
Proof.
  assert ((add_message (H := unit_vectors) (H0 := fixed_groq)
             "conv-1" example_message later_clock example_db).1
          = inr (user_message_of "tell me more" 2000,
                 assistant_message_of
                   {| content := "Hello! How can I help?"; tokens := 7;
                      model := "llama-3.1-8b-instant"; retrieved_chunks := None |} 2002))
    as Hret by reflexivity.
  split; [exact Hret|].
  destruct (proj2 (proj2 (proj2 (add_message_stores (H := unit_vectors) (H0 := fixed_groq)
                                   example_db "conv-1" example_message later_clock
                                   _ _ Hret))))
    as (conv & conv' & Hconv & Hstore & Hmessages & Htokens & _).
  assert (conv = example_conversation) as -> by (by injection Hconv).
  exists conv'. split; [|split].
  - rewrite Hstore. cbn [conversations]. apply lookup_insert_eq.
  - by rewrite Hmessages.
  - by rewrite Htokens.
Defined.

(** X17: whatever the outcome of [add_message], the handler only ever
    appends to the conversation it was called for: the documents and
    every other conversation are as before, no conversation appears or
    disappears, and a conversation that was stored keeps its messages as
    a prefix of its new messages, followed by one or two new ones (the
    user's, then the assistant's), its [total_tokens] grown by their
    token counts, and its id, mode, document and creation time. *)
Theorem add_message_append_only `{EmbeddingModel, GroqClient}
    (s : db) (conversation_id : string) (message : MessageCreate.t) (clock : nat -> Z) :
  let s' := (add_message conversation_id message clock s).2 in
  documents s' = documents s
  /\ (forall other, other <> conversation_id ->
        conversations s' !! other = conversations s !! other)
  /\ match conversations s !! conversation_id with
     | None => conversations s' !! conversation_id = None
     | Some conv =>
         exists conv' added,
           conversations s' !! conversation_id = Some conv'
           /\ ConversationDB.messages conv' = ConversationDB.messages conv ++ added
           /\ (1 <= length added <= 2)%nat
           /\ ConversationDB.total_tokens conv'
              = ConversationDB.total_tokens conv + sum_tokens added
           /\ ConversationDB.conversation_id conv' = ConversationDB.conversation_id conv
           /\ ConversationDB.mode conv' = ConversationDB.mode conv
           /\ ConversationDB.document_id conv' = ConversationDB.document_id conv
           /\ ConversationDB.created_at conv' = ConversationDB.created_at conv
     end.
Proof.
  intros s'. subst s'.
  destruct (conversations s !! conversation_id) as [conv|] eqn:Hconv.
  - destruct (add_message_run s conversation_id message clock conv Hconv) as (r & _ & ->).
    destruct r as [e|response]; cbn [snd conversations documents].
    + split; [done|]. split; [by intros other Hother; rewrite lookup_insert_ne|].
      eexists _, [_]. rewrite lookup_insert_eq. split; [done|].
      split; [reflexivity|]. split; [cbn; lia|]. split; [cbn; lia|]. done.
    + split; [done|]. split; [by intros other Hother; rewrite lookup_insert_ne|].
      eexists _, [_; _]. rewrite lookup_insert_eq. split; [done|].
      split; [by cbn; rewrite <- app_assoc|].
      split; [cbn; lia|]. split; [cbn; lia|]. done.
  - rewrite add_message_unknown by done. by cbn [snd].
Qed.

Lemma delete_document_run (document_id : string) (s : db) :
  delete_document document_id s
  = match documents s !! document_id with
    | Some _ =>
        (inr "Document deleted successfully",
         {| conversations := conversations s;
            documents := base.delete document_id (documents s) |})
    | None => (inl (HTTPException 404 "Document not found"), s)
    end.
Proof.
  unfold delete_document. rewrite try_except_run, bind_run.
  unfold DocumentRepo.delete. by destruct (documents s !! document_id).
Qed.

(** X18: deleting a document leaves the conversations about it in the
    store.  A message sent to such a conversation afterwards is answered
    404 "Document not found", and the user message is stored all the
    same. *)
Theorem add_message_document_gone `{EmbeddingModel, GroqClient}
    (s : db) (conversation_id d : string) (message : MessageCreate.t)
    (clock : nat -> Z) (conv : ConversationDB.t) :
  conversations s !! conversation_id = Some conv ->
  ConversationDB.mode conv = rag ->
  ConversationDB.document_id conv = Some d ->
  let s1 := (delete_document d s).2 in
  conversations s1 = conversations s
  /\ documents s1 !! d = None
  /\ add_message conversation_id message clock s1
     = (inl (HTTPException 404 "Document not found"),
        {| conversations :=
             <[conversation_id :=
                 ConversationRepo.push_message
                   (user_message_of (MessageCreate.content message) (clock 0%nat))
                   (clock 1%nat) conv]> (conversations s);
           documents := documents s1 |}).
Proof.
  intros Hconv Hmode Hd s1.
  assert (conversations s1 = conversations s /\ documents s1 !! d = None) as [Hsame Hgone].
  { subst s1. rewrite delete_document_run.
    destruct (documents s !! d) eqn:Hdoc; cbn; [|done].
    by rewrite lookup_delete_eq. }
  split; [done|]. split; [done|].
  rewrite <- Hsame in Hconv.
  destruct (add_message_run s1 conversation_id message clock conv Hconv) as (r & Hr & ->).
  rewrite Hmode, rag_response_missing in Hr by (by rewrite Hd).
  injection Hr as <-. by rewrite Hsame.
Qed.

Lemma add_message_document_gone_witness :
  exists conv,
    conversations asked_db !! "conv-2" = Some conv
    /\ ConversationDB.mode conv = rag
    /\ ConversationDB.document_id conv = Some "doc-1"
    /\ (add_message (H := unit_vectors) (H0 := fixed_groq)
          "conv-2" example_message later_clock orphaned_db).1
       = inl (HTTPException 404 "Document not found")
    /\ (length ∘ ConversationDB.messages
        <$> conversations
              (add_message (H := unit_vectors) (H0 := fixed_groq)
                 "conv-2" example_message later_clock orphaned_db).2 !! "conv-2")
       = Some 3%nat.
Proof.
  destruct (conversations asked_db !! "conv-2") as [conv|] eqn:Hconv; [|discriminate Hconv].
  exists conv.
  assert (ConversationDB.mode conv = rag) as Hmode by (by injection Hconv as <-).
  assert (ConversationDB.document_id conv = Some "doc-1") as Hd by (by injection Hconv as <-).
  assert (length (ConversationDB.messages conv) = 2%nat) as Hlen
    by (by injection Hconv as <-).
  split; [done|]. split; [exact Hmode|]. split; [exact Hd|].
  pose proof (proj2 (proj2 (add_message_document_gone (H := unit_vectors) (H0 := fixed_groq)
                              asked_db "conv-2" "doc-1" example_message later_clock
                              conv Hconv Hmode Hd))) as Hrun.
  unfold orphaned_db. rewrite Hrun. cbn [fst snd conversations].
  split; [done|]. rewrite lookup_insert_eq. cbn. rewrite length_app, Hlen. done.
Defined.

Lemma prepare_context_drop (messages : list Message.t) (max_history : Z) :
  1 <= max_history ->
  prepare_context messages max_history
  = map (fun msg => {| ChatMessage.role := Message.role msg;
                       ChatMessage.content := Message.content msg |})
      (drop (length messages - Z.to_nat max_history) messages).
Proof.
  intros Hmax. unfold prepare_context. f_equal.
  destruct (Z.gtb_spec (Z.of_nat (length messages)) max_history).
  - unfold Py.slice_from. destruct (Z.ltb_spec (- max_history) 0); [|lia].
    f_equal. lia.
  - by replace (length messages - Z.to_nat max_history)%nat with 0%nat by lia.
Qed.

(** X19: an open-chat message from end to end.  The model is sent the
    system prompt followed by the last 10 messages of the conversation,
    the new user message counted in and last (so at most 9 earlier
    ones), each as its role and content, with the default [max_tokens]
    and [temperature].  Its completion comes back as the assistant
    message, with the reported token count, the configured model name
    and no retrieved chunks; its failure comes back as the response 500
    "LLM Service Error: ..." with the text of the failure. *)
Theorem add_message_open_chat_exchange `{EmbeddingModel, GroqClient}
    (s : db) (conversation_id : string) (message : MessageCreate.t)
    (clock : nat -> Z) (conv : ConversationDB.t) :
  conversations s !! conversation_id = Some conv ->
  ConversationDB.mode conv = open_chat ->
  let user_message := user_message_of (MessageCreate.content message) (clock 0%nat) in
  let history := ConversationDB.messages conv ++ [user_message] in
  let sent :=
    system_message "You are a helpful AI assistant."
    :: map (fun msg => {| ChatMessage.role := Message.role msg;
                          ChatMessage.content := Message.content msg |})
         (drop (length history - 10) history) in
  (length sent <= 11)%nat
  /\ last sent = Some (user_prompt (MessageCreate.content message))
  /\ match chat_completions_create (config.GROQ_MODEL config.settings) sent
             default_max_tokens default_temperature with
     | inr (content, tokens) =>
         (add_message conversation_id message clock s).1
         = inr (user_message,
                {| Message.role := "assistant";
                   Message.content := content;
                   Message.timestamp := clock 2%nat;
                   Message.tokens := Some tokens;
                   Message.model := Some (config.GROQ_MODEL config.settings);
                   Message.retrieved_chunks := Some [] |})
     | inl (Exception e) | inl (HTTPException _ e) =>
         (add_message conversation_id message clock s).1
         = inl (HTTPException 500 ("LLM Service Error: " +:+ e))
     end.
Proof.
  intros Hconv Hmode user_message history sent. split; [|split].
  - subst sent. cbn [length]. rewrite length_map, length_drop. lia.
  - subst sent history. rewrite drop_app_le by (rewrite length_app; cbn; lia).
    rewrite map_app. cbn [map]. rewrite app_comm_cons. apply last_snoc.
  - destruct (add_message_run s conversation_id message clock conv Hconv) as (r & Hr & ->).
    rewrite Hmode in Hr. unfold lift in Hr. injection Hr as <-.
    unfold generate_response. rewrite format_message_id, prepare_context_drop by lia.
    change (Z.to_nat 10) with 10%nat. subst sent history user_message.
    by destruct (chat_completions_create _ _ _ _) as [[e|c d]|[c t]].
Qed.

Lemma add_message_open_chat_exchange_witness :
  conversations example_db !! "conv-1" = Some example_conversation
  /\ ConversationDB.mode example_conversation = open_chat
  /\ (add_message (H := unit_vectors) (H0 := failing_groq)
        "conv-1" example_message later_clock example_db).1
     = inl (HTTPException 500 "LLM Service Error: Request timed out.").
Proof.
  split; [reflexivity|]. split; [reflexivity|].
  exact (proj2 (proj2 (add_message_open_chat_exchange
                         (H := unit_vectors) (H0 := failing_groq)
                         example_db "conv-1" example_message later_clock
                         example_conversation eq_refl eq_refl))).
Defined.

(** X20: a RAG answer cites chunks of its document.  When a RAG request
    returns, the document of the conversation is stored and the
    assistant message records the ids of retrieved chunks: 3 of them, or
    as many as the document has chunks when it has fewer (the handlers
    pass no [top_k]), each the id of a chunk of that document. *)
Theorem rag_answers_cite_document `{EmbeddingModel, GroqClient} (s : db) :
  (forall data uuid clock conv,
     ConversationCreate.mode data = rag ->
     (create_conversation data uuid clock s).1 = inr conv ->
     exists d document assistant_message ids,
       ConversationCreate.document_id data = Some d
       /\ documents s !! d = Some document
       /\ ConversationDB.messages conv !! 1%nat = Some assistant_message
       /\ Message.retrieved_chunks assistant_message = Some ids
       /\ Z.of_nat (length ids)
          = Z.min 3 (Z.of_nat (length (DocumentDB.chunks document)))
       /\ Forall (fun id => id ∈ map Chunk.chunk_id (DocumentDB.chunks document)) ids)
  /\ (forall conversation_id message clock conv user_message assistant_message,
        conversations s !! conversation_id = Some conv ->
        ConversationDB.mode conv = rag ->
        (add_message conversation_id message clock s).1
        = inr (user_message, assistant_message) ->
        exists d document ids,
          ConversationDB.document_id conv = Some d
          /\ documents s !! d = Some document
          /\ Message.retrieved_chunks assistant_message = Some ids
          /\ Z.of_nat (length ids)
             = Z.min 3 (Z.of_nat (length (DocumentDB.chunks document)))
          /\ Forall (fun id => id ∈ map Chunk.chunk_id (DocumentDB.chunks document)) ids).
Proof.
  split.
  - intros data uuid clock conv Hmode.
    destruct (bool_decide (ConversationCreate.mode data = rag)
              && falsy_id (ConversationCreate.document_id data)) eqn:Hvalid.
    { unfold create_conversation. rewrite try_except_run, Hvalid. done. }
    destruct (create_conversation_run s data uuid clock Hvalid) as (r & Hr & ->).
    destruct r as [e|response]; [done|]. cbn zeta.
    destruct (conversations s !! uuid); [done|]. cbn [fst]. intros [= <-].
    rewrite Hmode in Hr.
    destruct (rag_response_success _ _ _ _ _ _ Hr)
      as (d & document & relevant_chunks & Hd & Hdoc & Hret & Hids & _).
    destruct (retrieve_default_chunks _ _ _ Hret) as [Hlen Hin].
    exists d, document, (assistant_message_of response (clock 3%nat)),
      (map RAGService.chunk_id relevant_chunks).
    split; [done|]. split; [done|]. split; [done|].
    split; [by cbn; rewrite Hids|]. split; [by rewrite length_map|].
    by apply Forall_fmap.
  - intros conversation_id message clock conv user_message assistant_message Hconv Hmode.
    destruct (add_message_run s conversation_id message clock conv Hconv) as (r & Hr & ->).
    destruct r as [e|response]; [done|]. cbn [fst]. intros [= <- <-].
    rewrite Hmode in Hr.
    destruct (rag_response_success _ _ _ _ _ _ Hr)
      as (d & document & relevant_chunks & Hd & Hdoc & Hret & Hids & _).
    destruct (retrieve_default_chunks _ _ _ Hret) as [Hlen Hin].
    exists d, document, (map RAGService.chunk_id relevant_chunks).
    split; [done|]. split; [done|].
    split; [by cbn; rewrite Hids|]. split; [by rewrite length_map|].
    by apply Forall_fmap.
Qed.

(** The question on the uploaded example file: its single chunk is
    cited. *)
Example rag_answer_on_example_file :
  (ConversationDB.messages
   <$> conversations asked_db !! "conv-2")
  = Some [user_message_of "which fox?" 1002;
          {| Message.role := "assistant";
             Message.content := "Hello! How can I help?";
             Message.timestamp := 1003;
             Message.tokens := Some 7;
             Message.model := Some "llama-3.1-8b-instant";
             Message.retrieved_chunks := Some ["chunk-0"] |}].
Proof. reflexivity. Qed.

End Handlers.

(* ===================================================================== *)
(** ** The document handlers *)
(* ===================================================================== *)

Section Documents.
Import LLMService main Spec Examples.

Lemma zip_map_r {A B} (f : A -> B) (l : list A) :
  zip l (map f l) = map (fun x => (x, f x)) l.
Proof. induction l as [|x l IH]; [done|]. cbn. by rewrite IH. Qed.

(** The request, run up to the text of the upload. *)
Lemma upload_document_run `{EmbeddingModel, TextExtraction}
    (s : db) (file : UploadFile.t) (chunk_uuid : nat -> string) (uuid : string)
    (utcnow : Z) :
  upload_document file chunk_uuid uuid utcnow s
  = if bool_decide (UploadFile.content_type file ∈ allowed_types)
    then
      match extract_text file with
      | inl e => (inl (http_error e), s)
      | inr text =>
          let document :=
            {| DocumentDB.document_id := uuid;
               DocumentDB.filename := UploadFile.filename file;
               DocumentDB.chunks :=
                 imap (fun i chunk =>
                         {| Chunk.chunk_id := chunk_uuid i;
                            Chunk.text := chunk;
                            Chunk.embedding := encode chunk;
                            Chunk.chunk_index := Z.of_nat i |})
                      (RAGService.chunk_text text None);
               DocumentDB.total_chunks :=
                 Z.of_nat (length (RAGService.chunk_text text None));
               DocumentDB.uploaded_at := utcnow |} in
          match documents s !! uuid with
          | Some _ => (inl (HTTPException 500 "DuplicateKeyError"), s)
          | None =>
              (inr (document_info document),
               {| conversations := conversations s;
                  documents := <[uuid := document]> (documents s) |})
          end
      end
    else (inl (HTTPException 400 "Unsupported file type. Allowed: txt, pdf"), s).
Proof.
  unfold upload_document. rewrite try_except_run.
  destruct (bool_decide (UploadFile.content_type file ∈ allowed_types)); [|done].
  cbn [negb]. rewrite bind_run. unfold lift at 1.
  destruct (extract_text file) as [e|text]; [done|].
  unfold RAGService.generate_embeddings. rewrite zip_map_r.
  rewrite imap_fmap, length_imap. unfold compose.
  rewrite bind_run. unfold DocumentRepo.create. cbn [DocumentDB.document_id].
  by destruct (documents s !! uuid).
Qed.

(** X21: an upload whose declared content type is neither "text/plain"
    nor "application/pdf" is answered 400 before its bytes are looked
    at, and nothing is stored. *)
Theorem upload_document_unsupported_type `{EmbeddingModel, TextExtraction}
    (s : db) (file : UploadFile.t) (chunk_uuid : nat -> string) (uuid : string)
    (utcnow : Z) :
  UploadFile.content_type file ∉ allowed_types ->
  upload_document file chunk_uuid uuid utcnow s
  = (inl (HTTPException 400 "Unsupported file type. Allowed: txt, pdf"), s).
Proof.
  intros Htype. by rewrite upload_document_run, bool_decide_eq_false_2.
Qed.

Lemma upload_document_unsupported_type_witness :
  (UploadFile.content_type image_file ∉ allowed_types)
  /\ upload_document (H := unit_vectors) (H0 := ascii_text)
       image_file example_chunk_uuid "doc-2" 3000 example_db
     = (inl (HTTPException 400 "Unsupported file type. Allowed: txt, pdf"), example_db).
Proof.
  assert (UploadFile.content_type image_file ∉ allowed_types) as Htype.
  { by apply (bool_decide_unpack _). }
  split; [exact Htype|].
  exact (upload_document_unsupported_type (H := unit_vectors) (H0 := ascii_text)
           example_db image_file example_chunk_uuid "doc-2" 3000 Htype).
Defined.

(** X22: an upload of an accepted type whose text can be extracted,
    under an id that is not in use, returns the id, the file name, the
    number of chunks of [chunk_text] on the text (with the default chunk
    size) and the upload time.  The stored document holds one chunk per
    chunk of the text, in order: the [i]-th has that text, the [i]-th
    drawn chunk id, [chunk_index = i] and the embedding of its text.
    Conversations and other documents are untouched; [get_document]
    returns the same metadata again, and [delete_document] gives back
    the store as it was. *)
Theorem upload_document_stores `{EmbeddingModel, TextExtraction}
    (s : db) (file : UploadFile.t) (chunk_uuid : nat -> string) (uuid : string)
    (utcnow : Z) (text : string) :
  UploadFile.content_type file ∈ allowed_types ->
  extract_text file = inr text ->
  documents s !! uuid = None ->
  let chunks := RAGService.chunk_text text None in
  let info :=
    {| DocumentInfo.document_id := uuid;
       DocumentInfo.filename := UploadFile.filename file;
       DocumentInfo.total_chunks := Z.of_nat (length chunks);
       DocumentInfo.uploaded_at := utcnow |} in
  let s' := (upload_document file chunk_uuid uuid utcnow s).2 in
  (upload_document file chunk_uuid uuid utcnow s).1 = inr info
  /\ conversations s' = conversations s
  /\ (forall other, other <> uuid -> documents s' !! other = documents s !! other)
  /\ (exists document,
        documents s' !! uuid = Some document
        /\ DocumentDB.document_id document = uuid
        /\ DocumentDB.filename document = UploadFile.filename file
        /\ DocumentDB.uploaded_at document = utcnow
        /\ DocumentDB.total_chunks document
           = Z.of_nat (length (DocumentDB.chunks document))
        /\ map Chunk.text (DocumentDB.chunks document) = chunks
        /\ forall i c,
             DocumentDB.chunks document !! i = Some c ->
             Chunk.chunk_id c = chunk_uuid i
             /\ Chunk.chunk_index c = Z.of_nat i
             /\ Chunk.embedding c = encode (Chunk.text c))
  /\ get_document uuid s' = (inr info, s')
  /\ delete_document uuid s' = (inr "Document deleted successfully", s).
Proof.
  intros Hallowed Htext Hfresh chunks info s'. subst s'.
  rewrite upload_document_run, bool_decide_eq_true_2 by done.
  rewrite Htext. cbn zeta. rewrite Hfresh. cbn [fst snd conversations documents].
  fold chunks.
  split; [done|]. split; [done|].
  split; [by intros other Hother; rewrite lookup_insert_ne|].
  split.
  { eexists. rewrite lookup_insert_eq. split; [done|].
    cbn [DocumentDB.document_id DocumentDB.filename DocumentDB.uploaded_at
         DocumentDB.total_chunks DocumentDB.chunks].
    do 3 (split; [done|]). split; [by rewrite length_imap|]. split.
    - apply list_eq. intros i. rewrite list_lookup_fmap, list_lookup_imap.
      by destruct (chunks !! i).
    - intros i c. rewrite list_lookup_imap.
      destruct (chunks !! i) as [chunk|]; [|done]. by intros [= <-]. }
  split.
  - unfold get_document. rewrite try_except_run, bind_run.
    unfold DocumentRepo.get_by_id. cbn [mbind option_bind documents].
    by rewrite lookup_insert_eq.
  - rewrite delete_document_run. cbn [documents conversations].
    rewrite lookup_insert_eq, delete_insert_id by done. by rewrite db_eta.
Qed.

Lemma upload_document_stores_witness :
  UploadFile.content_type example_file ∈ allowed_types
  /\ extract_text (H := ascii_text) example_file = inr "the quick brown fox"
  /\ documents example_db !! "doc-1" = None
  /\ (upload_document (H := unit_vectors) (H0 := ascii_text)
        example_file example_chunk_uuid "doc-1" 3000 example_db).1
     = inr {| DocumentInfo.document_id := "doc-1";
              DocumentInfo.filename := "notes.txt";
              DocumentInfo.total_chunks := 1;
              DocumentInfo.uploaded_at := 3000 |}
  /\ delete_document "doc-1" example_library
     = (inr "Document deleted successfully", example_db).
Proof.
  assert (UploadFile.content_type example_file ∈ allowed_types) as Hallowed.
  { by apply (bool_decide_unpack _). }
  assert (extract_text (H := ascii_text) example_file = inr "the quick brown fox")
    as Htext by reflexivity.
  assert (documents example_db !! "doc-1" = None) as Hfresh by reflexivity.
  split; [exact Hallowed|]. split; [exact Htext|]. split; [exact Hfresh|].
  pose proof (upload_document_stores (H := unit_vectors) (H0 := ascii_text)
                example_db example_file example_chunk_uuid "doc-1" 3000
                "the quick brown fox" Hallowed Htext Hfresh) as Hthm.
  split; [exact (proj1 Hthm)|].
  exact (proj2 (proj2 (proj2 (proj2 (proj2 Hthm))))).
Defined.

(** X23: an upload that is answered with an error, whatever the error
    (the type, the extraction of the text, an id already in use), has
    stored nothing. *)
Theorem upload_document_all_or_nothing `{EmbeddingModel, TextExtraction}
    (s : db) (file : UploadFile.t) (chunk_uuid : nat -> string) (uuid : string)
    (utcnow : Z) (e : exn) :
  (upload_document file chunk_uuid uuid utcnow s).1 = inl e ->
  (upload_document file chunk_uuid uuid utcnow s).2 = s.
Proof.
  rewrite upload_document_run.
  destruct (bool_decide (UploadFile.content_type file ∈ allowed_types)); [|done].
  destruct (extract_text file) as [e'|text]; [done|]. cbn zeta.
  by destruct (documents s !! uuid).
Qed.

Lemma upload_document_all_or_nothing_witness :
  (upload_document (H := unit_vectors) (H0 := ascii_text)
     example_file example_chunk_uuid "doc-1" 4000 example_library).1
  = inl (HTTPException 500 "DuplicateKeyError")
  /\ (upload_document (H := unit_vectors) (H0 := ascii_text)
        example_file example_chunk_uuid "doc-1" 4000 example_library).2
     = example_library.
Proof.
  assert ((upload_document (H := unit_vectors) (H0 := ascii_text)
             example_file example_chunk_uuid "doc-1" 4000 example_library).1
          = inl (HTTPException 500 "DuplicateKeyError")) as Hret by reflexivity.
  split; [exact Hret|].
  exact (upload_document_all_or_nothing (H := unit_vectors) (H0 := ascii_text)
           example_library example_file example_chunk_uuid "doc-1" 4000 _ Hret).
Defined.

Lemma foldl_append (acc : string) (pages : list string) :
  foldl (fun text page => text +:+ page) acc pages = acc +:+ Py.join "" pages.
Proof.
  revert acc. induction pages as [|page pages IH]; intros acc.
  - cbn. by rewrite app_empty_r.
  - cbn [foldl]. rewrite IH, append_assoc. f_equal.
    destruct pages as [|page' pages]; [cbn; by rewrite app_empty_r|done].
Qed.

Lemma join_empty_token (pages : list string) :
  pages <> [] -> Forall is_token pages -> is_token (Py.join "" pages).
Proof.
  intros Hne Hall. induction Hall as [|page pages [Hpage Hns] Hall IH]; [done|].
  destruct pages as [|page' pages]; [done|].
  change (Py.join "" (page :: page' :: pages))
    with (page +:+ "" +:+ Py.join "" (page' :: pages)).
  rewrite app_empty_l. destruct IH as [_ Hrest]; [done|]. split.
  - by destruct page.
  - by rewrite no_space_app, Hns, Hrest.
Qed.

(** X24: the text of a PDF is the texts of its pages put one behind the
    other with nothing in between; so when every page is a single word,
    the whole document reads as one word. *)
Theorem extract_text_pdf `{TextExtraction} (file : UploadFile.t) (pages : list string) :
  UploadFile.content_type file <> "text/plain" ->
  pdf_pages (UploadFile.content file) = inr pages ->
  extract_text file = inr (Py.join "" pages)
  /\ Py.len (Py.join "" pages) = foldr (fun page n => Py.len page + n) 0 pages
  /\ (pages <> [] -> Forall is_token pages ->
      Py.split (Py.join "" pages) = [Py.join "" pages]).
Proof.
  intros Htype Hpages. split; [|split].
  - unfold extract_text. rewrite bool_decide_eq_false_2 by done.
    rewrite Hpages. cbn [mbind res_bind mret res_ret].
    by rewrite foldl_append, app_empty_l.
  - clear. induction pages as [|page pages IH]; [done|].
    destruct pages as [|page' pages]; [cbn; lia|].
    change (Py.join "" (page :: page' :: pages))
      with (page +:+ "" +:+ Py.join "" (page' :: pages)).
    rewrite app_empty_l, len_app, IH. done.
  - intros Hne Hall.
    rewrite <- (join_singleton (Py.join "" pages)) at 1.
    apply split_join, Forall_singleton. by apply join_empty_token.
Qed.

Lemma extract_text_pdf_witness :
  UploadFile.content_type example_pdf <> "text/plain"
  /\ extract_text (H := two_pages) example_pdf = inr "retrievalaugmented"
  /\ Py.split "retrievalaugmented" = ["retrievalaugmented"].
Proof.
  assert (UploadFile.content_type example_pdf <> "text/plain") as Htype by discriminate.
  split; [exact Htype|].
  pose proof (extract_text_pdf (H := two_pages) example_pdf ["retrieval"; "augmented"]
                Htype eq_refl) as Hthm.
  split; [exact (proj1 Hthm)|].
  apply (proj2 (proj2 Hthm)); [discriminate|].
  repeat constructor; discriminate.
Defined.

(** X25: a document without chunks (a blank upload) can be stored, and
    asking it a question hands the retriever an empty array.  When the
    similarity library rejects that array, the request to create the
    conversation is answered with the library's error and stores
    nothing, and a message to a conversation on that document is
    answered with it after the user message was stored. *)
Theorem rag_on_empty_document `{EmbeddingModel, GroqClient}
    (s : db) (d : string) (document : DocumentDB.t) (query : string) (e : exn) :
  documents s !! d = Some document ->
  DocumentDB.chunks document = [] ->
  cosine_similarity (encode query) [] = inl e ->
  (forall data uuid clock,
     ConversationCreate.mode data = rag ->
     ConversationCreate.document_id data = Some d -> d <> "" ->
     ConversationCreate.first_message data = query ->
     create_conversation data uuid clock s = (inl (http_error e), s))
  /\ (forall conversation_id message clock conv,
        conversations s !! conversation_id = Some conv ->
        ConversationDB.mode conv = rag ->
        ConversationDB.document_id conv = Some d ->
        MessageCreate.content message = query ->
        add_message conversation_id message clock s
        = (inl (http_error e),
           {| conversations :=
                <[conversation_id :=
                    ConversationRepo.push_message
                      (user_message_of query (clock 0%nat)) (clock 1%nat) conv]>
                  (conversations s);
              documents := documents s |})).
Proof.
  intros Hdoc Hchunks Hsim.
  assert (forall system s1,
            documents s1 = documents s ->
            rag_response (Some d) query system s1 = (inl e, s1)) as Hrag.
  { intros system s1 Hs1. rewrite <- Hs1 in Hdoc.
    rewrite (rag_response_found d document query system s1 Hdoc), Hchunks.
    unfold RAGService.retrieve_relevant_chunks. cbn [map]. by rewrite Hsim. }
  split.
  - intros data uuid clock Hmode Hd Hne Hquery.
    destruct (create_conversation_run s data uuid clock) as (r & Hr & ->).
    { rewrite Hd. cbn. rewrite (bool_decide_eq_false_2 (d = "")) by done.
      apply andb_false_r. }
    rewrite Hmode, Hd, Hquery, Hrag in Hr by done. by injection Hr as <-.
  - intros conversation_id message clock conv Hconv Hmode Hd Hquery.
    destruct (add_message_run s conversation_id message clock conv Hconv) as (r & Hr & ->).
    rewrite Hmode, Hd, Hquery, Hrag in Hr by done. injection Hr as <-.
    by rewrite Hquery.
Qed.

Lemma rag_on_empty_document_witness :
  exists document,
    documents blank_library !! "doc-0" = Some document
    /\ DocumentDB.chunks document = []
    /\ DocumentDB.total_chunks document = 0
    /\ create_conversation (H := strict_vectors) (H0 := fixed_groq)
         {| ConversationCreate.mode := rag;
            ConversationCreate.first_message := "which fox?";
            ConversationCreate.document_id := Some "doc-0" |}
         "conv-3" example_clock blank_library
       = (inl (HTTPException 500 "Expected 2D array, got 1D array instead"),
          blank_library).
Proof.
  destruct (documents blank_library !! "doc-0") as [document|] eqn:Hdoc;
    [|discriminate Hdoc].
  exists document.
  assert (DocumentDB.chunks document = []) as Hchunks by (by injection Hdoc as <-).
  assert (DocumentDB.total_chunks document = 0) as Htotal by (by injection Hdoc as <-).
  split; [done|]. split; [exact Hchunks|]. split; [exact Htotal|].
  apply (proj1 (rag_on_empty_document (H := strict_vectors) (H0 := fixed_groq)
                  blank_library "doc-0" document "which fox?"
                  (Exception "Expected 2D array, got 1D array instead")
                  Hdoc Hchunks eq_refl));
    [reflexivity|reflexivity|discriminate|reflexivity].
Defined.

End Documents.

(* ===================================================================== *)
(** ** Requests in sequence *)
(* ===================================================================== *)

Section Lifecycle.
Import LLMService main Spec Examples.

(** X26: a conversation from creation to deletion.  Before it is created
    its id is unknown to [add_message]; once [create_conversation] has
    returned it, [delete_conversation] on its id reports success and
    gives back the store exactly as it was before the creation, where
    the id is unknown again. *)
Theorem conversation_lifecycle `{EmbeddingModel, GroqClient}
    (s : db) (data : ConversationCreate.t) (uuid : string) (clock : nat -> Z)
    (conv : ConversationDB.t) :
  (create_conversation data uuid clock s).1 = inr conv ->
  let s1 := (create_conversation data uuid clock s).2 in
  delete_conversation uuid s1 = (inr "Conversation deleted successfully", s)
  /\ (forall message clock',
        add_message uuid message clock' s
        = (inl (HTTPException 404 "Conversation not found"), s))
  /\ delete_conversation uuid s = (inl (HTTPException 404 "Conversation not found"), s).
Proof.
  intros Hret s1. subst s1. revert Hret.
  destruct (bool_decide (ConversationCreate.mode data = rag)
            && falsy_id (ConversationCreate.document_id data)) eqn:Hvalid.
  { unfold create_conversation. rewrite try_except_run, Hvalid. done. }
  destruct (create_conversation_run s data uuid clock Hvalid) as (r & _ & ->).
  destruct r as [e|response]; [done|]. cbn zeta.
  destruct (conversations s !! uuid) eqn:Hfresh; [done|].
  cbn [fst snd]. intros _. split; [|split].
  - unfold delete_conversation. rewrite try_except_run, bind_run.
    unfold ConversationRepo.delete. cbn [conversations documents].
    rewrite lookup_insert_eq, delete_insert_id by done. by rewrite db_eta.
  - intros message clock'. by apply add_message_unknown.
  - unfold delete_conversation. rewrite try_except_run, bind_run.
    unfold ConversationRepo.delete. by rewrite Hfresh.
Qed.

Lemma conversation_lifecycle_witness :
  (create_conversation (H := unit_vectors) (H0 := fixed_groq)
     {| ConversationCreate.mode := open_chat;
        ConversationCreate.first_message := "hello there";
        ConversationCreate.document_id := None |}
     "conv-1" example_clock empty_db).1 = inr example_conversation
  /\ delete_conversation "conv-1" example_db
     = (inr "Conversation deleted successfully", empty_db).
Proof.
  assert ((create_conversation (H := unit_vectors) (H0 := fixed_groq)
             {| ConversationCreate.mode := open_chat;
                ConversationCreate.first_message := "hello there";
                ConversationCreate.document_id := None |}
             "conv-1" example_clock empty_db).1 = inr example_conversation) as Hret
    by reflexivity.
  split; [exact Hret|].
  exact (proj1 (conversation_lifecycle (H := unit_vectors) (H0 := fixed_groq)
                  empty_db _ "conv-1" example_clock example_conversation Hret)).
Defined.

(** X27: for an id under which no document is stored, [get_document]
    and [delete_document] answer 404 "Document not found" and change
    nothing, whatever else the store holds. *)
Theorem unknown_document_not_found (document_id : string) (s : db) :
  documents s !! document_id = None ->
  get_document document_id s = (inl (HTTPException 404 "Document not found"), s)
  /\ delete_document document_id s = (inl (HTTPException 404 "Document not found"), s).
Proof.
  intros Hdoc. split.
  - unfold get_document. rewrite try_except_run, bind_run.
    unfold DocumentRepo.get_by_id. cbn [mbind option_bind]. by rewrite Hdoc.
  - by rewrite delete_document_run, Hdoc.
Qed.

Lemma unknown_document_not_found_witness :
  documents orphaned_db !! "doc-1" = None
  /\ get_document "doc-1" orphaned_db
     = (inl (HTTPException 404 "Document not found"), orphaned_db).
Proof.
  assert (documents orphaned_db !! "doc-1" = None) as Hdoc by reflexivity.
  split; [exact Hdoc|].
  exact (proj1 (unknown_document_not_found "doc-1" orphaned_db Hdoc)).
Defined.

(** *** What the handlers keep true of the store *)

Lemma chunk_text_nonempty (text : string) (chunk_size : option Z) :
  Forall (fun c => c <> "") (RAGService.chunk_text text chunk_size).
Proof.
  unfold RAGService.chunk_text.
  set (cs := Py.or_default chunk_size (config.CHUNK_SIZE config.settings)).
  rewrite chunk_words_groups.
  pose proof (chunk_groups_tokens cs text) as Htok.
  pose proof (chunk_groups_ok cs (Py.split text)) as Hok.
  apply Forall_map. apply Forall_forall. intros g Hg.
  pose proof (proj1 (Forall_forall _ _) Htok g Hg) as Hgtok.
  pose proof (proj1 (Forall_forall _ _) Hok g Hg) as [Hne _].
  intros Hempty. apply Hne. rewrite <- (split_join g Hgtok), Hempty. done.
Qed.

Lemma push_message_ok (id : string) (message : Message.t) (utcnow : Z)
    (conv : ConversationDB.t) :
  message_ok message -> conversation_ok id conv ->
  conversation_ok id (ConversationRepo.push_message message utcnow conv).
Proof.
  intros Hm (Hid & Hfirst & Hsecond & Hall & Hrag). unfold conversation_ok. cbn.
  split; [done|].
  destruct (ConversationDB.messages conv) as [|m1 [|m2 messages]]; [done|done|].
  split; [done|]. split; [done|]. split; [|done].
  apply Forall_app. split; [done|]. by apply Forall_singleton.
Qed.

Lemma user_message_ok (content : string) (utcnow : Z) :
  message_ok (user_message_of content utcnow).
Proof. split; [by left|by eexists]. Qed.

Lemma assistant_message_ok (response : response) (utcnow : Z) :
  message_ok (assistant_message_of response utcnow).
Proof. split; [by right|by eexists]. Qed.

Lemma store_ok_insert_conversation (s : db) (id : string) (conv : ConversationDB.t) :
  store_ok s -> conversation_ok id conv ->
  store_ok {| conversations := <[id := conv]> (conversations s);
              documents := documents s |}.
Proof.
  intros [Hconvs Hdocs] Hconv. split; [|done].
  intros id' conv'. cbn. rewrite lookup_insert. case_decide as Hid.
  - subst id'. by intros [= <-].
  - apply Hconvs.
Qed.

Lemma create_conversation_ok `{EmbeddingModel, GroqClient}
    (data : ConversationCreate.t) (uuid : string) (clock : nat -> Z) :
  preserves store_ok (create_conversation data uuid clock).
Proof.
  intros s Hs.
  destruct (bool_decide (ConversationCreate.mode data = rag)
            && falsy_id (ConversationCreate.document_id data)) eqn:Hvalid.
  { unfold create_conversation. rewrite try_except_run, Hvalid. done. }
  destruct (create_conversation_run s data uuid clock Hvalid) as (r & _ & ->).
  destruct r as [e|response]; [done|]. cbn zeta.
  destruct (conversations s !! uuid); [done|]. cbn [snd].
  apply store_ok_insert_conversation; [done|].
  split; [done|]. split; [done|]. split; [done|]. split.
  { repeat constructor; [apply user_message_ok|apply assistant_message_ok]. }
  cbn. intros Hmode. rewrite Hmode in Hvalid.
  destruct (ConversationCreate.document_id data) as [d|]; [|done].
  exists d. split; [done|]. intros ->. done.
Qed.

Lemma add_message_ok `{EmbeddingModel, GroqClient}
    (conversation_id : string) (message : MessageCreate.t) (clock : nat -> Z) :
  preserves store_ok (add_message conversation_id message clock).
Proof.
  intros s Hs.
  destruct (conversations s !! conversation_id) as [conv|] eqn:Hconv;
    [|by rewrite add_message_unknown].
  destruct (add_message_run s conversation_id message clock conv Hconv) as (r & _ & ->).
  pose proof (proj1 Hs conversation_id conv Hconv) as Hok.
  destruct r as [e|response]; cbn [snd]; apply store_ok_insert_conversation; try done.
  - apply push_message_ok; [apply user_message_ok|done].
  - apply push_message_ok; [apply assistant_message_ok|].
    apply push_message_ok; [apply user_message_ok|done].
Qed.

Lemma delete_conversation_ok (conversation_id : string) :
  preserves store_ok (delete_conversation conversation_id).
Proof.
  intros s [Hconvs Hdocs]. unfold delete_conversation.
  rewrite try_except_run, bind_run. unfold ConversationRepo.delete.
  destruct (conversations s !! conversation_id); [|done].
  split; [|done]. intros id conv. cbn. rewrite lookup_delete.
  case_decide; [done|]. apply Hconvs.
Qed.

Lemma upload_document_ok `{EmbeddingModel, TextExtraction}
    (file : UploadFile.t) (chunk_uuid : nat -> string) (uuid : string) (utcnow : Z) :
  preserves store_ok (upload_document file chunk_uuid uuid utcnow).
Proof.
  intros s Hs.
  rewrite upload_document_run.
  destruct (bool_decide (UploadFile.content_type file ∈ allowed_types)); [|done].
  destruct (extract_text file) as [e|text]; [done|]. cbn zeta.
  destruct (documents s !! uuid); [done|]. cbn [snd].
  destruct Hs as [Hconvs Hdocs]. split; [done|].
  intros id document. cbn [documents]. rewrite lookup_insert. case_decide as Hid.
  - subst id. intros [= <-]. split; [done|]. cbn.
    split; [by rewrite length_imap|].
    intros i c. rewrite list_lookup_imap.
    destruct (RAGService.chunk_text text None !! i) as [chunk|] eqn:Hchunk; [|done].
    intros [= <-]. split; [done|]. cbn.
    apply (proj1 (Forall_forall _ _) (chunk_text_nonempty text None)).
    by eapply list_elem_of_lookup_2.
  - apply Hdocs.
Qed.

Lemma get_document_ok (document_id : string) :
  preserves store_ok (get_document document_id).
Proof.
  intros s Hs. unfold get_document. rewrite try_except_run, bind_run.
  unfold DocumentRepo.get_by_id. cbn [mbind option_bind].
  by destruct (documents s !! document_id).
Qed.

Lemma delete_document_ok (document_id : string) :
  preserves store_ok (delete_document document_id).
Proof.
  intros s [Hconvs Hdocs]. rewrite delete_document_run.
  destruct (documents s !! document_id); [|done].
  split; [done|]. intros id document. cbn. rewrite lookup_delete.
  case_decide; [done|]. apply Hdocs.
Qed.

(** X28: in every store reached from the empty one by requests to the
    six handlers in any order, with any answers and failures of the
    libraries: each conversation is stored under its own id, opens with
    a user message followed by an assistant message, holds only user and
    assistant messages that carry a token count, and names a document
    when it is in RAG mode; each document is stored under its own id,
    [total_chunks] is the number of its chunks, the [chunk_index] of
    each chunk is its position, and no chunk has an empty text. *)
Theorem store_invariant (s : db) :
  rtc request empty_db s -> store_ok s.
Proof.
  intros Hreach.
  assert (store_ok empty_db) as Hinit.
  { split; intros id x; cbn; by rewrite lookup_empty. }
  revert Hinit. induction Hreach as [|s1 s2 s3 Hstep _ IH]; [done|].
  intros Hs1. apply IH. clear IH.
  destruct Hstep as [E G data uuid clock s|E G id message clock s|id s
                    |E T file chunk_uuid uuid utcnow s|id s|id s].
  - exact (create_conversation_ok data uuid clock s Hs1).
  - exact (add_message_ok id message clock s Hs1).
  - exact (delete_conversation_ok id s Hs1).
  - exact (upload_document_ok file chunk_uuid uuid utcnow s Hs1).
  - exact (get_document_ok id s Hs1).
  - exact (delete_document_ok id s Hs1).
Qed.

(** The store after a creation, an upload, a question on the upload and
    the deletion of the document. *)
Lemma store_invariant_witness :
  rtc request empty_db orphaned_db /\ store_ok orphaned_db.
Proof.
  assert (rtc request empty_db orphaned_db) as Hreach.
  { apply (rtc_l _ _ example_db);
      [exact (request_create unit_vectors fixed_groq _ _ _ empty_db)|].
    apply (rtc_l _ _ example_library);
      [exact (request_upload unit_vectors ascii_text _ _ _ _ example_db)|].
    apply (rtc_l _ _ asked_db);
      [exact (request_create unit_vectors fixed_groq _ _ _ example_library)|].
    apply (rtc_l _ _ orphaned_db);
      [exact (request_delete_document "doc-1" asked_db)|].
    apply rtc_refl. }
  split; [exact Hreach|].
  exact (store_invariant orphaned_db Hreach).
Defined.

End Lifecycle.
